(** * Gym management: data store and subscription gate

    A shallow embedding of [gym_manager.py] (class [GymManager]), of the
    accounts and the subscription check of [auth_manager.py] (class
    [AuthManager]) and of [allowed_file] of [app.py], with the properties of
    the specification, and further properties of the code, proved about
    them.

    Conventions of the embedding.
    - A Python [dict] is an association list in insertion order ([Dict.t]);
      its keys are pairwise distinct ([Dict.wf]), which every operation
      preserves.
    - Strings are sequences of characters with a code below 256.  The
      classes of characters ([\d], [isalpha], [upper], ...) are modelled on
      the codes below 128, and a theorem that depends on one of them is
      stated for ASCII text ([is_ascii]).
    - Amounts are Python [float]s, as the type hints declare them and as
      [app.py] passes them ([float(...)] of a form field): binary64 numbers,
      modelled by the primitive floats, whose operations round as IEEE 754
      does.  An [int] [0] that the code mixes in (the start of [sum], the
      margin without revenue) is [0.0], which is equal to it and adds like
      it.  [sum] adds from left to right, as CPython up to 3.11 does (later
      versions compensate the rounding errors of a sum of floats).
    - [strftime] is that of CPython on Linux: [%Y] is not zero-filled.
    - [datetime.now()] is an explicit argument [now] of every operation that
      reads the clock.
    - A [GymManager] is the in-memory document [data] and the content of its
      JSON file [file]; [save_data] copies the former to the latter. *)

From Stdlib Require Import List String Ascii ZArith QArith Qround Lia Bool.
From Stdlib Require Import Permutation DecimalString Qabs Lqa DecimalZ Sorted.
From Stdlib Require Import PrimFloat FloatOps SpecFloat.
Import ListNotations.

Local Open Scope string_scope.
Local Open Scope list_scope.

(** ** Python dictionaries *)

Module Dict.

Section Defs.
Context {V : Type}.

Definition t := list (string * V).

Definition empty : t := [].

(** [d.get(k)] *)
Fixpoint get (k : string) (d : t) : option V :=
  match d with
  | [] => None
  | (k', v) :: r => if String.eqb k' k then Some v else get k r
  end.

(** [k in d] *)
Definition contains (k : string) (d : t) : bool :=
  match get k d with Some _ => true | None => false end.

(** [d[k] = v]: an existing key keeps its position, a new one goes last. *)
Fixpoint set (k : string) (v : V) (d : t) : t :=
  match d with
  | [] => [(k, v)]
  | (k', v') :: r =>
      if String.eqb k' k then (k, v) :: r else (k', v') :: set k v r
  end.

(** [del d[k]] *)
Definition del (k : string) (d : t) : t :=
  filter (fun kv => negb (String.eqb (fst kv) k)) d.

(** [d[k] = f(d[k])], for a key that is present. *)
Definition adjust (k : string) (f : V -> V) (d : t) : t :=
  match get k d with
  | Some v => set k (f v) d
  | None => d
  end.

Definition len (d : t) : nat := List.length d.
Definition keys (d : t) : list string := map fst d.
Definition values (d : t) : list V := map snd d.

(** Keys are pairwise distinct. *)
Definition wf (d : t) : Prop := NoDup (keys d).
End Defs.

Arguments t : clear implicits.

End Dict.

(** ** Strings, numbers and truth values *)

(** [str(n)] of an [int]. *)
Definition str (n : Z) : string := NilZero.string_of_int (Z.to_int n).

Definition zfill (w : nat) (s : string) : string :=
  String.concat "" (repeat "0" (w - String.length s)) ++ s.

(** [f"{n:0wd}"]: zero-filled to at least [w] characters, sign first. *)
Definition format_0d (w : nat) (n : Z) : string :=
  if (n <? 0)%Z then "-" ++ zfill (w - 1) (str (- n)) else zfill w (str n).

(** The truth value of an optional string: [None] and [''] are false. *)
Definition truthy (s : option string) : bool :=
  match s with
  | Some (String _ _) => true
  | _ => false
  end.

(** [s or ''] *)
Definition or_empty (s : option string) : string :=
  match s with
  | Some s' => s'
  | None => ""
  end.

(** [s.startswith(p)] *)
Definition startswith (s p : string) : bool := String.prefix p s.

(** ** Dates: [datetime], [strptime], [strftime], [timedelta] *)

Record date := mkdate { year : Z; month : Z; day : Z }.

Record datetime := mkdatetime {
  dt_date : date;
  hour : Z;
  minute : Z;
  second : Z;
  microsecond : Z
}.

Section Dates.
Local Open Scope Z_scope.

Definition is_leap (y : Z) : bool :=
  ((y mod 4 =? 0) && negb (y mod 100 =? 0)) || (y mod 400 =? 0).

Definition days_in_month (y m : Z) : Z :=
  if m =? 2 then (if is_leap y then 29 else 28)
  else if (m =? 4) || (m =? 6) || (m =? 9) || (m =? 11) then 30
  else 31.

(** The arguments [datetime(y, m, d)] accepts; others raise [ValueError]. *)
Definition valid_date (y m d : Z) : bool :=
  (1 <=? y) && (y <=? 9999) && (1 <=? m) && (m <=? 12) &&
  (1 <=? d) && (d <=? days_in_month y m).

(** The value of a character that [\d] matches, among the characters below
    128: [0] to [9]. *)
Definition digit (c : ascii) : option Z :=
  let n := Z.of_N (N_of_ascii c) in
  if (48 <=? n) && (n <=? 57) then Some (n - 48) else None.

Definition orelse {A : Type} (x y : option A) : option A :=
  match x with
  | Some _ => x
  | None => y
  end.

(** [%Y] is the pattern [\d\d\d\d]. *)
Definition match_year (s : string) : option (Z * string) :=
  match s with
  | String a (String b (String c (String d r))) =>
      match digit a, digit b, digit c, digit d with
      | Some a', Some b', Some c', Some d' =>
          Some (1000 * a' + 100 * b' + 10 * c' + d', r)
      | _, _, _, _ => None
      end
  | _ => None
  end.

(** Two characters [a] [b] with [a] a digit satisfying [pa] and [b] a digit
    satisfying [pb]; the value is the two-digit number. *)
Definition match_two (pa pb : Z -> bool) (s : string) : option (Z * string) :=
  match s with
  | String a (String b r) =>
      match digit a, digit b with
      | Some a', Some b' =>
          if pa a' && pb b' then Some (10 * a' + b', r) else None
      | _, _ => None
      end
  | _ => None
  end.

(** The pattern [[1-9]]. *)
Definition match_one (s : string) : option (Z * string) :=
  match s with
  | String a r =>
      match digit a with
      | Some a' => if 1 <=? a' then Some (a', r) else None
      | None => None
      end
  | _ => None
  end.

(** [%d] is [3[0-1]|[1-2]\d|0[1-9]|[1-9]| [1-9]]; it ends the format, so
    the first alternative that matches is taken. *)
Definition match_day (s : string) : option (Z * string) :=
  orelse (match_two (fun a => a =? 3) (fun b => b <=? 1) s)
 (orelse (match_two (fun a => (1 <=? a) && (a <=? 2)) (fun _ => true) s)
 (orelse (match_two (fun a => a =? 0) (fun b => 1 <=? b) s)
 (orelse (match_one s)
         (match s with
          | String " " r => match_one r
          | _ => None
          end)))).

Definition match_dash_day (s : string) : option (Z * string) :=
  match s with
  | String "-" r => match_day r
  | _ => None
  end.

(** [%m] is [1[0-2]|0[1-9]|[1-9]]; an alternative is kept only if the rest
    of the format matches after it. *)
Definition match_month_day (s : string) : option (Z * (Z * string)) :=
  let after (x : option (Z * string)) :=
    match x with
    | Some (m, r) =>
        match match_dash_day r with
        | Some dr => Some (m, dr)
        | None => None
        end
    | None => None
    end in
  orelse (after (match_two (fun a => a =? 1) (fun b => b <=? 2) s))
 (orelse (after (match_two (fun a => a =? 0) (fun b => 1 <=? b) s))
         (after (match_one s))).

(** [datetime.strptime(s, '%Y-%m-%d')]; [None] stands for [ValueError]
    (no match, unconverted data left, or a date that does not exist). *)
Definition strptime_ymd (s : string) : option datetime :=
  match match_year s with
  | Some (y, String "-" r) =>
      match match_month_day r with
      | Some (m, (d, EmptyString)) =>
          if valid_date y m d then Some (mkdatetime (mkdate y m d) 0 0 0 0)
          else None
      | _ => None
      end
  | _ => None
  end.

Definition date_compare (a b : date) : comparison :=
  match year a ?= year b with
  | Eq => match month a ?= month b with
          | Eq => day a ?= day b
          | c => c
          end
  | c => c
  end.

Definition datetime_compare (a b : datetime) : comparison :=
  match date_compare (dt_date a) (dt_date b) with
  | Eq => match hour a ?= hour b with
          | Eq => match minute a ?= minute b with
                  | Eq => match second a ?= second b with
                          | Eq => microsecond a ?= microsecond b
                          | c => c
                          end
                  | c => c
                  end
          | c => c
          end
  | c => c
  end.

(** [a <= b] on [datetime]s. *)
Definition datetime_leb (a b : datetime) : bool :=
  match datetime_compare a b with
  | Gt => false
  | _ => true
  end.

(** [a <= b] on calendar dates. *)
Definition date_leb (a b : date) : bool :=
  match date_compare a b with
  | Gt => false
  | _ => true
  end.

(** The day after [d]; [None] past 9999-12-31 ([OverflowError]). *)
Definition next_day (d : date) : option date :=
  if day d <? days_in_month (year d) (month d)
  then Some (mkdate (year d) (month d) (day d + 1))
  else if month d <? 12 then Some (mkdate (year d) (month d + 1) 1)
  else if year d <? 9999 then Some (mkdate (year d + 1) 1 1)
  else None.

(** [d + timedelta(days=n)] *)
Fixpoint plus_days (n : nat) (d : date) : option date :=
  match n with
  | O => Some d
  | S n' => match next_day d with
            | Some d' => plus_days n' d'
            | None => None
            end
  end.

(** [strftime('%Y-%m')].  CPython hands the format to the C library, and
    that of Linux writes the year in decimal without filling it: a year
    below 1000 has fewer than four digits, where [%Y] of [strptime] asks for
    four. *)
Definition strftime_ym (d : date) : string :=
  str (year d) ++ "-" ++ format_0d 2 (month d).

(** [strftime('%Y-%m-%d')] *)
Definition strftime_ymd (d : date) : string :=
  strftime_ym d ++ "-" ++ format_0d 2 (day d).

(** [strftime('%Y-%m-%d %H:%M:%S')] *)
Definition strftime_ymd_hms (t : datetime) : string :=
  strftime_ymd (dt_date t) ++ " " ++ format_0d 2 (hour t) ++ ":" ++
  format_0d 2 (minute t) ++ ":" ++ format_0d 2 (second t).

End Dates.

(** ** Numbers *)

(** [sum(l)] of a list of floats: the additions start from [0] and go from
    left to right, each one rounded. *)
Definition sum (l : list float) : float := fold_left PrimFloat.add l 0%float.

(** The integer nearest to [q], ties going to the even one. *)
Definition round_half_even (q : Q) : Z :=
  let f := Qfloor q in
  match (q - inject_Z f ?= 1 # 2)%Q with
  | Lt => f
  | Gt => (f + 1)%Z
  | Eq => if Z.even f then f else (f + 1)%Z
  end.

(** The number [m * 2 ^ e]. *)
Definition exact_value (m : positive) (e : Z) : Q :=
  match e with
  | Z0 => inject_Z (Zpos m)
  | Zpos k => inject_Z (Zpos m * 2 ^ Zpos k)
  | Zneg k => Zpos m # (2 ^ k)
  end.

(** The float nearest to [n / 100], with the sign [s]. *)
Definition hundredths (s : bool) (n : Z) : float :=
  match n with
  | Zpos p => SF2Prim (SFdiv prec emax (S754_finite s p 0) (S754_finite false 100 0))
  | _ => SF2Prim (S754_zero s)
  end.

(** [round(x, 2)] of a float.  CPython writes the number that [x] stands
    for with two decimals, correctly rounded (a number half way between two
    goes to the even one), and reads the result back as a float; zeros,
    infinities and NaN are returned as they are. *)
Definition round2 (x : float) : float :=
  match Prim2SF x with
  | S754_finite s m e => hundredths s (round_half_even (exact_value m e * 100))
  | _ => x
  end.

(** ** The gym document *)

Record member := mkmember {
  m_id : string;
  m_name : string;
  m_phone : string;
  m_email : string;
  m_photo : option string;
  m_joined_date : string;
  m_active : bool;
  m_membership_type : string;
  m_is_trial : bool;
  m_trial_end_date : option string
}.

Record fee := mkfee {
  fee_amount : float;
  fee_paid_date : string;
  fee_notes : string
}.

Record expense := mkexpense {
  e_id : string;
  e_category : string;
  e_amount : float;
  e_date : string;
  e_description : string
}.

Record gym_class := mkclass {
  c_id : string;
  c_name : string;
  c_day : string;
  c_time : string;
  c_instructor : string;
  c_capacity : Z;
  c_attendees : list string
}.

(** The JSON document [self.data].  The keys ['expenses'], ['gym_details'],
    ['attendance'] and ['classes'] may be missing from a file; the operations
    create them on demand.  The key ['admin'] is never read and is left out. *)
Record document := mkdocument {
  members : Dict.t member;
  fees : Dict.t (Dict.t fee);
  expenses : option (Dict.t expense);
  next_member_id : Z;
  gym_details : option (Dict.t (option string));
  attendance : option (Dict.t (list string));
  classes : option (Dict.t gym_class)
}.

Definition set_members (f : Dict.t member -> Dict.t member) (d : document) :=
  mkdocument (f (members d)) (fees d) (expenses d) (next_member_id d)
             (gym_details d) (attendance d) (classes d).

Definition set_fees (f : Dict.t (Dict.t fee) -> Dict.t (Dict.t fee)) (d : document) :=
  mkdocument (members d) (f (fees d)) (expenses d) (next_member_id d)
             (gym_details d) (attendance d) (classes d).

Definition set_expenses (x : option (Dict.t expense)) (d : document) :=
  mkdocument (members d) (fees d) x (next_member_id d)
             (gym_details d) (attendance d) (classes d).

Definition set_next_member_id (n : Z) (d : document) :=
  mkdocument (members d) (fees d) (expenses d) n
             (gym_details d) (attendance d) (classes d).

Definition set_gym_details (x : option (Dict.t (option string))) (d : document) :=
  mkdocument (members d) (fees d) (expenses d) (next_member_id d)
             x (attendance d) (classes d).

Definition set_attendance (x : option (Dict.t (list string))) (d : document) :=
  mkdocument (members d) (fees d) (expenses d) (next_member_id d)
             (gym_details d) x (classes d).

Definition set_classes (x : option (Dict.t gym_class)) (d : document) :=
  mkdocument (members d) (fees d) (expenses d) (next_member_id d)
             (gym_details d) (attendance d) x.

(** [self.data[key]] for a key that may be missing, read after the check
    (or the creation) that makes it present. *)
Definition present {V : Type} (x : option (Dict.t V)) : Dict.t V :=
  match x with
  | Some d => d
  | None => Dict.empty
  end.

Definition is_none {A : Type} (x : option A) : bool :=
  match x with
  | Some _ => false
  | None => true
  end.

Definition default_gym_details : Dict.t (option string) :=
  [("name", Some "Gym Manager"); ("logo", None); ("currency", Some "$")].

(** [_create_empty_data] *)
Definition _create_empty_data : document :=
  mkdocument Dict.empty Dict.empty (Some Dict.empty) 1%Z
             (Some default_gym_details) None None.

(** ** The manager: a state and error monad *)

Record GymManager := mkGymManager {
  data : document;
  file : option document
}.

Inductive exn := ValueError | OverflowError.

Inductive outcome (A : Type) :=
| Return (a : A)
| Raise (e : exn).
Arguments Return {A} a.
Arguments Raise {A} e.

Definition M (A : Type) : Type := GymManager -> outcome A * GymManager.

Definition ret {A : Type} (a : A) : M A := fun g => (Return a, g).

Definition raise {A : Type} (e : exn) : M A := fun g => (Raise e, g).

Definition bind {A B : Type} (c : M A) (k : A -> M B) : M B :=
  fun g =>
    match c g with
    | (Return a, g') => k a g'
    | (Raise e, g') => (Raise e, g')
    end.

Notation "x <- c ;; k" := (bind c (fun x => k))
  (at level 61, c at next level, right associativity).
Notation "c ;; k" := (bind c (fun _ => k))
  (at level 61, right associativity).

(** [self.data] *)
Definition read : M document := fun g => (Return (data g), g).

(** An assignment inside [self.data]. *)
Definition modify (f : document -> document) : M unit :=
  fun g => (Return tt, mkGymManager (f (data g)) (file g)).

(** [save_data]: the whole document is written to the file. *)
Definition save_data : M unit :=
  fun g => (Return tt, mkGymManager (data g) (Some (data g))).

Definition when (b : bool) (c : M unit) : M unit := if b then c else ret tt.

(** ** [GymManager]: gym details and members *)

Definition get_gym_details : M (Dict.t (option string)) :=
  d <- read ;;
  when (is_none (gym_details d))
       (modify (set_gym_details (Some default_gym_details)) ;; save_data) ;;
  d <- read ;;
  when (negb (Dict.contains "currency" (present (gym_details d))))
       (modify (set_gym_details
                  (Some (Dict.set "currency" (Some "$") (present (gym_details d))))) ;;
        save_data) ;;
  d <- read ;;
  ret (present (gym_details d)).

Definition update_gym_details (name : string) (logo_path : option string)
    (currency : string) : M bool :=
  d <- read ;;
  when (is_none (gym_details d)) (modify (set_gym_details (Some Dict.empty))) ;;
  d <- read ;;
  let gd := Dict.set "currency" (Some currency)
              (Dict.set "name" (Some name) (present (gym_details d))) in
  modify (set_gym_details
            (Some (if truthy logo_path then Dict.set "logo" logo_path gd else gd))) ;;
  save_data ;;
  ret true.

Definition reset_data : M bool :=
  modify (fun _ => _create_empty_data) ;;
  save_data ;;
  ret true.

(** [(strptime(joined_date, '%Y-%m-%d') + timedelta(days=3)).strftime('%Y-%m-%d')] *)
Definition trial_end_of (joined_date : string) : M string :=
  match strptime_ymd joined_date with
  | None => raise ValueError
  | Some t =>
      match plus_days 3 (dt_date t) with
      | None => raise OverflowError
      | Some e => ret (strftime_ymd e)
      end
  end.

Definition add_member (now : datetime) (name phone : string)
    (photo : option string) (membership_type : string)
    (joined_date : option string) (is_trial : bool) (email : option string)
    : M Z :=
  d <- read ;;
  let member_id := str (next_member_id d) in
  let joined_date :=
    if truthy joined_date then or_empty joined_date
    else strftime_ymd (dt_date now) in
  trial_end <- (if is_trial
                then (e <- trial_end_of joined_date ;; ret (Some e))
                else ret None) ;;
  modify (set_members (Dict.set member_id
    (mkmember member_id name phone (or_empty email) photo joined_date true
              membership_type is_trial trial_end))) ;;
  modify (fun d' => set_next_member_id (next_member_id d' + 1) d') ;;
  save_data ;;
  ret (next_member_id d).

Definition update_member (member_id name phone membership_type : string)
    (joined_date email : option string) : M bool :=
  d <- read ;;
  if negb (Dict.contains member_id (members d)) then ret false else
  modify (set_members (Dict.adjust member_id (fun m =>
    mkmember (m_id m) name phone (m_email m) (m_photo m) (m_joined_date m)
             (m_active m) membership_type (m_is_trial m) (m_trial_end_date m)))) ;;
  when (negb (is_none email))
       (modify (set_members (Dict.adjust member_id (fun m =>
          mkmember (m_id m) (m_name m) (m_phone m) (or_empty email) (m_photo m)
                   (m_joined_date m) (m_active m) (m_membership_type m)
                   (m_is_trial m) (m_trial_end_date m))))) ;;
  when (truthy joined_date)
       (modify (set_members (Dict.adjust member_id (fun m =>
          mkmember (m_id m) (m_name m) (m_phone m) (m_email m) (m_photo m)
                   (or_empty joined_date) (m_active m) (m_membership_type m)
                   (m_is_trial m) (m_trial_end_date m))))) ;;
  save_data ;;
  ret true.

Definition delete_member (member_id : string) : M bool :=
  d <- read ;;
  if negb (Dict.contains member_id (members d)) then ret false else
  modify (set_members (Dict.del member_id)) ;;
  when (Dict.contains member_id (fees d)) (modify (set_fees (Dict.del member_id))) ;;
  save_data ;;
  ret true.

Definition get_all_members (d : document) : list member :=
  Dict.values (members d).

Definition get_member (d : document) (member_id : string) : option member :=
  Dict.get member_id (members d).

(** ** [GymManager]: expenses *)

Definition add_expense (category : string) (amount : float) (date description : string)
    : M bool :=
  d <- read ;;
  when (is_none (expenses d)) (modify (set_expenses (Some Dict.empty))) ;;
  d <- read ;;
  let expense_id :=
    ("EXP" ++ format_0d 4 (Z.of_nat (Dict.len (present (expenses d))) + 1))%string in
  modify (set_expenses (Some (Dict.set expense_id
    (mkexpense expense_id category amount date description)
    (present (expenses d))))) ;;
  save_data ;;
  ret true.

(** One step of a stable sort by date, latest first: [e] goes before the
    entries that are not later than it. *)
Fixpoint insert_by_date_desc (e : expense) (l : list expense) : list expense :=
  match l with
  | [] => [e]
  | x :: r =>
      if String.ltb (e_date e) (e_date x)
      then x :: insert_by_date_desc e r
      else e :: l
  end.

(** [l.sort(key=lambda x: x['date'], reverse=True)] *)
Definition sort_by_date_desc (l : list expense) : list expense :=
  fold_right insert_by_date_desc [] l.

Definition get_expenses (d : document) (month : option string) : list expense :=
  match expenses d with
  | None => []
  | Some es =>
      let all := Dict.values es in
      sort_by_date_desc
        (if truthy month
         then filter (fun e => startswith (e_date e) (or_empty month)) all
         else all)
  end.

Definition delete_expense (expense_id : string) : M bool :=
  d <- read ;;
  if is_none (expenses d) || negb (Dict.contains expense_id (present (expenses d)))
  then ret false else
  modify (set_expenses (Some (Dict.del expense_id (present (expenses d))))) ;;
  save_data ;;
  ret true.

(** ** [GymManager]: fees *)

Definition pay_fee (now : datetime) (member_id month : string) (amount : float)
    (paid_date notes : option string) : M bool :=
  d <- read ;;
  if negb (Dict.contains member_id (members d)) then ret false else
  when (negb (Dict.contains member_id (fees d)))
       (modify (set_fees (Dict.set member_id Dict.empty))) ;;
  let paid_date :=
    if truthy paid_date then or_empty paid_date else strftime_ymd_hms now in
  modify (set_fees (Dict.adjust member_id
    (Dict.set month (mkfee amount paid_date (or_empty notes))))) ;;
  save_data ;;
  ret true.

(** [self.data['fees'][member_id][month]], when both keys are present. *)
Definition fee_record (d : document) (member_id month : string) : option fee :=
  match Dict.get member_id (fees d) with
  | Some fs => Dict.get month fs
  | None => None
  end.

(** [member_id not in self.data['fees'] or month not in self.data['fees'][member_id]] *)
Definition no_fee_record (d : document) (member_id month : string) : bool :=
  negb (Dict.contains member_id (fees d)) ||
  negb (Dict.contains month (present (Dict.get member_id (fees d)))).

Definition delete_fee (member_id month : string) : M bool :=
  d <- read ;;
  if no_fee_record d member_id month then ret false else
  modify (set_fees (Dict.adjust member_id (Dict.del month))) ;;
  save_data ;;
  ret true.

Definition update_fee (member_id month : string) (amount : float) (date : string)
    (notes : option string) : M bool :=
  d <- read ;;
  if no_fee_record d member_id month then ret false else
  modify (set_fees (Dict.adjust member_id (Dict.adjust month (fun f =>
    mkfee amount date (fee_notes f))))) ;;
  when (negb (is_none notes))
       (modify (set_fees (Dict.adjust member_id (Dict.adjust month (fun f =>
          mkfee (fee_amount f) (fee_paid_date f) (or_empty notes)))))) ;;
  save_data ;;
  ret true.

Definition is_fee_paid (d : document) (member_id month : string) : bool :=
  if negb (Dict.contains member_id (fees d)) then false
  else Dict.contains month (present (Dict.get member_id (fees d))).

(** One entry of a fee history. *)
Record fee_entry := mkfee_entry {
  h_month : string;
  h_amount : float;
  h_paid_date : string;
  h_notes : string
}.

Fixpoint insert_by_month_desc (e : fee_entry) (l : list fee_entry) : list fee_entry :=
  match l with
  | [] => [e]
  | x :: r =>
      if String.ltb (h_month e) (h_month x)
      then x :: insert_by_month_desc e r
      else e :: l
  end.

Definition get_member_fee_history (d : document) (member_id : string)
    : list fee_entry :=
  if negb (Dict.contains member_id (fees d)) then []
  else
    fold_right insert_by_month_desc []
      (map (fun kv => mkfee_entry (fst kv) (fee_amount (snd kv))
                        (fee_paid_date (snd kv)) (fee_notes (snd kv)))
           (present (Dict.get member_id (fees d)))).

(** ** [GymManager]: attendance and classes *)

Definition log_attendance (now : datetime) (member_id : string) : M bool :=
  d <- read ;;
  if negb (Dict.contains member_id (members d)) then ret false else
  when (is_none (attendance d)) (modify (set_attendance (Some Dict.empty))) ;;
  d <- read ;;
  when (negb (Dict.contains member_id (present (attendance d))))
       (modify (set_attendance (Some (Dict.set member_id [] (present (attendance d)))))) ;;
  modify (fun d' => set_attendance
    (Some (Dict.adjust member_id (fun l => l ++ [strftime_ymd_hms now])
             (present (attendance d')))) d') ;;
  save_data ;;
  ret true.

Definition get_attendance (d : document) (member_id : string) : list string :=
  match attendance d with
  | None => []
  | Some a => rev (match Dict.get member_id a with Some l => l | None => [] end)
  end.

(** [capacity] is the value of [int(capacity)]. *)
Definition add_class (name day time instructor : string) (capacity : Z) : M string :=
  d <- read ;;
  when (is_none (classes d)) (modify (set_classes (Some Dict.empty))) ;;
  d <- read ;;
  let class_id := str (Z.of_nat (Dict.len (present (classes d))) + 1) in
  modify (set_classes (Some (Dict.set class_id
    (mkclass class_id name day time instructor capacity [])
    (present (classes d))))) ;;
  save_data ;;
  ret class_id.

(** [member_id in attendees] *)
Definition is_attendee (member_id : string) (attendees : list string) : bool :=
  existsb (String.eqb member_id) attendees.

Definition book_class (member_id class_id : string) : M bool :=
  d <- read ;;
  match Dict.get class_id (present (classes d)) with
  | None => ret false
  | Some cls =>
      if is_attendee member_id (c_attendees cls) then ret true
      else if (c_capacity cls <=? Z.of_nat (List.length (c_attendees cls)))%Z
      then ret false
      else
        modify (set_classes (Some (Dict.adjust class_id (fun c =>
          mkclass (c_id c) (c_name c) (c_day c) (c_time c) (c_instructor c)
                  (c_capacity c) (c_attendees c ++ [member_id]))
          (present (classes d))))) ;;
        save_data ;;
        ret true
  end.

Definition get_classes (d : document) : list gym_class :=
  match classes d with
  | None => []
  | Some cs => Dict.values cs
  end.

(** ** [GymManager]: payment status and profit and loss *)

(** An entry of the [paid] or [unpaid] list: the member's fields and, on a
    copy that was enriched, the keys ['last_paid'] and ['amount']. *)
Record member_row := mkrow {
  row_member : member;
  row_last_paid : option string;
  row_amount : option float
}.

Record payment_status := mkstatus {
  paid : list member_row;
  unpaid : list member_row
}.

(** The body of the loop over [self.data['members'].items()]. *)
Definition payment_status_step (d : document) (month : string)
    (acc : payment_status) (item : string * member) : payment_status :=
  let (member_id, m) := item in
  if is_fee_paid d member_id month then
    match fee_record d member_id month with
    | Some fee_info =>
        mkstatus (paid acc ++ [mkrow m (Some (fee_paid_date fee_info))
                                       (Some (fee_amount fee_info))])
                 (unpaid acc)
    | None => acc
    end
  else mkstatus (paid acc) (unpaid acc ++ [mkrow m None None]).

Definition get_payment_status (now : datetime) (d : document)
    (month : option string) : payment_status :=
  let month := match month with
               | None => strftime_ym (dt_date now)
               | Some m => m
               end in
  fold_left (payment_status_step d month) (members d) (mkstatus [] []).

(** [m.get('amount', 0)] *)
Definition amount_or_zero (r : member_row) : float :=
  match row_amount r with
  | Some a => a
  | None => 0%float
  end.

Record profit_loss := mkprofit_loss {
  revenue : float;
  total_expenses : float;
  net_profit : float;
  profit_margin : float
}.

Definition calculate_profit_loss (now : datetime) (d : document) (month : string)
    : profit_loss :=
  let status := get_payment_status now d (Some month) in
  let revenue := sum (map amount_or_zero (paid status)) in
  let expenses := get_expenses d (Some month) in
  let total_expenses := sum (map e_amount expenses) in
  let net_profit := (revenue - total_expenses)%float in
  let profit_margin :=
    if (0 <? revenue)%float then (net_profit / revenue * 100)%float
    else 0%float in
  mkprofit_loss revenue total_expenses net_profit (round2 profit_margin).

(** ** [AuthManager]: the subscription check *)

(** One payment of an account, [{date, amount, method, status}]. *)
Record payment := mkpayment {
  p_date : string;
  p_amount : float;
  p_method : string;
  p_status : string
}.

(** An account of [users.json]; a key that is missing or [null] is [None]. *)
Record user := mkuser {
  u_password : string;
  u_joined_at : option string;
  u_referral_code : option string;
  u_plan : option string;
  u_subscription_expiry : option string;
  u_subscription_status : option string;
  u_payment_proof : option string;
  u_payments : option (list payment)
}.

Definition is_subscription_active (users : Dict.t user) (now : datetime)
    (username : string) : outcome bool :=
  match Dict.get username users with
  | None => Return false
  | Some u =>
      if match u_plan u with
         | Some p => String.eqb p "free_lifetime"
         | None => false
         end
      then Return true
      else if negb (truthy (u_subscription_expiry u)) then Return false
      else
        match strptime_ymd (or_empty (u_subscription_expiry u)) with
        | None => Raise ValueError
        | Some expiry_date => Return (datetime_leb now expiry_date)
        end
  end.

Definition is_midnight (t : datetime) : Prop :=
  hour t = 0%Z /\ minute t = 0%Z /\ second t = 0%Z /\ microsecond t = 0%Z.

(** The time-of-day fields of a clock reading are not negative. *)
Definition clock_ok (t : datetime) : Prop :=
  (0 <= hour t)%Z /\ (0 <= minute t)%Z /\ (0 <= second t)%Z /\
  (0 <= microsecond t)%Z.

(** ** The payment status, as the specification describes it *)

(** The month a payment status is computed for. *)
Definition status_month (now : datetime) (month : option string) : string :=
  match month with
  | None => strftime_ym (dt_date now)
  | Some m => m
  end.

(** The members with a fee record for the month, in the order of the member
    mapping, each with the date and the amount of the record. *)
Definition paid_rows (d : document) (month : string)
    (items : list (string * member)) : list member_row :=
  flat_map (fun item : string * member =>
              match fee_record d (fst item) month with
              | Some f => [mkrow (snd item) (Some (fee_paid_date f))
                                 (Some (fee_amount f))]
              | None => []
              end) items.

(** The members without a fee record for the month, as they are stored. *)
Definition unpaid_rows (d : document) (month : string)
    (items : list (string * member)) : list member_row :=
  flat_map (fun item : string * member =>
              match fee_record d (fst item) month with
              | Some _ => []
              | None => [mkrow (snd item) None None]
              end) items.

(** ** Profit and loss, as the specification describes it *)

(** The amounts of the fee records of the month, one per member that has
    one, in the order of the member mapping. *)
Definition paid_amounts (d : document) (month : string) : list float :=
  flat_map (fun item : string * member =>
              match fee_record d (fst item) month with
              | Some f => [fee_amount f]
              | None => []
              end) (members d).

(** The amounts of the expenses whose date starts with the month, the
    latest date first and those of one date in the order of the expense
    mapping. *)
Definition expense_amounts (d : document) (month : string) : list float :=
  map e_amount
      (sort_by_date_desc
         (filter (fun e => startswith (e_date e) month)
                 (Dict.values (present (expenses d))))).

(** ** Sequences of operations *)

(** The calls that can change a gym document. *)
Inductive op :=
| OpGetGymDetails
| OpUpdateGymDetails (name : string) (logo_path : option string) (currency : string)
| OpResetData
| OpAddMember (name phone : string) (photo : option string)
    (membership_type : string) (joined_date : option string) (is_trial : bool)
    (email : option string)
| OpUpdateMember (member_id name phone membership_type : string)
    (joined_date email : option string)
| OpDeleteMember (member_id : string)
| OpAddExpense (category : string) (amount : float) (date description : string)
| OpDeleteExpense (expense_id : string)
| OpPayFee (member_id month : string) (amount : float) (paid_date notes : option string)
| OpDeleteFee (member_id month : string)
| OpUpdateFee (member_id month : string) (amount : float) (date : string)
    (notes : option string)
| OpLogAttendance (member_id : string)
| OpAddClass (name day time instructor : string) (capacity : Z)
| OpBookClass (member_id class_id : string).

(** The manager after a call made when the clock reads [now]. *)
Definition exec (now : datetime) (o : op) (g : GymManager) : GymManager :=
  match o with
  | OpGetGymDetails => snd (get_gym_details g)
  | OpUpdateGymDetails name logo_path currency =>
      snd (update_gym_details name logo_path currency g)
  | OpResetData => snd (reset_data g)
  | OpAddMember name phone photo membership_type joined_date is_trial email =>
      snd (add_member now name phone photo membership_type joined_date
             is_trial email g)
  | OpUpdateMember member_id name phone membership_type joined_date email =>
      snd (update_member member_id name phone membership_type joined_date email g)
  | OpDeleteMember member_id => snd (delete_member member_id g)
  | OpAddExpense category amount date description =>
      snd (add_expense category amount date description g)
  | OpDeleteExpense expense_id => snd (delete_expense expense_id g)
  | OpPayFee member_id month amount paid_date notes =>
      snd (pay_fee now member_id month amount paid_date notes g)
  | OpDeleteFee member_id month => snd (delete_fee member_id month g)
  | OpUpdateFee member_id month amount date notes =>
      snd (update_fee member_id month amount date notes g)
  | OpLogAttendance member_id => snd (log_attendance now member_id g)
  | OpAddClass name day time instructor capacity =>
      snd (add_class name day time instructor capacity g)
  | OpBookClass member_id class_id => snd (book_class member_id class_id g)
  end.

Definition run_all (ops : list (datetime * op)) (g : GymManager) : GymManager :=
  fold_left (fun g' (c : datetime * op) => exec (fst c) (snd c) g') ops g.

(** A manager on a fresh account: no file yet. *)
Definition fresh : GymManager := mkGymManager _create_empty_data None.

(** No class has more attendees than its capacity. *)
Definition within_capacity (d : document) : Prop :=
  Forall (fun c => (Z.of_nat (List.length (c_attendees c)) <= c_capacity c)%Z)
         (get_classes d).

(** No class has more attendees than its capacity allows: a capacity below
    zero allows none. *)
Definition never_overbooked (d : document) : Prop :=
  Forall (fun c => (Z.of_nat (List.length (c_attendees c))
                    <= Z.max 0 (c_capacity c))%Z)
         (get_classes d).

(** Member keys are pairwise distinct and each record carries its key. *)
Definition members_ok (d : document) : Prop :=
  Dict.wf (members d) /\
  forall k m, In (k, m) (members d) -> m_id m = k.

(** The keys of every fee mapping are pairwise distinct. *)
Definition fees_ok (d : document) : Prop :=
  Dict.wf (fees d) /\
  forall k fs, In (k, fs) (fees d) -> Dict.wf fs.

(** ** Sample data *)

Definition alice : user :=
  mkuser "5e88" (Some "2024-05-16 09:00:00") None (Some "standard")
         (Some "2024-06-15") None None None.

Definition vip : user :=
  mkuser "5e88" (Some "2024-05-16 09:00:00") (Some "VIP2025")
         (Some "free_lifetime") (Some "2099-12-31") None None None.

Definition sample_users : Dict.t user := [("alice", alice); ("vip", vip)].

Definition june_15_10am : datetime := mkdatetime (mkdate 2024 6 15) 10 0 0 0.

Definition noon : datetime := mkdatetime (mkdate 2024 1 10) 12 0 0 0.

(** Two members and a class with one place, which the first member takes. *)
Definition studio_ops : list (datetime * op) :=
  [ (noon, OpAddMember "Alice" "555-0100" None "Gym" None false None);
    (noon, OpAddMember "Bob" "555-0101" None "Gym" None false None);
    (noon, OpAddClass "Yoga" "Monday" "17:00" "Dana" 1);
    (noon, OpBookClass "1" "1") ].

Definition studio : GymManager := Eval vm_compute in run_all studio_ops fresh.

Definition member_alice : member :=
  mkmember "1" "Alice" "555-0100" "" None "2024-01-10" true "Gym" false None.

Definition yoga : gym_class :=
  mkclass "1" "Yoga" "Monday" "17:00" "Dana" 1 ["1"].

(** The studio after Alice has paid 50 for January 2024 and the rent and
    the power of that month have been entered. *)
Definition ledger_ops : list (datetime * op) :=
  studio_ops ++
  [ (noon, OpPayFee "1" "2024-01" 50 None None);
    (noon, OpAddExpense "Rent" 30 "2024-01-05" "January");
    (noon, OpAddExpense "Power" 5 "2024-01-20" "") ].

Definition ledger : GymManager := Eval vm_compute in run_all ledger_ops fresh.

(** One member who has paid 3 for January 2024, and one expense of 1. *)
Definition thirds_ops : list (datetime * op) :=
  [ (noon, OpAddMember "Alice" "555-0100" None "Gym" None false None);
    (noon, OpPayFee "1" "2024-01" 3 None None);
    (noon, OpAddExpense "Towels" 1 "2024-01-05" "") ].

Definition thirds : GymManager := Eval vm_compute in run_all thirds_ops fresh.

Definition rent : expense := mkexpense "EXP0001" "Rent" 30 "2024-01-05" "January".
Definition power : expense := mkexpense "EXP0002" "Power" 5 "2024-01-20" "".
Definition water : expense := mkexpense "EXP0002" "Water" 7 "2024-01-25" "".

(** ** More of the calendar: [timedelta] in both directions *)

Section MoreDates.
Local Open Scope Z_scope.

(** The day before [d]; [None] before 0001-01-01 ([OverflowError]). *)
Definition prev_day (d : date) : option date :=
  if 1 <? day d then Some (mkdate (year d) (month d) (day d - 1))
  else if 1 <? month d
  then Some (mkdate (year d) (month d - 1) (days_in_month (year d) (month d - 1)))
  else if 1 <? year d then Some (mkdate (year d - 1) 12 31)
  else None.

Fixpoint minus_days (n : nat) (d : date) : option date :=
  match n with
  | O => Some d
  | S n' => match prev_day d with
            | Some d' => minus_days n' d'
            | None => None
            end
  end.

(** [d + timedelta(days=n)] for an [int] [n]. *)
Definition add_days (n : Z) (d : date) : option date :=
  if 0 <=? n then plus_days (Z.to_nat n) d else minus_days (Z.to_nat (- n)) d.

(** A date that exists. *)
Definition date_ok (d : date) : Prop := valid_date (year d) (month d) (day d) = true.

(** The time of day of a [datetime] that exists. *)
Definition time_ok (t : datetime) : Prop :=
  0 <= hour t < 24 /\ 0 <= minute t < 60 /\ 0 <= second t < 60 /\
  0 <= microsecond t < 1000000.

(** A number that orders the dates that exist as the calendar does. *)
Definition date_key (d : date) : Z := year d * 10000 + month d * 100 + day d.

(** [str y] is four digits that [match_year] reads back as [y]. *)
Definition year_round_trip (y : Z) : bool :=
  match str y with
  | String a (String b (String c (String d EmptyString))) =>
      match digit a, digit b, digit c, digit d with
      | Some a', Some b', Some c', Some d' =>
          1000 * a' + 100 * b' + 10 * c' + d' =? y
      | _, _, _, _ => false
      end
  | _ => false
  end.

(** The month and the day, as [strftime] writes them, are read back. *)
Definition month_day_round_trip (md : Z * Z) : bool :=
  match match_month_day
          (format_0d 2 (fst md) ++ "-" ++ format_0d 2 (snd md))%string with
  | Some (m, (d, EmptyString)) => (m =? fst md) && (d =? snd md)
  | _ => false
  end.

Definition range (lo : Z) (n : nat) : list Z :=
  map (fun i => lo + Z.of_nat i) (seq 0 n).

End MoreDates.

(** ** [GymManager]: what is left *)

Definition get_payment_history (d : document) (member_id : string)
    : list fee_entry :=
  get_member_fee_history d member_id.

(** Every member key is the decimal form of a number that the counter has
    passed. *)
Definition ids_below_counter (d : document) : Prop :=
  forall k, In k (Dict.keys (members d)) ->
  exists n, (n < next_member_id d)%Z /\ k = str n.

(** The class keys are 1, 2, ... in the order of creation. *)
Definition classes_numbered (d : document) : Prop :=
  Dict.keys (present (classes d)) =
  map (fun i => str (Z.of_nat i)) (seq 1 (Dict.len (present (classes d)))).

(** ** Characters *)

Definition char_in (lo hi : N) (c : ascii) : bool :=
  (lo <=? N_of_ascii c)%N && (N_of_ascii c <=? hi)%N.

(** [c.upper()] and [c.lower()] of a character below 128. *)
Definition upper_char (c : ascii) : ascii :=
  if char_in 97 122 c then ascii_of_N (N_of_ascii c - 32) else c.

Definition lower_char (c : ascii) : ascii :=
  if char_in 65 90 c then ascii_of_N (N_of_ascii c + 32) else c.

Fixpoint map_string (f : ascii -> ascii) (s : string) : string :=
  match s with
  | EmptyString => EmptyString
  | String c r => String (f c) (map_string f r)
  end.

(** [s.upper()] and [s.lower()]; the text is taken to be ASCII. *)
Definition upper (s : string) : string := map_string upper_char s.
Definition lower (s : string) : string := map_string lower_char s.

Fixpoint filter_string (p : ascii -> bool) (s : string) : string :=
  match s with
  | EmptyString => EmptyString
  | String c r => if p c then String c (filter_string p r) else filter_string p r
  end.

Fixpoint forall_string (p : ascii -> bool) (s : string) : bool :=
  match s with
  | EmptyString => true
  | String c r => p c && forall_string p r
  end.

Definition is_ascii (s : string) : bool :=
  forall_string (fun c => (N_of_ascii c <? 128)%N) s.

(** [c.isalpha()], [c.isdigit()] and [c.isspace()] of a character below 128. *)
Definition isalpha (c : ascii) : bool := char_in 65 90 c || char_in 97 122 c.
Definition isdigit (c : ascii) : bool := char_in 48 57 c.
Definition isspace (c : ascii) : bool := char_in 9 13 c || char_in 28 32 c.

Fixpoint lstrip (s : string) : string :=
  match s with
  | EmptyString => EmptyString
  | String c r => if isspace c then lstrip r else s
  end.

Fixpoint rstrip (s : string) : string :=
  match s with
  | EmptyString => EmptyString
  | String c r =>
      match rstrip r with
      | EmptyString => if isspace c then EmptyString else String c EmptyString
      | r' => String c r'
      end
  end.

(** [s.strip()] *)
Definition strip (s : string) : string := rstrip (lstrip s).

(** ** [AuthManager]: accounts *)

Record AuthManager := mkAuthManager {
  a_users : Dict.t user;
  a_file : option (Dict.t user)
}.

(** [save_users] *)
Definition save_users (a : AuthManager) : AuthManager :=
  mkAuthManager (a_users a) (Some (a_users a)).

Definition user_exists (a : AuthManager) (username : string) : bool :=
  Dict.contains username (a_users a).

Definition valid_codes : list string := ["VIP2025"; "FREE"].

(** The truth value of [code and code.upper() in valid_codes]. *)
Definition validate_referral (code : option string) : bool :=
  truthy code && existsb (String.eqb (upper (or_empty code))) valid_codes.

(** The characters that [get_user_data_file] keeps. *)
Definition safe_char (c : ascii) : bool :=
  isalpha c || isdigit c || Ascii.eqb c "@" || Ascii.eqb c "." || Ascii.eqb c "_".

Definition get_user_data_file (username : string) : string :=
  ("gym_data/" ++ strip (filter_string safe_char username) ++ ".json")%string.

Definition set_user_expiry (expiry : option string) (u : user) : user :=
  mkuser (u_password u) (u_joined_at u) (u_referral_code u) (u_plan u) expiry
         (u_subscription_status u) (u_payment_proof u) (u_payments u).

Definition set_user_status (status : option string) (u : user) : user :=
  mkuser (u_password u) (u_joined_at u) (u_referral_code u) (u_plan u)
         (u_subscription_expiry u) status (u_payment_proof u) (u_payments u).

Definition set_user_proof (proof : option string) (u : user) : user :=
  mkuser (u_password u) (u_joined_at u) (u_referral_code u) (u_plan u)
         (u_subscription_expiry u) (u_subscription_status u) proof (u_payments u).

(** [users.get(username, {})] *)
Definition present_user (u : option user) : user :=
  match u with
  | Some x => x
  | None => mkuser "" None None None None None None None
  end.

Definition payments_of (u : user) : list payment :=
  match u_payments u with
  | Some l => l
  | None => []
  end.

Definition add_user_payment (p : payment) (u : user) : user :=
  mkuser (u_password u) (u_joined_at u) (u_referral_code u) (u_plan u)
         (u_subscription_expiry u) (u_subscription_status u) (u_payment_proof u)
         (Some (payments_of u ++ [p])).

Definition record_payment (now : datetime) (a : AuthManager) (username : string)
    (amount : float) (method : string) : AuthManager :=
  if negb (Dict.contains username (a_users a)) then a
  else mkAuthManager
         (Dict.adjust username
            (add_user_payment
               (mkpayment (strftime_ymd_hms now) amount method "Completed"))
            (a_users a))
         (a_file a).

(** [renew_subscription].  The expiry is computed before anything is
    stored.  The call reads the clock here and again in [record_payment];
    both readings are [now]. *)
Definition renew_subscription (now : datetime) (a : AuthManager)
    (username : string) (days : Z) : outcome bool * AuthManager :=
  if Dict.contains username (a_users a) then
    match add_days days (dt_date now) with
    | None => (Raise OverflowError, a)
    | Some e =>
        let a1 := mkAuthManager
                    (Dict.adjust username
                       (set_user_expiry (Some (strftime_ymd e))) (a_users a))
                    (a_file a) in
        (Return true, save_users (record_payment now a1 username 60 "Credit Card"))
    end
  else (Return false, a).

Definition set_payment_pending (a : AuthManager) (username : string)
    (proof_filename : option string) : bool * AuthManager :=
  if Dict.contains username (a_users a) then
    (true,
     save_users
       (mkAuthManager
          (Dict.adjust username
             (fun u => set_user_proof proof_filename
                         (set_user_status (Some "pending") u))
             (a_users a))
          (a_file a)))
  else (false, a).

(** An entry of the list of pending approvals. *)
Record approval := mkapproval {
  ap_username : string;
  ap_proof : option string;
  ap_joined : option string
}.

Definition is_pending (u : user) : bool :=
  match u_subscription_status u with
  | Some s => String.eqb s "pending"
  | None => false
  end.

Definition get_pending_approvals (a : AuthManager) : list approval :=
  flat_map (fun item : string * user =>
              if is_pending (snd item)
              then [mkapproval (fst item) (u_payment_proof (snd item))
                               (u_joined_at (snd item))]
              else [])
           (a_users a).

Definition approve_manual_payment (now : datetime) (a : AuthManager)
    (username : string) : outcome bool * AuthManager :=
  if Dict.contains username (a_users a) then
    let a1 := mkAuthManager
                (Dict.adjust username (set_user_status (Some "active")) (a_users a))
                (a_file a) in
    match add_days 30 (dt_date now) with
    | None => (Raise OverflowError, a1)
    | Some e =>
        let a2 := mkAuthManager
                    (Dict.adjust username
                       (set_user_expiry (Some (strftime_ymd e))) (a_users a1))
                    (a_file a1) in
        (Return true,
         save_users (record_payment now a2 username 2000 "Manual/JazzCash"))
    end
  else (Return false, a).

Section Passwords.
(** [hash_password]: the SHA-256 digest of the password, in hexadecimal. *)
Variable hash_password : string -> string.

Definition create_user (now : datetime) (a : AuthManager)
    (username password : string) (referral_code : option string)
    : bool * AuthManager :=
  if Dict.contains username (a_users a) then (false, a)
  else
    let free := truthy referral_code && validate_referral referral_code in
    (true,
     save_users
       (mkAuthManager
          (Dict.set username
             (mkuser (hash_password password) (Some (strftime_ymd_hms now))
                     referral_code
                     (Some (if free then "free_lifetime" else "standard"))
                     (if free then Some "2099-12-31" else None)
                     None None None)
             (a_users a))
          (a_file a))).

Definition verify_user (a : AuthManager) (username password : string) : bool :=
  match Dict.get username (a_users a) with
  | None => false
  | Some stored => String.eqb (u_password stored) (hash_password password)
  end.

End Passwords.

(** Every expiry that is stored is a date of the year 1000 or later,
    written by [strftime]. *)
Definition expiries_ok (a : AuthManager) : Prop :=
  forall k u, In (k, u) (a_users a) ->
  match u_subscription_expiry u with
  | None => True
  | Some s => exists e, date_ok e /\ (1000 <= year e)%Z /\ s = strftime_ymd e
  end.

(** ** [app.py]: the files that may be uploaded *)

Definition ALLOWED_EXTENSIONS : list string := ["png"; "jpg"; "jpeg"; "gif"].

(** [s.rsplit('.', 1)[1]], when [s] has a dot: what follows the last one. *)
Fixpoint after_last_dot (s : string) : option string :=
  match s with
  | EmptyString => None
  | String c r =>
      match after_last_dot r with
      | Some t => Some t
      | None => if Ascii.eqb c "." then Some r else None
      end
  end.

Definition allowed_file (filename : string) : bool :=
  match after_last_dot filename with
  | Some ext => existsb (String.eqb (lower ext)) ALLOWED_EXTENSIONS
  | None => false
  end.

(** ** Running the operations *)

Ltac run_op :=
  unfold bind, when, read, modify, save_data, ret, raise; simpl.

Ltac run_op_in H :=
  unfold bind, when, read, modify, save_data, ret, raise in H; simpl in H.

Ltac break_goal :=
  match goal with
  | |- context [if ?b then _ else _] => destruct b eqn:?
  | |- context [match ?x with _ => _ end] => destruct x eqn:?
  end.

Ltac break_hyp H :=
  match type of H with
  | context [if ?b then _ else _] => destruct b eqn:?
  | context [match ?x with _ => _ end] => destruct x eqn:?
  end.

(** An operation that answered [False] is settled by its guard. *)
Ltac failed_op H :=
  run_op_in H; repeat (break_hyp H; simpl in H);
  solve [ now inversion H | discriminate H ].

(** * Properties *)

(** ** Dictionaries *)

Section DictFacts.
Context {V : Type}.
Implicit Types (d : Dict.t V) (k : string) (v : V).

Lemma dict_get_set_same k v d : Dict.get k (Dict.set k v d) = Some v.
Proof.
  induction d as [|[k' v'] r IH]; simpl.
  - now rewrite String.eqb_refl.
  - destruct (String.eqb k' k) eqn:E; simpl.
    + now rewrite String.eqb_refl.
    + now rewrite E.
Qed.

Lemma dict_get_set_other k k' v d :
  k' <> k -> Dict.get k' (Dict.set k v d) = Dict.get k' d.
Proof.
  intros N. induction d as [|[k0 v0] r IH]; simpl.
  - destruct (String.eqb k k') eqn:E; [apply String.eqb_eq in E; congruence | reflexivity].
  - destruct (String.eqb k0 k) eqn:E; simpl.
    + apply String.eqb_eq in E; subst k0.
      destruct (String.eqb k k') eqn:E'; [apply String.eqb_eq in E'; congruence | reflexivity].
    + destruct (String.eqb k0 k'); [reflexivity | exact IH].
Qed.

Lemma dict_get_del_same k d : Dict.get k (Dict.del k d) = None.
Proof.
  induction d as [|[k' v'] r IH]; simpl; [reflexivity|].
  destruct (String.eqb k' k) eqn:E; simpl; [exact IH | now rewrite E].
Qed.

Lemma dict_get_del_other k k' d :
  k' <> k -> Dict.get k' (Dict.del k d) = Dict.get k' d.
Proof.
  intros N. induction d as [|[k0 v0] r IH]; simpl; [reflexivity|].
  destruct (String.eqb k0 k) eqn:E; simpl.
  - apply String.eqb_eq in E; subst k0.
    destruct (String.eqb k k') eqn:E'; [apply String.eqb_eq in E'; congruence | exact IH].
  - destruct (String.eqb k0 k'); [reflexivity | exact IH].
Qed.

Lemma dict_contains_set_same k v d : Dict.contains k (Dict.set k v d) = true.
Proof. unfold Dict.contains. now rewrite dict_get_set_same. Qed.

Lemma dict_contains_del_same k d : Dict.contains k (Dict.del k d) = false.
Proof. unfold Dict.contains. now rewrite dict_get_del_same. Qed.

Lemma dict_contains_get k d :
  Dict.contains k d = true <-> exists v, Dict.get k d = Some v.
Proof.
  unfold Dict.contains. destruct (Dict.get k d) as [v|].
  - split; [eauto | reflexivity].
  - split; [discriminate | intros [v H]; discriminate].
Qed.

Lemma dict_get_in k v d : Dict.get k d = Some v -> In (k, v) d.
Proof.
  induction d as [|[k' v'] r IH]; simpl; [discriminate|].
  destruct (String.eqb k' k) eqn:E.
  - apply String.eqb_eq in E. intros [= ->]. subst. now left.
  - intros H. right. auto.
Qed.

Lemma dict_get_none_keys k d : Dict.get k d = None <-> ~ In k (Dict.keys d).
Proof.
  induction d as [|[k' v'] r IH]; simpl.
  - split; [intros _ [] | reflexivity].
  - destruct (String.eqb k' k) eqn:E.
    + apply String.eqb_eq in E. split; [discriminate | intros H; exfalso; apply H; now left].
    + apply String.eqb_neq in E. rewrite IH. tauto.
Qed.

Lemma dict_in_get k v d : Dict.wf d -> In (k, v) d -> Dict.get k d = Some v.
Proof.
  unfold Dict.wf. induction d as [|[k' v'] r IH]; simpl; [intros _ []|].
  intros W [H|H]; inversion W as [|? ? N W']; subst.
  - injection H as -> ->. now rewrite String.eqb_refl.
  - destruct (String.eqb k' k) eqn:E; [|auto].
    apply String.eqb_eq in E; subst k'.
    exfalso. apply N. change (In (fst (k, v)) (map fst r)). now apply in_map.
Qed.

Lemma dict_keys_set k v d :
  Dict.keys (Dict.set k v d) =
  if Dict.contains k d then Dict.keys d else Dict.keys d ++ [k].
Proof.
  unfold Dict.contains. induction d as [|[k' v'] r IH]; simpl; [reflexivity|].
  destruct (String.eqb k' k) eqn:E; simpl.
  - apply String.eqb_eq in E. now subst.
  - rewrite IH. now destruct (Dict.get k r).
Qed.

Lemma dict_wf_set k v d : Dict.wf d -> Dict.wf (Dict.set k v d).
Proof.
  unfold Dict.wf. rewrite dict_keys_set. intros W.
  destruct (Dict.contains k d) eqn:E; [exact W|].
  assert (N : ~ In k (Dict.keys d)).
  { apply dict_get_none_keys. unfold Dict.contains in E.
    now destruct (Dict.get k d). }
  apply NoDup_app; [exact W | constructor; [intros [] | constructor] |].
  intros x Hx [<-|[]]. contradiction.
Qed.

Lemma dict_keys_del k d :
  Dict.keys (Dict.del k d) =
  filter (fun k' => negb (String.eqb k' k)) (Dict.keys d).
Proof.
  induction d as [|[k' v'] r IH]; simpl; [reflexivity|].
  destruct (String.eqb k' k); simpl; now rewrite <- IH.
Qed.

Lemma dict_wf_del k d : Dict.wf d -> Dict.wf (Dict.del k d).
Proof.
  unfold Dict.wf. rewrite dict_keys_del. apply NoDup_filter.
Qed.

Lemma dict_wf_adjust k f d : Dict.wf d -> Dict.wf (Dict.adjust k f d).
Proof.
  unfold Dict.adjust. destruct (Dict.get k d); [apply dict_wf_set | trivial].
Qed.

Lemma dict_get_adjust_same k f d :
  Dict.get k (Dict.adjust k f d) = option_map f (Dict.get k d).
Proof.
  unfold Dict.adjust. destruct (Dict.get k d) eqn:E; simpl.
  - apply dict_get_set_same.
  - exact E.
Qed.

Lemma dict_get_adjust_other k k' f d :
  k' <> k -> Dict.get k' (Dict.adjust k f d) = Dict.get k' d.
Proof.
  intros N. unfold Dict.adjust.
  destruct (Dict.get k d); [now apply dict_get_set_other | reflexivity].
Qed.

(** The number of bindings of a key. *)
Lemma dict_count_set k v d :
  Dict.wf d ->
  List.length (filter (fun k' => String.eqb k' k) (Dict.keys (Dict.set k v d))) = 1%nat.
Proof.
  unfold Dict.wf. induction d as [|[k' v'] r IH]; simpl.
  - now rewrite String.eqb_refl.
  - intros W. inversion W as [|? ? N W']; subst.
    destruct (String.eqb k' k) eqn:E; simpl.
    + rewrite String.eqb_refl. simpl. f_equal.
      apply String.eqb_eq in E; subst k'.
      assert (F : forall l, ~ In k l ->
                filter (fun k' => String.eqb k' k) l = []).
      { induction l as [|x l IHl]; simpl; [reflexivity|]. intros H.
        destruct (String.eqb x k) eqn:Ex.
        - apply String.eqb_eq in Ex. exfalso. apply H. now left.
        - apply IHl. tauto. }
      fold (Dict.keys r). now rewrite F.
    + rewrite E. now apply IH.
Qed.
Lemma dict_values_set_Forall (P : V -> Prop) k v d :
  Forall P (Dict.values d) -> P v -> Forall P (Dict.values (Dict.set k v d)).
Proof.
  intros H Hv. induction d as [|[k' v'] r IH]; simpl.
  - constructor; [exact Hv | constructor].
  - inversion H as [|? ? Hv' Hr]; subst.
    destruct (String.eqb k' k); simpl; constructor; auto.
Qed.

Lemma dict_del_absent k d : Dict.contains k d = false -> Dict.del k d = d.
Proof.
  unfold Dict.contains. induction d as [|[k' v'] r IH]; simpl; [reflexivity|].
  destruct (String.eqb k' k) eqn:E; simpl; [discriminate|].
  intros H. now rewrite IH.
Qed.

Lemma dict_in_set k v k' v' d :
  In (k', v') (Dict.set k v d) -> (k' = k /\ v' = v) \/ In (k', v') d.
Proof.
  induction d as [|[k0 v0] r IH]; simpl.
  - intros [[= <- <-]|[]]. now left.
  - destruct (String.eqb k0 k); simpl.
    + intros [[= <- <-]|H]; [now left | right; now right].
    + intros [H|H]; [right; now left|].
      destruct (IH H) as [?|?]; [now left | right; now right].
Qed.

Lemma dict_in_del k x d : In x (Dict.del k d) -> In x d.
Proof. unfold Dict.del. intros H. now apply filter_In in H. Qed.

Lemma dict_in_adjust k f k' v' d :
  In (k', v') (Dict.adjust k f d) ->
  In (k', v') d \/ (k' = k /\ exists v, Dict.get k d = Some v /\ v' = f v).
Proof.
  unfold Dict.adjust. destruct (Dict.get k d) as [v|] eqn:E; [|now left].
  intros H. apply dict_in_set in H. destruct H as [[-> ->]|H]; [|now left].
  right. split; [reflexivity|]. now exists v.
Qed.

Lemma dict_get_Forall (P : V -> Prop) k v d :
  Forall P (Dict.values d) -> Dict.get k d = Some v -> P v.
Proof.
  intros H G. apply dict_get_in in G.
  rewrite Forall_forall in H. apply H.
  change v with (snd (k, v)). now apply in_map.
Qed.
End DictFacts.

(** ** The subscription check *)

Lemma strptime_ymd_midnight s e : strptime_ymd s = Some e -> is_midnight e.
Proof.
  unfold strptime_ymd.
  destruct (match_year s) as [[y [|c r]]|]; try discriminate.
  destruct (Ascii.eqb c "-") eqn:Ec.
  - apply Ascii.eqb_eq in Ec; subst c.
    destruct (match_month_day r) as [[m [d [|? ?]]]|]; try discriminate.
    destruct (valid_date y m d); intros [= <-]; repeat split.
  - intros H. exfalso. revert H.
    destruct c as [[] [] [] [] [] [] [] []]; try discriminate.
Qed.

Lemma datetime_leb_midnight now e :
  clock_ok now -> is_midnight e ->
  datetime_leb now e = true <->
  date_compare (dt_date now) (dt_date e) = Lt \/
  (date_compare (dt_date now) (dt_date e) = Eq /\ is_midnight now).
Proof.
  intros (Hh & Hm & Hs & Hu) (Eh & Em & Es & Eu).
  unfold datetime_leb, datetime_compare, is_midnight.
  rewrite Eh, Em, Es, Eu.
  destruct (date_compare (dt_date now) (dt_date e)).
  - destruct (Z.compare_spec (hour now) 0) as [H|H|H];
      [| lia | split; [discriminate | intros [|[_ ?]]; [discriminate | lia]]].
    destruct (Z.compare_spec (minute now) 0) as [H1|H1|H1];
      [| lia | split; [discriminate | intros [|[_ ?]]; [discriminate | lia]]].
    destruct (Z.compare_spec (second now) 0) as [H2|H2|H2];
      [| lia | split; [discriminate | intros [|[_ ?]]; [discriminate | lia]]].
    destruct (Z.compare_spec (microsecond now) 0) as [H3|H3|H3];
      [| lia | split; [discriminate | intros [|[_ ?]]; [discriminate | lia]]].
    split; [intros _; right; tauto | reflexivity].
  - split; [now left | reflexivity].
  - split; [discriminate | intros [|[? _]]; discriminate].
Qed.

(** C1 at one account and one clock reading.  [alice] has the plan
    [standard] and the expiry 2024-06-15.  At 10:00 on that day the expiry
    date is not before the current date, so the account should be active,
    and the check answers [False]: it compares the clock, with its time of
    day, to 00:00:00 of the expiry date.  (The trial check of [app.py]
    compares dates, and keeps a trial valid on its last day.) *)
Lemma is_subscription_active_on_expiry_day :
  Dict.get "alice" sample_users = Some alice /\
  u_plan alice = Some "standard" /\
  u_subscription_expiry alice = Some "2024-06-15" /\
  option_map dt_date (strptime_ymd "2024-06-15") = Some (mkdate 2024 6 15) /\
  date_leb (dt_date june_15_10am) (mkdate 2024 6 15) = true /\
  is_subscription_active sample_users june_15_10am "alice" = Return false /\
  ~ (is_subscription_active sample_users june_15_10am "alice" = Return true <->
     date_leb (dt_date june_15_10am) (mkdate 2024 6 15) = true).
Proof.
  repeat split. intros [_ H]. specialize (H eq_refl). discriminate H.
Qed.

(** What the subscription check computes, for every account of the store
    and every clock reading.  With the plan [free_lifetime] it answers
    [True] whatever the expiry; with any other plan it answers [False] when
    [subscription_expiry] is missing or empty, and otherwise [True] exactly
    when the clock is not later than 00:00:00 of the expiry date: the
    current date is before the expiry date, or it is the expiry date and the
    time is exactly midnight.  An expiry that is not a date makes the check
    raise [ValueError]. *)
Theorem is_subscription_active_spec users now username u :
  Dict.get username users = Some u ->
  clock_ok now ->
  (u_plan u = Some "free_lifetime" ->
   is_subscription_active users now username = Return true) /\
  (u_plan u <> Some "free_lifetime" ->
   (truthy (u_subscription_expiry u) = false ->
    is_subscription_active users now username = Return false) /\
   (truthy (u_subscription_expiry u) = true ->
    match strptime_ymd (or_empty (u_subscription_expiry u)) with
    | None => is_subscription_active users now username = Raise ValueError
    | Some e =>
        exists b, is_subscription_active users now username = Return b /\
        (b = true <->
         date_compare (dt_date now) (dt_date e) = Lt \/
         (date_compare (dt_date now) (dt_date e) = Eq /\ is_midnight now))
    end)).
Proof.
  intros Hu Hc. unfold is_subscription_active. rewrite Hu. split.
  - intros ->. reflexivity.
  - intros Hp.
    assert (E : match u_plan u with
                | Some p => String.eqb p "free_lifetime"
                | None => false
                end = false).
    { destruct (u_plan u) as [p|]; [|reflexivity].
      destruct (String.eqb p "free_lifetime") eqn:E; [|reflexivity].
      apply String.eqb_eq in E. congruence. }
    rewrite E. split; intros Ht; rewrite Ht; simpl; [reflexivity|].
    destruct (strptime_ymd (or_empty (u_subscription_expiry u))) as [e|] eqn:Es;
      [|reflexivity].
    eexists; split; [reflexivity|].
    apply datetime_leb_midnight; [exact Hc | eapply strptime_ymd_midnight; eauto].
Qed.

Lemma is_subscription_active_spec_witness :
  is_subscription_active sample_users june_15_10am "vip" = Return true /\
  is_subscription_active sample_users june_15_10am "alice" = Return false.
Proof.
  assert (Hc : clock_ok june_15_10am) by (repeat split; simpl; lia).
  split.
  - apply (is_subscription_active_spec sample_users june_15_10am "vip" vip
             eq_refl Hc). reflexivity.
  - destruct (is_subscription_active_spec sample_users june_15_10am "alice" alice
                eq_refl Hc) as [_ H].
    destruct (H ltac:(discriminate)) as [_ H2].
    specialize (H2 eq_refl). simpl in H2.
    destruct H2 as (b & Hb & Hiff). rewrite Hb. f_equal.
    destruct b; [|reflexivity].
    destruct Hiff as [Hiff _]. destruct (Hiff eq_refl) as [L|[_ (Hh & _)]];
      [discriminate L | discriminate Hh].
Defined.

(** ** Booking a class *)

Lemma is_attendee_In member_id l :
  is_attendee member_id l = true <-> In member_id l.
Proof.
  unfold is_attendee. rewrite existsb_exists. split.
  - intros (x & Hx & E). apply String.eqb_eq in E. now subst.
  - intros H. exists member_id. split; [exact H | apply String.eqb_refl].
Qed.

(** C6.  Booking a member who is already in the class's attendee list
    answers [True] and changes nothing, neither the attendee list nor any
    other part of the manager, whatever the capacity of the class. *)
Theorem book_class_idempotent g member_id class_id cls :
  Dict.get class_id (present (classes (data g))) = Some cls ->
  In member_id (c_attendees cls) ->
  book_class member_id class_id g = (Return true, g).
Proof.
  intros Hc Hin. unfold book_class. run_op. rewrite Hc.
  apply is_attendee_In in Hin. now rewrite Hin.
Qed.

Lemma book_class_full g member_id class_id cls :
  Dict.get class_id (present (classes (data g))) = Some cls ->
  ~ In member_id (c_attendees cls) ->
  Z.of_nat (List.length (c_attendees cls)) = c_capacity cls ->
  book_class member_id class_id g = (Return false, g).
Proof.
  intros Hc Hin Hfull. unfold book_class. run_op. rewrite Hc.
  destruct (is_attendee member_id (c_attendees cls)) eqn:E.
  - apply is_attendee_In in E. contradiction.
  - rewrite <- Hfull, Z.leb_refl. reflexivity.
Qed.

Lemma trial_end_of_pure joined_date g :
  exists r, trial_end_of joined_date g = (r, g).
Proof.
  unfold trial_end_of.
  destruct (strptime_ymd joined_date) as [t|]; [|now eexists].
  destruct (plus_days 3 (dt_date t)); now eexists.
Qed.

Lemma classes_unchanged now o g :
  match o with
  | OpResetData | OpAddClass _ _ _ _ _ | OpBookClass _ _ => False
  | _ => True
  end ->
  classes (data (exec now o g)) = classes (data g).
Proof.
  destruct o; simpl; intros H; try contradiction;
    [ unfold get_gym_details | unfold update_gym_details
    | unfold add_member | unfold update_member
    | unfold delete_member | unfold add_expense | unfold delete_expense
    | unfold pay_fee | unfold delete_fee | unfold update_fee
    | unfold log_attendance ];
    run_op;
    try (destruct is_trial; simpl;
         [ destruct (trial_end_of_pure
                       (if truthy joined_date then or_empty joined_date
                        else strftime_ymd (dt_date now)) g) as [r ->];
           destruct r | ]);
    repeat (break_goal; simpl); reflexivity.
Qed.

Lemma add_class_never_overbooked name day time instructor capacity g :
  never_overbooked (data g) ->
  never_overbooked (data (snd (add_class name day time instructor capacity g))).
Proof.
  destruct g as [[ms fs es n gd att [cs|]] fl];
    unfold never_overbooked, get_classes, add_class; run_op; intros H.
  - apply dict_values_set_Forall; [exact H | simpl; lia].
  - constructor; [simpl; lia | constructor].
Qed.

Lemma book_class_never_overbooked member_id class_id g :
  never_overbooked (data g) ->
  never_overbooked (data (snd (book_class member_id class_id g))).
Proof.
  unfold never_overbooked, get_classes, book_class. run_op. intros H.
  destruct (Dict.get class_id (present (classes (data g)))) as [cls|] eqn:Hc;
    [|exact H].
  destruct (is_attendee member_id (c_attendees cls)); [exact H|].
  destruct (c_capacity cls <=? Z.of_nat (List.length (c_attendees cls)))%Z eqn:E;
    [exact H|]. simpl.
  destruct (classes (data g)) as [cs|]; [|discriminate Hc]. simpl in *.
  unfold Dict.adjust. rewrite Hc.
  apply dict_values_set_Forall; [exact H|]. simpl.
  rewrite length_app. simpl. apply Z.leb_gt in E. lia.
Qed.

Lemma exec_never_overbooked now o g :
  never_overbooked (data g) -> never_overbooked (data (exec now o g)).
Proof.
  intros H.
  destruct o;
    try (unfold never_overbooked, get_classes in *;
         rewrite classes_unchanged by exact I; exact H).
  - constructor.
  - now apply add_class_never_overbooked.
  - now apply book_class_never_overbooked.
Qed.

Lemma run_all_never_overbooked ops : forall g,
  never_overbooked (data g) -> never_overbooked (data (run_all ops g)).
Proof.
  induction ops as [|[now o] ops IH]; intros g H; [exact H|].
  simpl. apply IH. now apply exec_never_overbooked.
Qed.

Lemma book_class_idempotent_witness :
  book_class "1" "1" studio = (Return true, studio).
Proof.
  apply (book_class_idempotent studio "1" "1" yoga);
    [reflexivity | simpl; now left].
Defined.

(** C2, as the specification states it, fails in its second half: a class
    created with the capacity -1 has an attendee list, of length 0, that is
    longer than its capacity. *)
Lemma negative_capacity_exceeded :
  get_classes (data (run_all
    [(noon, OpAddClass "Yoga" "Monday" "17:00" "Dana" (-1))] fresh)) =
  [mkclass "1" "Yoga" "Monday" "17:00" "Dana" (-1) []] /\
  ~ within_capacity (data (run_all
      [(noon, OpAddClass "Yoga" "Monday" "17:00" "Dana" (-1))] fresh)).
Proof.
  split; [reflexivity|]. intros H. inversion H as [|? ? Hc _]; subst.
  simpl in Hc. lia.
Qed.

(** C2 (amended).  When the attendee list of a class is as long as its
    capacity, booking a member who is not in it answers [False] and changes
    nothing.  Consequently, under any sequence of operations, no attendee
    list becomes longer than the capacity of its class allows: from a
    document where this holds, and so from the empty one, it holds after the
    sequence.  A class of negative capacity keeps no attendee, and every
    other class has at most as many attendees as its capacity. *)
Theorem book_class_respects_capacity :
  (forall g member_id class_id cls,
     Dict.get class_id (present (classes (data g))) = Some cls ->
     ~ In member_id (c_attendees cls) ->
     Z.of_nat (List.length (c_attendees cls)) = c_capacity cls ->
     book_class member_id class_id g = (Return false, g)) /\
  (forall ops g,
     never_overbooked (data g) ->
     never_overbooked (data (run_all ops g)) /\
     forall c, In c (get_classes (data (run_all ops g))) ->
       ((c_capacity c < 0)%Z -> c_attendees c = []) /\
       ((0 <= c_capacity c)%Z ->
        (Z.of_nat (List.length (c_attendees c)) <= c_capacity c)%Z)) /\
  never_overbooked (data fresh).
Proof.
  split; [exact book_class_full|]. split; [|constructor].
  intros ops g H.
  pose proof (run_all_never_overbooked ops g H) as H'.
  split; [exact H'|].
  intros c Hc. unfold never_overbooked in H'.
  rewrite Forall_forall in H'. specialize (H' c Hc). split; intros Hcap.
  - destruct (c_attendees c); [reflexivity | simpl in H'; lia].
  - lia.
Qed.

Lemma book_class_respects_capacity_witness :
  book_class "2" "1" studio = (Return false, studio) /\
  never_overbooked (data (run_all studio_ops fresh)).
Proof.
  split.
  - apply (proj1 book_class_respects_capacity studio "2" "1" yoga).
    + reflexivity.
    + simpl. intros [H|[]]. discriminate H.
    + reflexivity.
  - apply (proj1 (proj2 book_class_respects_capacity) studio_ops fresh).
    exact (proj2 (proj2 book_class_respects_capacity)).
Defined.

(** ** Operations that fail *)

(** C10.  An operation of the manager that answers [False] leaves the
    manager as it was: the document in memory is the same and the file has
    not been written. *)
Theorem failed_operation_changes_nothing now g g' :
  (forall member_id month amount paid_date notes,
     pay_fee now member_id month amount paid_date notes g = (Return false, g') ->
     g' = g) /\
  (forall member_id month,
     delete_fee member_id month g = (Return false, g') -> g' = g) /\
  (forall member_id month amount date notes,
     update_fee member_id month amount date notes g = (Return false, g') ->
     g' = g) /\
  (forall member_id name phone membership_type joined_date email,
     update_member member_id name phone membership_type joined_date email g
       = (Return false, g') ->
     g' = g) /\
  (forall member_id,
     delete_member member_id g = (Return false, g') -> g' = g) /\
  (forall expense_id,
     delete_expense expense_id g = (Return false, g') -> g' = g) /\
  (forall member_id,
     log_attendance now member_id g = (Return false, g') -> g' = g) /\
  (forall member_id class_id,
     book_class member_id class_id g = (Return false, g') -> g' = g).
Proof.
  repeat split; intros.
  - unfold pay_fee in H. failed_op H.
  - unfold delete_fee in H. failed_op H.
  - unfold update_fee in H. failed_op H.
  - unfold update_member in H. failed_op H.
  - unfold delete_member in H. failed_op H.
  - unfold delete_expense in H. failed_op H.
  - unfold log_attendance in H. failed_op H.
  - unfold book_class in H. failed_op H.
Qed.

Lemma failed_operation_changes_nothing_witness :
  pay_fee noon "9" "2024-01" 50 None None studio = (Return false, studio) /\
  book_class "2" "1" studio = (Return false, studio) /\
  studio = studio.
Proof.
  assert (H1 : pay_fee noon "9" "2024-01" 50 None None studio
               = (Return false, studio)) by (vm_compute; reflexivity).
  assert (H2 : book_class "2" "1" studio = (Return false, studio))
    by (vm_compute; reflexivity).
  split; [exact H1 | split; [exact H2|]].
  exact (proj1 (failed_operation_changes_nothing noon studio studio)
           "9" "2024-01" 50%float None None H1).
Defined.

(** ** Fees *)

(** The fee mapping of a member once a payment is recorded. *)
Lemma fees_after_payment member_id month f (fs : Dict.t (Dict.t fee)) :
  Dict.get member_id
    (Dict.adjust member_id (Dict.set month f)
       (if negb (Dict.contains member_id fs)
        then Dict.set member_id Dict.empty fs else fs)) =
  Some (Dict.set month f (present (Dict.get member_id fs))).
Proof.
  rewrite dict_get_adjust_same. unfold Dict.contains.
  destruct (Dict.get member_id fs) as [x|] eqn:E; simpl.
  - now rewrite E.
  - now rewrite dict_get_set_same.
Qed.

Lemma pay_fee_known now g member_id month amount paid_date notes :
  Dict.contains member_id (members (data g)) = true ->
  pay_fee now member_id month amount paid_date notes g =
  (Return true,
   let d' := set_fees (fun fs =>
     Dict.adjust member_id
       (Dict.set month
          (mkfee amount
             (if truthy paid_date then or_empty paid_date
              else strftime_ymd_hms now)
             (or_empty notes)))
       (if negb (Dict.contains member_id fs)
        then Dict.set member_id Dict.empty fs else fs)) (data g) in
   mkGymManager d' (Some d')).
Proof.
  intros Hm. unfold pay_fee. run_op. rewrite Hm. unfold set_fees. simpl.
  destruct (Dict.contains member_id (fees (data g))); simpl; reflexivity.
Qed.

Lemma fees_ok_after_payment member_id month f d :
  fees_ok d ->
  fees_ok (set_fees (fun fs =>
     Dict.adjust member_id (Dict.set month f)
       (if negb (Dict.contains member_id fs)
        then Dict.set member_id Dict.empty fs else fs)) d).
Proof.
  intros [W I]. unfold fees_ok. simpl.
  set (fs1 := if negb (Dict.contains member_id (fees d))
              then Dict.set member_id Dict.empty (fees d) else fees d).
  assert (W1 : Dict.wf fs1).
  { unfold fs1. destruct (negb _); [now apply dict_wf_set | exact W]. }
  assert (I1 : forall k x, In (k, x) fs1 -> Dict.wf x).
  { unfold fs1. destruct (negb _); [|exact I].
    intros k x H. apply dict_in_set in H. destruct H as [[_ ->]|H].
    - constructor.
    - eauto. }
  split; [now apply dict_wf_adjust|].
  intros k x H. apply dict_in_adjust in H.
  destruct H as [H|(_ & v & G & ->)]; [eauto|].
  apply dict_wf_set. apply (I1 member_id). now apply dict_get_in.
Qed.

Lemma filter_insert_by_month_desc (p : fee_entry -> bool) e l :
  List.length (filter p (insert_by_month_desc e l)) =
  List.length (filter p (e :: l)).
Proof.
  induction l as [|x r IH]; [reflexivity|]. simpl.
  destruct (String.ltb (h_month e) (h_month x)); [|reflexivity].
  simpl in *. destruct (p x), (p e); simpl in *; lia.
Qed.

(** Sorting a history keeps the number of its entries for a month. *)
Lemma months_in_history d member_id month :
  List.length (filter (fun e => String.eqb (h_month e) month)
                 (get_member_fee_history d member_id)) =
  List.length (filter (fun k => String.eqb k month)
                 (Dict.keys (present (Dict.get member_id (fees d))))).
Proof.
  unfold get_member_fee_history, Dict.contains.
  destruct (Dict.get member_id (fees d)) as [fs|]; simpl; [|reflexivity].
  induction fs as [|[k f] r IH]; [reflexivity|]. simpl.
  rewrite filter_insert_by_month_desc. simpl.
  destruct (String.eqb k month); simpl; now rewrite IH.
Qed.

Lemma is_fee_paid_fee_record d member_id month :
  is_fee_paid d member_id month =
  match fee_record d member_id month with
  | Some _ => true
  | None => false
  end.
Proof.
  unfold is_fee_paid, fee_record, Dict.contains.
  destruct (Dict.get member_id (fees d)) as [fs|]; reflexivity.
Qed.

Lemma fee_record_after_payment member_id month f d :
  fee_record (set_fees (fun fs =>
     Dict.adjust member_id (Dict.set month f)
       (if negb (Dict.contains member_id fs)
        then Dict.set member_id Dict.empty fs else fs)) d) member_id month =
  Some f.
Proof.
  unfold fee_record. simpl. rewrite fees_after_payment.
  apply dict_get_set_same.
Qed.

(** C4.  In the state that a successful [pay_fee] for a member and a month
    leaves, [is_fee_paid] holds for them; in the state that a successful
    [delete_fee] leaves, it does not. *)
Theorem is_fee_paid_after_pay_and_delete now g g' member_id month :
  (forall amount paid_date notes,
     pay_fee now member_id month amount paid_date notes g = (Return true, g') ->
     is_fee_paid (data g') member_id month = true) /\
  (delete_fee member_id month g = (Return true, g') ->
   is_fee_paid (data g') member_id month = false).
Proof.
  split.
  - intros amount paid_date notes H.
    destruct (Dict.contains member_id (members (data g))) eqn:Hm.
    + rewrite (pay_fee_known _ _ _ _ _ _ _ Hm) in H. injection H as <-.
      rewrite is_fee_paid_fee_record. cbv zeta. cbn [data].
      now rewrite fee_record_after_payment.
    + unfold pay_fee in H. run_op_in H. rewrite Hm in H. discriminate H.
  - intros H. unfold delete_fee in H. run_op_in H.
    destruct (no_fee_record (data g) member_id month) eqn:E; [discriminate H|].
    injection H as <-. rewrite is_fee_paid_fee_record.
    unfold fee_record. simpl. rewrite dict_get_adjust_same.
    destruct (Dict.get member_id (fees (data g))) as [fs|]; simpl; [|reflexivity].
    now rewrite dict_get_del_same.
Qed.

Lemma is_fee_paid_after_pay_and_delete_witness :
  is_fee_paid (data (snd (pay_fee noon "2" "2024-01" 40 None None ledger)))
              "2" "2024-01" = true /\
  is_fee_paid (data (snd (delete_fee "1" "2024-01" ledger))) "1" "2024-01" = false.
Proof.
  split.
  - apply (proj1 (is_fee_paid_after_pay_and_delete noon ledger _ "2" "2024-01")
             40%float None None).
    vm_compute. reflexivity.
  - apply (proj2 (is_fee_paid_after_pay_and_delete noon ledger _ "1" "2024-01")).
    vm_compute. reflexivity.
Defined.

(** The number of entries of a member's fee history for a month. *)
Lemma one_entry_after_payment member_id month f d :
  fees_ok d ->
  List.length
    (filter (fun e => String.eqb (h_month e) month)
       (get_member_fee_history
          (set_fees (fun fs =>
             Dict.adjust member_id (Dict.set month f)
               (if negb (Dict.contains member_id fs)
                then Dict.set member_id Dict.empty fs else fs)) d)
          member_id)) = 1%nat.
Proof.
  intros [W I]. rewrite months_in_history. simpl.
  rewrite fees_after_payment. simpl. apply dict_count_set.
  destruct (Dict.get member_id (fees d)) as [fs|] eqn:E; simpl.
  - apply (I member_id). now apply dict_get_in.
  - constructor.
Qed.

Lemma pay_fee_once now g member_id month amount paid_date notes :
  Dict.contains member_id (members (data g)) = true ->
  fees_ok (data g) ->
  exists g',
    pay_fee now member_id month amount paid_date notes g = (Return true, g') /\
    fee_record (data g') member_id month =
      Some (mkfee amount
              (if truthy paid_date then or_empty paid_date
               else strftime_ymd_hms now)
              (or_empty notes)) /\
    List.length
      (filter (fun e => String.eqb (h_month e) month)
         (get_member_fee_history (data g') member_id)) = 1%nat /\
    members (data g') = members (data g) /\
    fees_ok (data g').
Proof.
  intros Hm Hok. eexists. split; [now apply pay_fee_known|].
  cbv zeta. cbn [data]. repeat split.
  - apply fee_record_after_payment.
  - now apply one_entry_after_payment.
  - now apply fees_ok_after_payment.
  - intros k x. now apply fees_ok_after_payment.
Qed.

(** C5.  [pay_fee] answers [False] for a member that is not known.  For a
    known member it answers [True] and the record of that member and month
    is the new one, whatever was there before; the member's history has
    exactly one entry for the month, after this payment and after any
    further payment for the same member and month. *)
Theorem pay_fee_overwrites now g member_id month amount paid_date notes :
  (Dict.contains member_id (members (data g)) = false ->
   pay_fee now member_id month amount paid_date notes g = (Return false, g)) /\
  (Dict.contains member_id (members (data g)) = true ->
   fees_ok (data g) ->
   exists g',
     pay_fee now member_id month amount paid_date notes g = (Return true, g') /\
     fee_record (data g') member_id month =
       Some (mkfee amount
               (if truthy paid_date then or_empty paid_date
                else strftime_ymd_hms now)
               (or_empty notes)) /\
     List.length
       (filter (fun e => String.eqb (h_month e) month)
          (get_member_fee_history (data g') member_id)) = 1%nat /\
     forall now2 amount2 paid_date2 notes2,
     exists g'',
       pay_fee now2 member_id month amount2 paid_date2 notes2 g'
         = (Return true, g'') /\
       fee_record (data g'') member_id month =
         Some (mkfee amount2
                 (if truthy paid_date2 then or_empty paid_date2
                  else strftime_ymd_hms now2)
                 (or_empty notes2)) /\
       List.length
         (filter (fun e => String.eqb (h_month e) month)
            (get_member_fee_history (data g'') member_id)) = 1%nat).
Proof.
  split.
  - intros Hm. unfold pay_fee. run_op. now rewrite Hm.
  - intros Hm Hok.
    destruct (pay_fee_once now g member_id month amount paid_date notes Hm Hok)
      as (g' & Hrun & Hrec & Hone & Hmem & Hok').
    exists g'. repeat split; try assumption.
    intros now2 amount2 paid_date2 notes2.
    assert (Hm' : Dict.contains member_id (members (data g')) = true)
      by now rewrite Hmem.
    destruct (pay_fee_once now2 g' member_id month amount2 paid_date2 notes2
                Hm' Hok') as (g'' & Hrun2 & Hrec2 & Hone2 & _).
    exists g''. now repeat split.
Qed.

Lemma fees_ok_ledger : fees_ok (data ledger).
Proof.
  split.
  - repeat constructor. intros [].
  - intros k fs [[= <- <-]|[]]. repeat constructor. intros [].
Qed.

Lemma pay_fee_overwrites_witness :
  pay_fee noon "9" "2024-01" 60 None None ledger = (Return false, ledger) /\
  exists g',
    pay_fee noon "1" "2024-01" 60 None (Some "again") ledger = (Return true, g') /\
    fee_record (data g') "1" "2024-01" =
      Some (mkfee 60 "2024-01-10 12:00:00" "again") /\
    List.length
      (filter (fun e => String.eqb (h_month e) "2024-01")
         (get_member_fee_history (data g') "1")) = 1%nat.
Proof.
  split.
  - apply (proj1 (pay_fee_overwrites noon ledger "9" "2024-01" 60 None None)).
    reflexivity.
  - destruct (proj2 (pay_fee_overwrites noon ledger "1" "2024-01" 60 None
                       (Some "again")) eq_refl fees_ok_ledger)
      as (g' & H1 & H2 & H3 & _).
    exists g'. repeat split; assumption.
Defined.

(** ** Deleting a member *)

(** C9.  After a successful [delete_member] the member is no longer in the
    member mapping and has no entry in the fee mapping; the other members
    and their fees are as before, and so are the expenses, the member
    counter, the gym details, the attendance logs (the deleted member's
    among them) and the classes with their attendee lists.  The document is
    written to the file. *)
Theorem delete_member_effect g g' member_id :
  delete_member member_id g = (Return true, g') ->
  get_member (data g') member_id = None /\
  Dict.get member_id (fees (data g')) = None /\
  members (data g') = Dict.del member_id (members (data g)) /\
  fees (data g') = Dict.del member_id (fees (data g)) /\
  (forall k, k <> member_id ->
     get_member (data g') k = get_member (data g) k /\
     Dict.get k (fees (data g')) = Dict.get k (fees (data g))) /\
  expenses (data g') = expenses (data g) /\
  next_member_id (data g') = next_member_id (data g) /\
  gym_details (data g') = gym_details (data g) /\
  attendance (data g') = attendance (data g) /\
  classes (data g') = classes (data g) /\
  file g' = Some (data g').
Proof.
  intros H. unfold delete_member in H. run_op_in H.
  destruct (Dict.contains member_id (members (data g))); [|discriminate H].
  simpl in H.
  assert (F : fees (data g') = Dict.del member_id (fees (data g)) /\
              members (data g') = Dict.del member_id (members (data g)) /\
              expenses (data g') = expenses (data g) /\
              next_member_id (data g') = next_member_id (data g) /\
              gym_details (data g') = gym_details (data g) /\
              attendance (data g') = attendance (data g) /\
              classes (data g') = classes (data g) /\
              file g' = Some (data g')).
  { destruct (Dict.contains member_id (fees (data g))) eqn:E;
      simpl in H; injection H as <-; simpl; repeat split.
    symmetry. now apply dict_del_absent. }
  destruct F as (Ff & Fm & Fe & Fn & Fg & Fa & Fc & Fs).
  unfold get_member. rewrite Ff, Fm.
  repeat split; try assumption.
  - apply dict_get_del_same.
  - apply dict_get_del_same.
  - now apply dict_get_del_other.
  - now apply dict_get_del_other.
Qed.

Lemma delete_member_effect_witness :
  get_member (data (snd (delete_member "1" ledger))) "1" = None /\
  Dict.get "1" (fees (data (snd (delete_member "1" ledger)))) = None /\
  classes (data (snd (delete_member "1" ledger))) = Some [("1", yoga)].
Proof.
  assert (Hrun : delete_member "1" ledger =
                 (Return true, snd (delete_member "1" ledger)))
    by (vm_compute; reflexivity).
  destruct (delete_member_effect ledger _ "1" Hrun)
    as (H1 & H2 & _ & _ & _ & _ & _ & _ & _ & H3 & _).
  split; [exact H1 | split; [exact H2 | rewrite H3; reflexivity]].
Defined.

(** ** Expense identifiers *)

(** C3. [add_expense] always answers [True] and stores the expense under
    ['EXP'] followed by the number of stored expenses plus one, zero-filled
    to four digits.  After a deletion the identifier given to a new expense
    can be one that is in use: with [EXP0001] and [EXP0002] stored and
    [EXP0001] deleted, the next expense is given [EXP0002] again, and takes
    the place of the expense that had it. *)
Theorem add_expense_identifier :
  (forall g category amount date description,
     let expense_id :=
       ("EXP" ++ format_0d 4
          (Z.of_nat (Dict.len (present (expenses (data g)))) + 1))%string in
     let d' := set_expenses
       (Some (Dict.set expense_id
                (mkexpense expense_id category amount date description)
                (present (expenses (data g))))) (data g) in
     add_expense category amount date description g =
     (Return true, mkGymManager d' (Some d'))) /\
  format_0d 4 1 = "0001" /\ format_0d 4 42 = "0042" /\
  format_0d 4 10000 = "10000" /\
  expenses (data ledger) = Some [("EXP0001", rent); ("EXP0002", power)] /\
  (let g1 := snd (delete_expense "EXP0001" ledger) in
   expenses (data g1) = Some [("EXP0002", power)] /\
   expenses (data (snd (add_expense "Water" 7 "2024-01-25" "" g1))) =
   Some [("EXP0002", water)]).
Proof.
  split.
  - intros [[ms fs [es|] n gd att cs] fl]; reflexivity.
  - repeat split.
Qed.

(** ** The payment status *)

Lemma payment_status_fold d month items : forall acc,
  fold_left (payment_status_step d month) items acc =
  mkstatus (paid acc ++ paid_rows d month items)
           (unpaid acc ++ unpaid_rows d month items).
Proof.
  induction items as [|[k m] r IH]; intros [p u]; simpl.
  - now rewrite !app_nil_r.
  - rewrite IH, is_fee_paid_fee_record.
    destruct (fee_record d k month) as [f|]; simpl;
      now rewrite <- ?app_assoc.
Qed.

Lemma get_payment_status_rows now d month :
  get_payment_status now d month =
  mkstatus (paid_rows d (status_month now month) (members d))
           (unpaid_rows d (status_month now month) (members d)).
Proof.
  unfold get_payment_status. fold (status_month now month).
  now rewrite payment_status_fold.
Qed.

Lemma paid_rows_members d month items :
  map row_member (paid_rows d month items) =
  map snd (filter (fun kv => is_fee_paid d (fst kv) month) items).
Proof.
  induction items as [|[k m] r IH]; [reflexivity|]. simpl.
  rewrite map_app, IH, is_fee_paid_fee_record.
  now destruct (fee_record d k month).
Qed.

Lemma unpaid_rows_members d month items :
  map row_member (unpaid_rows d month items) =
  map snd (filter (fun kv => negb (is_fee_paid d (fst kv) month)) items).
Proof.
  induction items as [|[k m] r IH]; [reflexivity|]. simpl.
  rewrite map_app, IH, is_fee_paid_fee_record.
  now destruct (fee_record d k month).
Qed.

Lemma filter_split_Permutation {A : Type} (p : A -> bool) (l : list A) :
  Permutation (filter p l ++ filter (fun x => negb (p x)) l) l.
Proof.
  induction l as [|x l IH]; [constructor|]. simpl.
  destruct (p x); simpl.
  - now constructor.
  - apply Permutation_sym, Permutation_cons_app. now apply Permutation_sym.
Qed.

Lemma in_paid_rows d month items r :
  In r (paid_rows d month items) <->
  exists k m f, In (k, m) items /\ fee_record d k month = Some f /\
                r = mkrow m (Some (fee_paid_date f)) (Some (fee_amount f)).
Proof.
  unfold paid_rows. rewrite in_flat_map. split.
  - intros ([k m] & Hin & Hr). simpl in Hr.
    destruct (fee_record d k month) as [f|] eqn:E; [|contradiction].
    destruct Hr as [<-|[]]. now exists k, m, f.
  - intros (k & m & f & Hin & E & ->). exists (k, m). split; [exact Hin|].
    simpl. rewrite E. now left.
Qed.

Lemma in_unpaid_rows d month items r :
  In r (unpaid_rows d month items) <->
  exists k m, In (k, m) items /\ fee_record d k month = None /\
              r = mkrow m None None.
Proof.
  unfold unpaid_rows. rewrite in_flat_map. split.
  - intros ([k m] & Hin & Hr). simpl in Hr.
    destruct (fee_record d k month) as [f|] eqn:E; [contradiction|].
    destruct Hr as [<-|[]]. now exists k, m.
  - intros (k & m & Hin & E & ->). exists (k, m). split; [exact Hin|].
    simpl. rewrite E. now left.
Qed.

(** C8.  For every document and month, the lists [paid] and [unpaid] hold,
    between them, every entry of the member mapping once: [paid] holds, in
    order, the members whose key satisfies [is_fee_paid], each with the date
    and the amount of its fee record as [last_paid] and [amount], and
    [unpaid] holds the others, so that the two lists together are a
    rearrangement of all the members.  When the members are stored under
    their own identifiers, no identifier is in both lists, and a member is
    in [paid] exactly when [is_fee_paid] holds for it and in [unpaid]
    exactly when it does not. *)
Theorem get_payment_status_partition now d month :
  let m := status_month now month in
  let s := get_payment_status now d month in
  map row_member (paid s) =
    map snd (filter (fun kv => is_fee_paid d (fst kv) m) (members d)) /\
  map row_member (unpaid s) =
    map snd (filter (fun kv => negb (is_fee_paid d (fst kv) m)) (members d)) /\
  Permutation (map row_member (paid s ++ unpaid s)) (get_all_members d) /\
  (forall r, In r (paid s) ->
     exists k f, In (k, row_member r) (members d) /\
                 fee_record d k m = Some f /\
                 row_last_paid r = Some (fee_paid_date f) /\
                 row_amount r = Some (fee_amount f)) /\
  (members_ok d ->
   (forall r1 r2, In r1 (paid s) -> In r2 (unpaid s) ->
      m_id (row_member r1) <> m_id (row_member r2)) /\
   (forall k x, get_member d k = Some x ->
      (In x (map row_member (paid s)) <-> is_fee_paid d k m = true) /\
      (In x (map row_member (unpaid s)) <-> is_fee_paid d k m = false)) /\
   (forall r, In r (paid s) ->
      exists f, fee_record d (m_id (row_member r)) m = Some f /\
                row_last_paid r = Some (fee_paid_date f) /\
                row_amount r = Some (fee_amount f))).
Proof.
  intros m s. unfold s. rewrite get_payment_status_rows. fold m. simpl.
  split; [apply paid_rows_members|]. split; [apply unpaid_rows_members|].
  split; [|split].
  - rewrite map_app, paid_rows_members, unpaid_rows_members, <- map_app.
    unfold get_all_members, Dict.values. apply Permutation_map.
    apply filter_split_Permutation.
  - intros r Hr. apply in_paid_rows in Hr.
    destruct Hr as (k & x & f & Hin & E & ->). simpl.
    exists k, f. now repeat split.
  - intros [W I]. split; [|split].
    + intros r1 r2 H1 H2.
      apply in_paid_rows in H1. destruct H1 as (k1 & m1 & f & In1 & E1 & ->).
      apply in_unpaid_rows in H2. destruct H2 as (k2 & m2 & In2 & E2 & ->).
      simpl. rewrite (I _ _ In1), (I _ _ In2). intros <-. congruence.
    + intros k x G. unfold get_member in G.
      rewrite is_fee_paid_fee_record. split.
      * rewrite in_map_iff. split.
        -- intros (r & <- & Hr). apply in_paid_rows in Hr.
           destruct Hr as (k1 & m1 & f & In1 & E1 & ->). simpl in *.
           apply dict_get_in in G.
           rewrite <- (I _ _ G), (I _ _ In1), E1. reflexivity.
        -- destruct (fee_record d k m) as [f|] eqn:E; [|discriminate].
           intros _.
           exists (mkrow x (Some (fee_paid_date f)) (Some (fee_amount f))).
           split; [reflexivity|]. apply in_paid_rows.
           exists k, x, f. split; [now apply dict_get_in | now split].
      * rewrite in_map_iff. split.
        -- intros (r & <- & Hr). apply in_unpaid_rows in Hr.
           destruct Hr as (k1 & m1 & In1 & E1 & ->). simpl in *.
           apply dict_get_in in G.
           rewrite <- (I _ _ G), (I _ _ In1), E1. reflexivity.
        -- destruct (fee_record d k m) as [f|] eqn:E; [discriminate|].
           intros _. exists (mkrow x None None).
           split; [reflexivity|]. apply in_unpaid_rows.
           exists k, x. split; [now apply dict_get_in | now split].
    + intros r Hr. apply in_paid_rows in Hr.
      destruct Hr as (k & x & f & Hin & E & ->). simpl.
      exists f. rewrite (I _ _ Hin). now repeat split.
Qed.

Lemma members_ok_ledger : members_ok (data ledger).
Proof.
  split.
  - unfold Dict.wf. simpl. repeat constructor; simpl; intuition discriminate.
  - intros k m [[= <- <-]|[[= <- <-]|[]]]; reflexivity.
Qed.

Lemma get_payment_status_partition_witness :
  Permutation
    (map row_member
       (paid (get_payment_status noon (data ledger) (Some "2024-01")) ++
        unpaid (get_payment_status noon (data ledger) (Some "2024-01"))))
    (get_all_members (data ledger)) /\
  map (fun r => (m_name (row_member r), row_last_paid r, row_amount r))
      (paid (get_payment_status noon (data ledger) (Some "2024-01"))) =
  [("Alice", Some "2024-01-10 12:00:00", Some 50%float)] /\
  (In member_alice
      (map row_member
         (paid (get_payment_status noon (data ledger) (Some "2024-01")))) <->
   is_fee_paid (data ledger) "1" "2024-01" = true).
Proof.
  split; [|split].
  - exact (proj1 (proj2 (proj2 (get_payment_status_partition noon (data ledger)
                                  (Some "2024-01"))))).
  - reflexivity.
  - exact (proj1 (proj1 (proj2 (proj2 (proj2 (proj2 (proj2
             (get_payment_status_partition noon (data ledger) (Some "2024-01")))))
             members_ok_ledger)) "1" member_alice eq_refl)).
Defined.

(** ** Profit and loss *)

Lemma insert_by_date_desc_Permutation e l :
  Permutation (insert_by_date_desc e l) (e :: l).
Proof.
  induction l as [|x r IH]; simpl; [reflexivity|].
  destruct (String.ltb (e_date e) (e_date x)); [|reflexivity].
  rewrite IH. constructor.
Qed.

Lemma sort_by_date_desc_Permutation l : Permutation (sort_by_date_desc l) l.
Proof.
  induction l as [|x r IH]; simpl; [constructor|].
  rewrite insert_by_date_desc_Permutation. now constructor.
Qed.

Lemma startswith_empty s : startswith s "" = true.
Proof. unfold startswith. now destruct s. Qed.

Lemma filter_startswith_empty (l : list expense) :
  filter (fun e => startswith (e_date e) "") l = l.
Proof.
  induction l as [|x r IH]; simpl; [reflexivity|].
  now rewrite startswith_empty, IH.
Qed.

(** The expenses of a month, in the order in which they are added up. *)
Lemma get_expenses_amounts d month :
  map e_amount (get_expenses d (Some month)) = expense_amounts d month.
Proof.
  unfold get_expenses, expense_amounts.
  destruct (expenses d) as [es|]; simpl; [|reflexivity].
  destruct month as [|c month']; simpl; [|reflexivity].
  now rewrite filter_startswith_empty.
Qed.

(** The expenses of a month are those whose date starts with it. *)
Lemma get_expenses_month d month :
  Permutation (get_expenses d (Some month))
    (filter (fun e => startswith (e_date e) month)
            (Dict.values (present (expenses d)))).
Proof.
  unfold get_expenses. destruct (expenses d) as [es|]; simpl; [|constructor].
  rewrite sort_by_date_desc_Permutation.
  destruct month as [|c month']; simpl; [|reflexivity].
  induction (Dict.values es) as [|x r IH]; simpl; [constructor|].
  rewrite startswith_empty. now constructor.
Qed.

Lemma paid_rows_amounts d month :
  map amount_or_zero (paid_rows d month (members d)) = paid_amounts d month.
Proof.
  unfold paid_rows, paid_amounts.
  induction (members d) as [|[k m] r IH]; [reflexivity|]. simpl.
  rewrite map_app, IH. now destruct (fee_record d k month).
Qed.

(** [round_half_even] is a rounding to a nearest integer. *)
Lemma round_half_even_close q :
  Qabs (inject_Z (round_half_even q) - q) <= 1 # 2.
Proof.
  unfold round_half_even.
  pose proof (Qfloor_le q) as Hle. pose proof (Qlt_floor q) as Hlt.
  rewrite inject_Z_plus in Hlt. change (inject_Z 1) with 1 in Hlt.
  apply Qabs_Qle_condition.
  destruct (Qcompare_spec (q - inject_Z (Qfloor q)) (1 # 2)) as [E|L|G].
  - destruct (Z.even (Qfloor q)); rewrite ?inject_Z_plus;
      change (inject_Z 1) with 1; split; lra.
  - split; lra.
  - rewrite inject_Z_plus. change (inject_Z 1) with 1. split; lra.
Qed.

(** [round(x, 2)] on the margins of some accounts, where 93/160, 87/160 and
    2/3 of the revenue are left, and on some other floats.  The float
    [93 / 160 * 100] is above 58.125, so it goes up to 58.13; 0.125 and
    0.375 are half way, and go to the even hundredth.  A quotient of two
    whole numbers, such as [5813 / 100], is the float nearest to it, which
    is what Python reads [58.13] as. *)
Example round2_samples :
  (58.125 <? 93 / 160 * 100)%float = true /\
  round2 (93 / 160 * 100)%float = (5813 / 100)%float /\
  round2 (87 / 160 * 100)%float = (5437 / 100)%float /\
  round2 (2 / 3 * 100)%float = (6667 / 100)%float /\
  round2 0.125%float = (12 / 100)%float /\
  round2 0.375%float = (38 / 100)%float /\
  round2 (-1 / 1000)%float = (-0)%float /\
  round2 infinity = infinity /\
  sum [(1 / 10); (2 / 10); (3 / 10)]%float = (6 / 10 + 0x1p-53)%float.
Proof. repeat split; vm_compute; reflexivity. Qed.

(** C7, as the specification states it, at one document: with a revenue of
    3 and expenses of 1 the margin that is returned is 66.67, which is not
    net profit / revenue x 100. *)
Lemma profit_margin_is_rounded :
  revenue (calculate_profit_loss noon (data thirds) "2024-01") = 3%float /\
  total_expenses (calculate_profit_loss noon (data thirds) "2024-01") = 1%float /\
  net_profit (calculate_profit_loss noon (data thirds) "2024-01") = 2%float /\
  profit_margin (calculate_profit_loss noon (data thirds) "2024-01")
    = (6667 / 100)%float /\
  (net_profit (calculate_profit_loss noon (data thirds) "2024-01") /
   revenue (calculate_profit_loss noon (data thirds) "2024-01") * 100
   =? profit_margin (calculate_profit_loss noon (data thirds) "2024-01"))%float
    = false /\
  profit_margin (calculate_profit_loss noon (data thirds) "2024-01")
    <> (net_profit (calculate_profit_loss noon (data thirds) "2024-01") /
        revenue (calculate_profit_loss noon (data thirds) "2024-01") * 100)%float.
Proof.
  split; [vm_compute; reflexivity|]. split; [vm_compute; reflexivity|].
  split; [vm_compute; reflexivity|]. split; [vm_compute; reflexivity|].
  split; [vm_compute; reflexivity|].
  intros H.
  assert (E : (profit_margin (calculate_profit_loss noon (data thirds) "2024-01")
               =? profit_margin (calculate_profit_loss noon (data thirds) "2024-01"))%float
              = true) by (vm_compute; reflexivity).
  rewrite H in E at 1. vm_compute in E. discriminate E.
Qed.

(** C7 (amended).  The revenue is the sum of the amounts of the fee records
    of the month, in the order of the members; the expenses are the sum of
    the amounts of the expenses whose date starts with the month, the latest
    first; the net profit is their difference; and the margin is
    [round(net_profit / revenue * 100, 2)] when the revenue is positive and
    0 otherwise, so when the revenue is 0, whatever the expenses.  All of it
    is computed on floats. *)
Theorem calculate_profit_loss_spec now d month :
  revenue (calculate_profit_loss now d month) = sum (paid_amounts d month) /\
  total_expenses (calculate_profit_loss now d month)
    = sum (expense_amounts d month) /\
  Permutation (expense_amounts d month)
    (map e_amount
       (filter (fun e => startswith (e_date e) month)
               (Dict.values (present (expenses d))))) /\
  net_profit (calculate_profit_loss now d month) =
    (revenue (calculate_profit_loss now d month) -
     total_expenses (calculate_profit_loss now d month))%float /\
  ((0 <? revenue (calculate_profit_loss now d month))%float = true ->
   profit_margin (calculate_profit_loss now d month) =
   round2 (net_profit (calculate_profit_loss now d month) /
           revenue (calculate_profit_loss now d month) * 100)%float) /\
  ((0 <? revenue (calculate_profit_loss now d month))%float = false ->
   profit_margin (calculate_profit_loss now d month) = 0%float) /\
  (revenue (calculate_profit_loss now d month) = 0%float ->
   profit_margin (calculate_profit_loss now d month) = 0%float).
Proof.
  unfold calculate_profit_loss. cbn [revenue total_expenses net_profit profit_margin].
  rewrite get_payment_status_rows. cbn [paid status_month].
  rewrite paid_rows_amounts, get_expenses_amounts.
  split; [reflexivity|]. split; [reflexivity|].
  split; [apply Permutation_map, sort_by_date_desc_Permutation|].
  split; [reflexivity|]. split; [|split].
  - intros H. now rewrite H.
  - intros H. rewrite H. vm_compute. reflexivity.
  - intros H. rewrite H. vm_compute. reflexivity.
Qed.

Lemma calculate_profit_loss_spec_witness :
  profit_margin (calculate_profit_loss noon (data ledger) "2024-01") = 30%float /\
  profit_margin (calculate_profit_loss noon (data ledger) "2024-02") = 0%float.
Proof.
  split.
  - assert (Hpos : (0 <? revenue (calculate_profit_loss noon (data ledger) "2024-01"))%float
                   = true) by (vm_compute; reflexivity).
    rewrite (proj1 (proj2 (proj2 (proj2 (proj2
      (calculate_profit_loss_spec noon (data ledger) "2024-01"))))) Hpos).
    vm_compute. reflexivity.
  - apply (proj2 (proj2 (proj2 (proj2 (proj2 (proj2
      (calculate_profit_loss_spec noon (data ledger) "2024-02"))))))).
    vm_compute. reflexivity.
Defined.

(** ** Documents that the operations build *)

Lemma members_unchanged now o g :
  match o with
  | OpResetData | OpAddMember _ _ _ _ _ _ _ | OpUpdateMember _ _ _ _ _ _
  | OpDeleteMember _ => False
  | _ => True
  end ->
  members (data (exec now o g)) = members (data g).
Proof.
  destruct o; simpl; intros H; try contradiction;
    [ unfold get_gym_details | unfold update_gym_details
    | unfold add_expense | unfold delete_expense
    | unfold pay_fee | unfold delete_fee | unfold update_fee
    | unfold log_attendance | unfold add_class | unfold book_class ];
    run_op; repeat (break_goal; simpl); reflexivity.
Qed.

Lemma fees_unchanged now o g :
  match o with
  | OpResetData | OpDeleteMember _ | OpPayFee _ _ _ _ _ | OpDeleteFee _ _
  | OpUpdateFee _ _ _ _ _ => False
  | _ => True
  end ->
  fees (data (exec now o g)) = fees (data g).
Proof.
  destruct o; simpl; intros H; try contradiction;
    [ unfold get_gym_details | unfold update_gym_details
    | unfold add_member | unfold update_member
    | unfold add_expense | unfold delete_expense
    | unfold log_attendance | unfold add_class | unfold book_class ];
    run_op;
    try (destruct is_trial; simpl;
         [ destruct (trial_end_of_pure
                       (if truthy joined_date then or_empty joined_date
                        else strftime_ymd (dt_date now)) g) as [r ->];
           destruct r | ]);
    repeat (break_goal; simpl); reflexivity.
Qed.

Lemma members_ok_set k x ms :
  m_id x = k ->
  (Dict.wf ms /\ forall k' m, In (k', m) ms -> m_id m = k') ->
  Dict.wf (Dict.set k x ms) /\
  forall k' m, In (k', m) (Dict.set k x ms) -> m_id m = k'.
Proof.
  intros Hx [W I]. split; [now apply dict_wf_set|].
  intros k' m H. apply dict_in_set in H.
  destruct H as [[-> ->]|H]; [exact Hx | now apply I].
Qed.

Lemma members_ok_adjust k f ms :
  (forall m, m_id (f m) = m_id m) ->
  (Dict.wf ms /\ forall k' m, In (k', m) ms -> m_id m = k') ->
  Dict.wf (Dict.adjust k f ms) /\
  forall k' m, In (k', m) (Dict.adjust k f ms) -> m_id m = k'.
Proof.
  intros Hf [W I]. split; [now apply dict_wf_adjust|].
  intros k' m H. apply dict_in_adjust in H.
  destruct H as [H|(-> & v & G & ->)]; [now apply I|].
  rewrite Hf. apply I. now apply dict_get_in.
Qed.

Lemma exec_members_ok now o g :
  members_ok (data g) -> members_ok (data (exec now o g)).
Proof.
  unfold members_ok. intros H.
  destruct o; try (rewrite members_unchanged by exact I; exact H); simpl.
  - split; [constructor | intros k m []].
  - unfold add_member. run_op.
    destruct is_trial; simpl;
      [ destruct (trial_end_of_pure
                    (if truthy joined_date then or_empty joined_date
                     else strftime_ymd (dt_date now)) g) as [r ->];
        destruct r; simpl; [|exact H] | ];
      now apply members_ok_set.
  - unfold update_member. run_op.
    destruct (Dict.contains member_id (members (data g))); simpl; [|exact H].
    destruct (is_none email), (truthy joined_date); simpl;
      repeat (apply members_ok_adjust; [reflexivity|]); exact H.
  - unfold delete_member. run_op.
    destruct (Dict.contains member_id (members (data g))); simpl; [|exact H].
    destruct H as [W I].
    destruct (Dict.contains member_id (fees (data g))); simpl;
      (split; [now apply dict_wf_del
              | intros k m Hin; apply dict_in_del in Hin; now apply I]).
Qed.

Lemma fees_ok_adjust k (f : Dict.t fee -> Dict.t fee) d :
  (forall fs, Dict.wf fs -> Dict.wf (f fs)) ->
  fees_ok d -> fees_ok (set_fees (Dict.adjust k f) d).
Proof.
  intros Hf [W I]. split; simpl; [now apply dict_wf_adjust|].
  intros k' fs H. apply dict_in_adjust in H.
  destruct H as [H|(-> & v & G & ->)]; [now apply (I k')|].
  apply Hf, (I k). now apply dict_get_in.
Qed.

Lemma exec_fees_ok now o g :
  fees_ok (data g) -> fees_ok (data (exec now o g)).
Proof.
  intros H.
  destruct o;
    try (unfold fees_ok in *; rewrite fees_unchanged by exact I; exact H);
    simpl.
  - split; [constructor | intros k fs []].
  - unfold delete_member. run_op.
    destruct (Dict.contains member_id (members (data g))); simpl; [|exact H].
    destruct (Dict.contains member_id (fees (data g))); simpl; [|exact H].
    destruct H as [W I].
    split; simpl; [now apply dict_wf_del|].
    intros k fs Hin. apply dict_in_del in Hin. now apply (I k).
  - destruct (Dict.contains member_id (members (data g))) eqn:Hm.
    + rewrite (pay_fee_known _ _ _ _ _ _ _ Hm). cbv zeta. cbn [snd data].
      now apply fees_ok_after_payment.
    + unfold pay_fee. run_op. now rewrite Hm.
  - unfold delete_fee. run_op.
    destruct (no_fee_record (data g) _ _); simpl; [exact H|].
    apply fees_ok_adjust; [|exact H]. intros fs. apply dict_wf_del.
  - unfold update_fee. run_op.
    destruct (no_fee_record (data g) _ _); simpl; [exact H|].
    destruct (is_none notes); simpl;
      repeat (apply fees_ok_adjust; [intros fs; apply dict_wf_adjust|]);
      exact H.
Qed.

(** Every document that a sequence of operations builds from the empty one
    stores its members under their own identifiers and has at most one fee
    record for a member and a month. *)
Lemma run_all_documents_ok ops : forall g,
  members_ok (data g) /\ fees_ok (data g) ->
  members_ok (data (run_all ops g)) /\ fees_ok (data (run_all ops g)).
Proof.
  induction ops as [|[now o] ops IH]; intros g [Hm Hf]; [now split|].
  simpl. apply IH. split; [now apply exec_members_ok | now apply exec_fees_ok].
Qed.

Lemma fresh_documents_ok ops :
  members_ok (data (run_all ops fresh)) /\ fees_ok (data (run_all ops fresh)).
Proof.
  apply run_all_documents_ok. repeat split; try constructor; intros ? ? [].
Qed.


(** ** The sample documents *)

Lemma studio_reached : run_all studio_ops fresh = studio.
Proof. vm_compute. reflexivity. Qed.

Lemma ledger_reached : run_all ledger_ops fresh = ledger.
Proof. vm_compute. reflexivity. Qed.

Lemma thirds_reached : run_all thirds_ops fresh = thirds.
Proof. vm_compute. reflexivity. Qed.

(** A class with one place: the first member is booked, the second is
    refused, and the first can be booked again without effect. *)
Example class_with_one_place :
  book_class "1" "1" (run_all (firstn 3 studio_ops) fresh) = (Return true, studio) /\
  book_class "2" "1" studio = (Return false, studio) /\
  book_class "1" "1" studio = (Return true, studio).
Proof. repeat split; vm_compute; reflexivity. Qed.

(** A payment of 50 by Alice for January 2024 puts her in the [paid] list
    of that month with that amount, and leaves Bob in the [unpaid] list. *)
Example alice_has_paid :
  is_fee_paid (data ledger) "1" "2024-01" = true /\
  map (fun r => (m_name (row_member r), row_amount r))
      (paid (get_payment_status noon (data ledger) (Some "2024-01"))) =
    [("Alice", Some 50%float)] /\
  map (fun r => m_name (row_member r))
      (unpaid (get_payment_status noon (data ledger) (Some "2024-01"))) =
    ["Bob"].
Proof. repeat split. Qed.

(** * Further properties *)

(** ** The calendar *)

Lemma in_range lo n x :
  (lo <= x < lo + Z.of_nat n)%Z -> In x (range lo n).
Proof.
  intros H. unfold range. apply in_map_iff.
  exists (Z.to_nat (x - lo)). split; [lia|]. apply in_seq. lia.
Qed.

Lemma years_round_trip :
  forallb year_round_trip (range 1000 (Z.to_nat 9000)) = true.
Proof. vm_compute. reflexivity. Qed.

Lemma months_days_round_trip :
  forallb month_day_round_trip
    (flat_map (fun m => map (pair m) (range 1 31)) (range 1 12)) = true.
Proof. vm_compute. reflexivity. Qed.

Lemma valid_date_bounds y m d :
  valid_date y m d = true ->
  (1 <= y <= 9999 /\ 1 <= m <= 12 /\ 1 <= d <= days_in_month y m /\
   days_in_month y m <= 31)%Z.
Proof.
  unfold valid_date. rewrite !andb_true_iff, !Z.leb_le.
  intros (((((? & ?) & ?) & ?) & ?) & ?).
  assert (days_in_month y m <= 31)%Z.
  { unfold days_in_month.
    repeat match goal with |- context [if ?b then _ else _] => destruct b end; lia. }
  lia.
Qed.

Lemma year_read_back y r :
  (1000 <= y <= 9999)%Z ->
  match_year (str y ++ r)%string = Some (y, r).
Proof.
  intros Hy.
  pose proof years_round_trip as H. rewrite forallb_forall in H.
  specialize (H y (in_range 1000 (Z.to_nat 9000) y ltac:(lia))).
  unfold year_round_trip in H.
  destruct (str y) as [|a [|b [|c [|d [|? ?]]]]]; try discriminate H.
  cbn [append]. unfold match_year.
  destruct (digit a), (digit b), (digit c), (digit d); try discriminate H.
  apply Z.eqb_eq in H. now rewrite H.
Qed.

Lemma month_day_read_back m d :
  (1 <= m <= 12)%Z -> (1 <= d <= 31)%Z ->
  match_month_day (format_0d 2 m ++ "-" ++ format_0d 2 d)%string =
  Some (m, (d, EmptyString)).
Proof.
  intros Hm Hd.
  pose proof months_days_round_trip as H. rewrite forallb_forall in H.
  specialize (H (m, d)).
  assert (Hin : In (m, d)
            (flat_map (fun m => map (pair m) (range 1 31)) (range 1 12))).
  { apply in_flat_map. exists m. split; [apply in_range; lia|].
    apply in_map, in_range. lia. }
  specialize (H Hin). unfold month_day_round_trip in H. simpl fst in H. simpl snd in H.
  destruct (match_month_day _) as [[m' [d' [|? ?]]]|]; try discriminate H.
  apply andb_true_iff in H. destruct H as [H1 H2].
  apply Z.eqb_eq in H1, H2. now subst.
Qed.

Lemma append_assoc_string (a b c : string) :
  ((a ++ b) ++ c = a ++ (b ++ c))%string.
Proof. induction a as [|x a IH]; simpl; [reflexivity | now rewrite IH]. Qed.

(** Reading back the date that [strftime] wrote gives the date, at
    midnight, from the year 1000 on. *)
Lemma strptime_strftime d :
  date_ok d -> (1000 <= year d)%Z ->
  strptime_ymd (strftime_ymd d) = Some (mkdatetime d 0 0 0 0).
Proof.
  unfold date_ok. intros V Hy. pose proof (valid_date_bounds _ _ _ V) as B.
  unfold strptime_ymd, strftime_ymd, strftime_ym.
  rewrite !append_assoc_string. rewrite year_read_back by lia.
  change ("-" ++ format_0d 2 (month d) ++ "-" ++ format_0d 2 (day d))%string
    with (String "-" (format_0d 2 (month d) ++ "-" ++ format_0d 2 (day d)))%string.
  cbv iota. rewrite month_day_read_back by lia. rewrite V. now destruct d.
Qed.

Lemma short_years :
  forallb (fun y => (String.length (str y) <=? 3)%nat) (range 1 (Z.to_nat 999))
  = true.
Proof. vm_compute. reflexivity. Qed.

Lemma match_year_short a r :
  (String.length a <= 3)%nat -> match_year (a ++ String "-" r)%string = None.
Proof.
  destruct a as [|a1 [|a2 [|a3 [|a4 a]]]]; simpl; intros H; try lia;
    unfold match_year;
    repeat match goal with
           | |- context [match ?x with EmptyString => _ | String _ _ => _ end] =>
               is_var x; destruct x
           end; try reflexivity;
    repeat match goal with
           | |- context [digit ?c] => is_var c; destruct (digit c)
           end; reflexivity.
Qed.

(** Before the year 1000 the date that [strftime] wrote is not read back:
    its year has fewer than four digits, and [strptime] raises. *)
Lemma strptime_strftime_short d :
  date_ok d -> (year d < 1000)%Z -> strptime_ymd (strftime_ymd d) = None.
Proof.
  unfold date_ok. intros V Hy. pose proof (valid_date_bounds _ _ _ V) as B.
  pose proof short_years as H. rewrite forallb_forall in H.
  specialize (H (year d) (in_range 1 (Z.to_nat 999) (year d) ltac:(lia))).
  apply Nat.leb_le in H.
  unfold strptime_ymd, strftime_ymd, strftime_ym.
  rewrite !append_assoc_string.
  change ("-" ++ format_0d 2 (month d) ++ "-" ++ format_0d 2 (day d))%string
    with (String "-" (format_0d 2 (month d) ++ "-" ++ format_0d 2 (day d)))%string.
  now rewrite match_year_short.
Qed.

Lemma strptime_date_ok s t : strptime_ymd s = Some t -> date_ok (dt_date t).
Proof.
  unfold strptime_ymd.
  destruct (match_year s) as [[y [|c r]]|]; try discriminate.
  destruct (Ascii.eqb c "-") eqn:Ec.
  - apply Ascii.eqb_eq in Ec; subst c.
    destruct (match_month_day r) as [[m [d [|? ?]]]|]; try discriminate.
    destruct (valid_date y m d) eqn:V; intros [= <-]. exact V.
  - intros H. exfalso. revert H.
    destruct c as [[] [] [] [] [] [] [] []]; try discriminate.
Qed.

Lemma days_in_month_bounds y m : (28 <= days_in_month y m <= 31)%Z.
Proof.
  unfold days_in_month.
  repeat match goal with |- context [if ?b then _ else _] => destruct b end; lia.
Qed.

Lemma date_compare_key a b :
  date_ok a -> date_ok b ->
  date_compare a b = (date_key a ?= date_key b)%Z.
Proof.
  intros Ha Hb. apply valid_date_bounds in Ha, Hb.
  unfold date_compare, date_key.
  destruct (Z.compare_spec (year a) (year b)) as [E|L|G].
  - destruct (Z.compare_spec (month a) (month b)) as [E'|L'|G'].
    + rewrite E, E'. symmetry.
      destruct (Z.compare_spec (day a) (day b)) as [E2|L2|G2];
        [apply Z.compare_eq_iff | apply Z.compare_lt_iff | apply Z.compare_gt_iff];
        lia.
    + symmetry. apply Z.compare_lt_iff. lia.
    + symmetry. apply Z.compare_gt_iff. lia.
  - symmetry. apply Z.compare_lt_iff. lia.
  - symmetry. apply Z.compare_gt_iff. lia.
Qed.

Lemma next_day_ok d e :
  date_ok d -> next_day d = Some e ->
  date_ok e /\ (date_key d < date_key e)%Z.
Proof.
  unfold date_ok. intros V. pose proof (valid_date_bounds _ _ _ V) as B.
  unfold next_day.
  destruct (day d <? days_in_month (year d) (month d))%Z eqn:E1.
  - intros [= <-]. apply Z.ltb_lt in E1. simpl. unfold date_key. simpl.
    split; [|lia]. unfold valid_date.
    rewrite !andb_true_iff, !Z.leb_le. lia.
  - destruct (month d <? 12)%Z eqn:E2.
    + intros [= <-]. apply Z.ltb_lt in E2. unfold date_key. simpl.
      split; [|lia]. unfold valid_date.
      pose proof (days_in_month_bounds (year d) (month d + 1)).
      rewrite !andb_true_iff, !Z.leb_le. lia.
    + destruct (year d <? 9999)%Z eqn:E3; [|discriminate].
      intros [= <-]. apply Z.ltb_lt in E3. apply Z.ltb_ge in E2.
      unfold date_key. simpl. split; [|lia].
      unfold valid_date. pose proof (days_in_month_bounds (year d + 1) 1).
      rewrite !andb_true_iff, !Z.leb_le. lia.
Qed.

Lemma date_key_year a b :
  date_ok a -> date_ok b -> (date_key a <= date_key b)%Z ->
  (year a <= year b)%Z.
Proof.
  intros Ha Hb. apply valid_date_bounds in Ha, Hb. unfold date_key. lia.
Qed.

Lemma plus_days_ok n : forall d e,
  date_ok d -> plus_days n d = Some e ->
  date_ok e /\ (date_key d + Z.of_nat n <= date_key e)%Z.
Proof.
  induction n as [|n IH]; intros d e V; simpl.
  - intros [= <-]. split; [exact V | lia].
  - destruct (next_day d) as [d'|] eqn:E; [|discriminate].
    destruct (next_day_ok d d' V E) as [V' L]. intros H.
    destruct (IH d' e V' H) as [Ve Le]. split; [exact Ve | lia].
Qed.

(** A clock reading is not later than midnight of a later date. *)
Lemma before_midnight t e :
  date_compare (dt_date t) e = Lt ->
  datetime_leb t (mkdatetime e 0 0 0 0) = true.
Proof.
  intros H. unfold datetime_leb, datetime_compare. simpl. now rewrite H.
Qed.

(** ** Member identifiers *)

Lemma to_int_not_nil z : Z.to_int z <> Decimal.Pos Decimal.Nil /\
                         Z.to_int z <> Decimal.Neg Decimal.Nil.
Proof.
  split; intros H; pose proof (f_equal Z.of_int H) as H';
    rewrite DecimalZ.of_to in H'; simpl in H'; subst z; discriminate H.
Qed.

(** [str] gives different numbers different texts. *)
Lemma str_inj a b : str a = str b -> a = b.
Proof.
  unfold str. intros H. apply DecimalZ.to_int_inj.
  destruct (to_int_not_nil a) as [A1 A2], (to_int_not_nil b) as [B1 B2].
  pose proof (NilZero.isi _ A1 A2) as Ia. pose proof (NilZero.isi _ B1 B2) as Ib.
  rewrite H in Ia. congruence.
Qed.

Lemma dict_keys_adjust {V : Type} k (f : V -> V) (d : Dict.t V) :
  Dict.keys (Dict.adjust k f d) = Dict.keys d.
Proof.
  unfold Dict.adjust. destruct (Dict.get k d) as [v|] eqn:E; [|reflexivity].
  rewrite dict_keys_set. unfold Dict.contains. now rewrite E.
Qed.

Lemma counter_unchanged now o g :
  match o with
  | OpResetData | OpAddMember _ _ _ _ _ _ _ => False
  | _ => True
  end ->
  next_member_id (data (exec now o g)) = next_member_id (data g).
Proof.
  destruct o; simpl; intros H; try contradiction;
    [ unfold get_gym_details | unfold update_gym_details
    | unfold update_member | unfold delete_member
    | unfold add_expense | unfold delete_expense
    | unfold pay_fee | unfold delete_fee | unfold update_fee
    | unfold log_attendance | unfold add_class | unfold book_class ];
    run_op; repeat (break_goal; simpl); reflexivity.
Qed.

Lemma add_member_run now g name phone photo membership_type joined_date
    is_trial email :
  add_member now name phone photo membership_type joined_date is_trial email g =
  let jd := if truthy joined_date then or_empty joined_date
            else strftime_ymd (dt_date now) in
  let n := next_member_id (data g) in
  let done (te : option string) :=
    let d' := set_next_member_id (n + 1)
                (set_members
                   (Dict.set (str n)
                      (mkmember (str n) name phone (or_empty email) photo jd true
                                membership_type is_trial te))
                   (data g)) in
    (Return n, mkGymManager d' (Some d')) in
  if is_trial then
    match strptime_ymd jd with
    | None => (Raise ValueError, g)
    | Some t =>
        match plus_days 3 (dt_date t) with
        | None => (Raise OverflowError, g)
        | Some e => done (Some (strftime_ymd e))
        end
    end
  else done None.
Proof.
  unfold add_member, trial_end_of, bind, read, modify, save_data, ret, raise.
  cbv beta. destruct is_trial; [|reflexivity].
  destruct (strptime_ymd _) as [t|]; [|reflexivity].
  destruct (plus_days 3 (dt_date t)); reflexivity.
Qed.

Lemma fresh_identifier d :
  ids_below_counter d -> Dict.get (str (next_member_id d)) (members d) = None.
Proof.
  intros I. apply dict_get_none_keys. intros Hin.
  destruct (I _ Hin) as (n & Hn & E). apply str_inj in E. lia.
Qed.

Lemma ids_below_counter_added d r :
  ids_below_counter d ->
  ids_below_counter
    (set_next_member_id (next_member_id d + 1)
       (set_members (Dict.set (str (next_member_id d)) r) d)).
Proof.
  intros I k. simpl. rewrite dict_keys_set.
  pose proof (fresh_identifier d I) as F. unfold Dict.contains. rewrite F.
  intros Hin. apply in_app_or in Hin. destruct Hin as [Hin|[<-|[]]].
  - destruct (I _ Hin) as (n & Hn & E). exists n. split; [lia | exact E].
  - exists (next_member_id d). split; [lia | reflexivity].
Qed.

Lemma ids_below_counter_ext d d' :
  (forall k, In k (Dict.keys (members d')) -> In k (Dict.keys (members d))) ->
  (next_member_id d <= next_member_id d')%Z ->
  ids_below_counter d -> ids_below_counter d'.
Proof.
  intros Hk Hn I k Hin. destruct (I k (Hk k Hin)) as (n & Hlt & E).
  exists n. split; [lia | exact E].
Qed.

Lemma exec_ids_below_counter now o g :
  ids_below_counter (data g) -> ids_below_counter (data (exec now o g)).
Proof.
  intros Hi.
  destruct o;
    try (apply (ids_below_counter_ext (data g));
         [ rewrite members_unchanged by exact I; auto
         | rewrite counter_unchanged by exact I; lia
         | exact Hi ]);
    simpl.
  - intros k H. simpl in H. contradiction.
  - rewrite add_member_run. cbv zeta.
    destruct is_trial;
      [ destruct (strptime_ymd _) as [t|]; [|exact Hi];
        destruct (plus_days 3 (dt_date t)); [|exact Hi] | ];
      now apply ids_below_counter_added.
  - apply (ids_below_counter_ext (data g)); [| |exact Hi].
    + unfold update_member. run_op.
      destruct (Dict.contains member_id (members (data g))); simpl; [|auto].
      destruct (is_none email), (truthy joined_date); simpl;
        rewrite ?dict_keys_adjust; auto.
    + unfold update_member. run_op.
      destruct (Dict.contains member_id (members (data g))); simpl; [|lia].
      destruct (is_none email), (truthy joined_date); simpl; lia.
  - apply (ids_below_counter_ext (data g)); [| |exact Hi].
    + unfold delete_member. run_op.
      destruct (Dict.contains member_id (members (data g))); simpl; [|auto].
      destruct (Dict.contains member_id (fees (data g))); simpl;
        intros k; rewrite dict_keys_del; intros H; now apply filter_In in H.
    + unfold delete_member. run_op.
      destruct (Dict.contains member_id (members (data g))); simpl; [|lia].
      destruct (Dict.contains member_id (fees (data g))); simpl; lia.
Qed.

Lemma run_all_ids_below_counter ops : forall g,
  ids_below_counter (data g) -> ids_below_counter (data (run_all ops g)).
Proof.
  induction ops as [|[now o] ops IH]; intros g H; [exact H|].
  simpl. apply IH. now apply exec_ids_below_counter.
Qed.

Lemma exec_counter_grows now o g :
  o <> OpResetData ->
  (next_member_id (data g) <= next_member_id (data (exec now o g)))%Z.
Proof.
  intros Ho.
  destruct o; try (rewrite counter_unchanged by exact I; lia);
    [congruence|]. simpl.
  rewrite add_member_run. cbv zeta.
  destruct is_trial;
    [ destruct (strptime_ymd _) as [t|]; [|simpl; lia];
      destruct (plus_days 3 (dt_date t)); simpl; lia
    | simpl; lia ].
Qed.

(** X1.  In a document whose member keys are numbers that the counter has
    passed, as in every document that the operations build, [add_member]
    gives the new member an identifier that no member has: it returns the
    counter and moves it on by one, stores the member under the decimal form
    of that number, leaves every other member as it was, and the mapping has
    one member more. *)
Theorem add_member_fresh_identifier now g name phone photo membership_type
    joined_date is_trial email n g' :
  ids_below_counter (data g) ->
  add_member now name phone photo membership_type joined_date is_trial email g
    = (Return n, g') ->
  n = next_member_id (data g) /\
  next_member_id (data g') = (n + 1)%Z /\
  get_member (data g) (str n) = None /\
  (exists m, get_member (data g') (str n) = Some m /\
     m_id m = str n /\ m_name m = name /\ m_phone m = phone /\
     m_email m = or_empty email /\ m_photo m = photo /\
     m_membership_type m = membership_type /\ m_active m = true /\
     m_is_trial m = is_trial) /\
  (forall k, k <> str n -> get_member (data g') k = get_member (data g) k) /\
  Dict.len (members (data g')) = S (Dict.len (members (data g))) /\
  ids_below_counter (data g') /\
  file g' = Some (data g').
Proof.
  intros I H. rewrite add_member_run in H. cbv zeta in H.
  assert (D : exists te,
    n = next_member_id (data g) /\
    g' = (let d' := set_next_member_id (n + 1)
                      (set_members
                         (Dict.set (str n)
                            (mkmember (str n) name phone (or_empty email) photo
                               (if truthy joined_date then or_empty joined_date
                                else strftime_ymd (dt_date now))
                               true membership_type is_trial te))
                         (data g)) in
          mkGymManager d' (Some d'))).
  { destruct is_trial.
    - destruct (strptime_ymd _) as [t|]; [|discriminate H].
      destruct (plus_days 3 (dt_date t)); [|discriminate H].
      injection H as <- <-. eexists. split; reflexivity.
    - injection H as <- <-. eexists. split; reflexivity. }
  destruct D as (te & -> & ->). cbv zeta. unfold get_member. simpl.
  pose proof (fresh_identifier _ I) as F.
  split; [reflexivity|]. split; [reflexivity|]. split; [exact F|].
  split; [|split; [|split; [|split]]].
  - eexists. split; [apply dict_get_set_same|]. simpl. now repeat split.
  - intros k Hk. now apply dict_get_set_other.
  - unfold Dict.len. rewrite <- !(length_map fst).
    fold (Dict.keys (Dict.set (str (next_member_id (data g)))
            (mkmember (str (next_member_id (data g))) name phone (or_empty email)
               photo (if truthy joined_date then or_empty joined_date
                      else strftime_ymd (dt_date now))
               true membership_type is_trial te) (members (data g)))).
    rewrite dict_keys_set. unfold Dict.contains. rewrite F.
    rewrite length_app. simpl. unfold Dict.keys. lia.
  - now apply ids_below_counter_added.
  - reflexivity.
Qed.

Lemma ids_below_counter_ledger : ids_below_counter (data ledger).
Proof.
  intros k [<-|[<-|[]]]; [exists 1%Z | exists 2%Z]; split; reflexivity.
Qed.

Lemma add_member_fresh_identifier_witness :
  get_member (data ledger) "3" = None /\
  next_member_id
    (data (snd (add_member noon "Cara" "555-0102" None "Gym" None false None ledger)))
  = 4%Z.
Proof.
  assert (H : add_member noon "Cara" "555-0102" None "Gym" None false None ledger
              = (Return 3%Z,
                 snd (add_member noon "Cara" "555-0102" None "Gym" None false None
                        ledger))) by (vm_compute; reflexivity).
  destruct (add_member_fresh_identifier noon ledger "Cara" "555-0102" None "Gym"
              None false None 3 _ ids_below_counter_ledger H)
    as (_ & H2 & H3 & _).
  split; [exact H3 | exact H2].
Defined.

Lemma add_member_counter now g name phone photo membership_type joined_date
    is_trial email n g' :
  add_member now name phone photo membership_type joined_date is_trial email g
    = (Return n, g') ->
  n = next_member_id (data g) /\ next_member_id (data g') = (n + 1)%Z.
Proof.
  rewrite add_member_run. cbv zeta. intros A. destruct is_trial.
  - destruct (strptime_ymd _) as [t|]; [|discriminate A].
    destruct (plus_days 3 (dt_date t)); [|discriminate A].
    now injection A as <- <-.
  - now injection A as <- <-.
Qed.

(** X2.  As long as [reset_data] is not called, the member counter never
    goes down, and an identifier that [add_member] has returned is not
    returned again: whatever is done afterwards, deletions included, a later
    [add_member] returns a larger one.  [reset_data] sets the counter back
    to 1, so that the identifiers start again; with or without a reset every
    member key stays below the counter. *)
Theorem member_counter_never_decreases ops g :
  (Forall (fun c : datetime * op => snd c <> OpResetData) ops ->
   (next_member_id (data g) <= next_member_id (data (run_all ops g)))%Z /\
   forall now name phone photo membership_type joined_date is_trial email g0 n
          now' name' phone' photo' membership_type' joined_date' is_trial'
          email' n' g',
     add_member now name phone photo membership_type joined_date is_trial
       email g0 = (Return n, g) ->
     add_member now' name' phone' photo' membership_type' joined_date'
       is_trial' email' (run_all ops g) = (Return n', g') ->
     (n < n')%Z) /\
  (forall now, next_member_id (data (exec now OpResetData g)) = 1%Z) /\
  (ids_below_counter (data g) -> ids_below_counter (data (run_all ops g))) /\
  ids_below_counter (data fresh).
Proof.
  assert (Hc : forall ops g,
            Forall (fun c : datetime * op => snd c <> OpResetData) ops ->
            (next_member_id (data g) <= next_member_id (data (run_all ops g)))%Z).
  { clear. induction ops as [|[now o] ops IH]; intros g H; simpl; [lia|].
    inversion H as [|? ? Ho H']; subst. simpl in Ho.
    pose proof (exec_counter_grows now o g Ho).
    specialize (IH (exec now o g) H'). lia. }
  split; [|split; [reflexivity|
           split; [apply run_all_ids_below_counter | intros k []]]].
  intros H. split; [now apply Hc|].
  intros now name phone photo mt jd tr email g0 n
         now' name' phone' photo' mt' jd' tr' email' n' g' A A'.
  specialize (Hc ops g H).
  apply add_member_counter in A, A'. lia.
Qed.

Lemma member_counter_never_decreases_witness :
  (next_member_id (data fresh) <= next_member_id (data (run_all ledger_ops fresh)))%Z /\
  (forall n n' g g',
     add_member noon "Cara" "555-0102" None "Gym" None false None fresh
       = (Return n, g) ->
     add_member noon "Dan" "555-0103" None "Gym" None false None
       (run_all [(noon, OpDeleteMember "1")] g) = (Return n', g') ->
     (n < n')%Z) /\
  ids_below_counter (data (run_all ledger_ops fresh)).
Proof.
  split; [|split].
  - apply (proj1 (member_counter_never_decreases ledger_ops fresh)).
    unfold ledger_ops, studio_ops. simpl.
    repeat (constructor; [simpl; discriminate|]). constructor.
  - intros n n' g g' A A'.
    refine (proj2 (proj1 (member_counter_never_decreases
                            [(noon, OpDeleteMember "1")] g) _)
              _ _ _ _ _ _ _ _ _ _ _ _ _ _ _ _ _ _ _ _ A A').
    constructor; [simpl; discriminate | constructor].
  - apply (proj1 (proj2 (proj2 (member_counter_never_decreases ledger_ops fresh)))).
    exact (proj2 (proj2 (proj2 (member_counter_never_decreases ledger_ops fresh)))).
Defined.

(** ** Trials *)

(** X3.  [add_member] looks at the joining date only for a trial.  Without
    a trial the member is added whatever the text of the date, which is
    stored as it is, with no trial end.  With a trial, a date in ASCII that
    [strptime] refuses makes the call raise [ValueError] and nothing is
    added; a date that it accepts gives the member the third day after it,
    as [strftime] writes it, for trial end, which reads back as that day
    when the joining date is of the year 1000 or later. *)
Theorem add_member_trial now g name phone photo membership_type joined_date
    email :
  let jd := if truthy joined_date then or_empty joined_date
            else strftime_ymd (dt_date now) in
  let n := next_member_id (data g) in
  (exists g' m,
     add_member now name phone photo membership_type joined_date false email g
       = (Return n, g') /\
     get_member (data g') (str n) = Some m /\
     m_joined_date m = jd /\ m_trial_end_date m = None) /\
  (is_ascii jd = true -> strptime_ymd jd = None ->
   add_member now name phone photo membership_type joined_date true email g
     = (Raise ValueError, g)) /\
  (forall t e,
     strptime_ymd jd = Some t -> plus_days 3 (dt_date t) = Some e ->
     exists g' m,
       add_member now name phone photo membership_type joined_date true email g
         = (Return n, g') /\
       get_member (data g') (str n) = Some m /\
       m_joined_date m = jd /\
       m_trial_end_date m = Some (strftime_ymd e) /\
       (date_key (dt_date t) + 3 <= date_key e)%Z /\
       ((1000 <= year (dt_date t))%Z ->
        strptime_ymd (strftime_ymd e) = Some (mkdatetime e 0 0 0 0))).
Proof.
  intros jd n. split; [|split].
  - rewrite add_member_run. cbv zeta. fold jd n. do 2 eexists.
    split; [reflexivity|]. unfold get_member. simpl.
    rewrite dict_get_set_same. now repeat split.
  - intros _ E. rewrite add_member_run. cbv zeta. fold jd. now rewrite E.
  - intros t e E P. rewrite add_member_run. cbv zeta. fold jd n.
    rewrite E, P. do 2 eexists. split; [reflexivity|].
    unfold get_member. simpl. rewrite dict_get_set_same.
    pose proof (strptime_date_ok _ _ E) as Vt.
    destruct (plus_days_ok 3 _ _ Vt P) as [Ve Le].
    split; [reflexivity|]. split; [reflexivity|]. split; [reflexivity|].
    split; [exact Le|]. intros Hy. apply strptime_strftime; [exact Ve|].
    pose proof (date_key_year _ _ Vt Ve ltac:(lia)). lia.
Qed.

Lemma add_member_trial_witness :
  add_member noon "Dan" "555-0103" None "Gym" (Some "10/01/2024") true None ledger
    = (Raise ValueError, ledger) /\
  exists g' m,
    add_member noon "Dan" "555-0103" None "Gym" (Some "2024-02-27") true None ledger
      = (Return 3%Z, g') /\
    get_member (data g') "3" = Some m /\
    m_trial_end_date m = Some "2024-03-01" /\
    strptime_ymd "2024-03-01" = Some (mkdatetime (mkdate 2024 3 1) 0 0 0 0).
Proof.
  split.
  - apply (proj1 (proj2 (add_member_trial noon ledger "Dan" "555-0103" None "Gym"
                           (Some "10/01/2024") None))); reflexivity.
  - destruct (proj2 (proj2 (add_member_trial noon ledger "Dan" "555-0103" None
                              "Gym" (Some "2024-02-27") None))
                (mkdatetime (mkdate 2024 2 27) 0 0 0 0) (mkdate 2024 3 1)
                eq_refl eq_refl)
      as (g' & m & H1 & H2 & _ & H4 & _ & H5).
    exists g', m. split; [exact H1|]. split; [exact H2|]. split; [exact H4|].
    apply H5. simpl. lia.
Defined.

(** A trial that starts in the year 999 gets a trial end with a year of
    three digits, which [strptime] does not read. *)
Example trial_before_year_1000 :
  let g' := snd (add_member noon "Eve" "555-0104" None "Gym" (Some "0999-01-01")
                   true None fresh) in
  option_map m_trial_end_date (get_member (data g') "1") = Some (Some "999-01-04") /\
  strptime_ymd "999-01-04" = None.
Proof. split; vm_compute; reflexivity. Qed.

(** ** Changing a member *)

(** X4.  A successful [update_member] sets the name, the phone and the
    membership type, sets the email unless it is [None] and the joining
    date unless it is empty or [None], and keeps the identifier, the photo,
    the active flag and the trial fields: the trial end is not moved with
    the joining date.  The other members, the fees and the counter are as
    before, and the call succeeds exactly when the member is known. *)
Theorem update_member_effect g member_id name phone membership_type
    joined_date email :
  (get_member (data g) member_id = None ->
   update_member member_id name phone membership_type joined_date email g
     = (Return false, g)) /\
  (forall m, get_member (data g) member_id = Some m ->
   exists g',
     update_member member_id name phone membership_type joined_date email g
       = (Return true, g') /\
     get_member (data g') member_id =
       Some (mkmember (m_id m) name phone
               (match email with Some e => e | None => m_email m end)
               (m_photo m)
               (if truthy joined_date then or_empty joined_date
                else m_joined_date m)
               (m_active m) membership_type (m_is_trial m)
               (m_trial_end_date m)) /\
     (forall k, k <> member_id ->
        get_member (data g') k = get_member (data g) k) /\
     fees (data g') = fees (data g) /\
     next_member_id (data g') = next_member_id (data g) /\
     file g' = Some (data g')).
Proof.
  unfold get_member, update_member. split.
  - intros E. run_op. unfold Dict.contains. now rewrite E.
  - intros m E. run_op. unfold Dict.contains. rewrite E. simpl.
    destruct email as [e|], (truthy joined_date); simpl;
      (eexists; split; [reflexivity|]); simpl;
      (split; [rewrite ?dict_get_adjust_same, E; reflexivity|]);
      (split; [intros k Hk; rewrite ?dict_get_adjust_other by exact Hk;
               reflexivity|]);
      now repeat split.
Qed.

Lemma update_member_effect_witness :
  exists g',
    update_member "1" "Alice B" "555-0199" "Gym + Pool" (Some "") None ledger
      = (Return true, g') /\
    option_map m_joined_date (get_member (data g') "1") = Some "2024-01-10".
Proof.
  destruct (proj2 (update_member_effect ledger "1" "Alice B" "555-0199"
                     "Gym + Pool" (Some "") None) member_alice eq_refl)
    as (g' & H1 & H2 & _).
  exists g'. split; [exact H1 | now rewrite H2].
Defined.

(** ** Changing and deleting a fee *)

Lemma no_fee_record_is_fee_paid d member_id month :
  no_fee_record d member_id month = negb (is_fee_paid d member_id month).
Proof.
  unfold no_fee_record, is_fee_paid.
  destruct (Dict.contains member_id (fees d)); simpl; [reflexivity|reflexivity].
Qed.

Lemma fee_record_adjust d member_id month (f : Dict.t fee -> Dict.t fee) k mo :
  (forall fs, mo <> month -> Dict.get mo (f fs) = Dict.get mo fs) ->
  (k <> member_id \/ mo <> month) ->
  fee_record (set_fees (Dict.adjust member_id f) d) k mo = fee_record d k mo.
Proof.
  intros Hf Hk. unfold fee_record. simpl.
  destruct (String.eqb k member_id) eqn:E.
  - apply String.eqb_eq in E; subst k. rewrite dict_get_adjust_same.
    destruct (Dict.get member_id (fees d)); simpl; [|reflexivity].
    apply Hf. destruct Hk; congruence.
  - apply String.eqb_neq in E. now rewrite dict_get_adjust_other.
Qed.

(** X5.  [update_fee] and [delete_fee] succeed exactly when [is_fee_paid]
    holds for the member and the month: without a record both answer
    [False] and change nothing, with a record both answer [True] and save.
    A successful [update_fee] replaces the amount and the date of the record
    and keeps its notes unless new ones are given, and the fee stays paid; a
    successful [delete_fee] removes the record, and the fee is not paid any
    more.  Neither changes another record or the members. *)
Theorem update_fee_effect g member_id month amount date notes :
  (is_fee_paid (data g) member_id month = false ->
   update_fee member_id month amount date notes g = (Return false, g) /\
   delete_fee member_id month g = (Return false, g)) /\
  (forall f, fee_record (data g) member_id month = Some f ->
   is_fee_paid (data g) member_id month = true /\
   (exists g',
      delete_fee member_id month g = (Return true, g') /\
      fee_record (data g') member_id month = None /\
      is_fee_paid (data g') member_id month = false /\
      (forall k mo, k <> member_id \/ mo <> month ->
         fee_record (data g') k mo = fee_record (data g) k mo) /\
      members (data g') = members (data g) /\
      file g' = Some (data g')) /\
   exists g',
     update_fee member_id month amount date notes g = (Return true, g') /\
     fee_record (data g') member_id month =
       Some (mkfee amount date
               (match notes with Some x => x | None => fee_notes f end)) /\
     is_fee_paid (data g') member_id month = true /\
     (forall k mo, k <> member_id \/ mo <> month ->
        fee_record (data g') k mo = fee_record (data g) k mo) /\
     members (data g') = members (data g) /\
     file g' = Some (data g')).
Proof.
  split.
  - intros E. unfold update_fee, delete_fee. run_op.
    rewrite no_fee_record_is_fee_paid, E. now split.
  - intros f E.
    assert (P : is_fee_paid (data g) member_id month = true)
      by (now rewrite is_fee_paid_fee_record, E).
    split; [exact P|]. split.
    { unfold delete_fee. run_op. rewrite no_fee_record_is_fee_paid, P. simpl.
      assert (N : fee_record
                    (set_fees (Dict.adjust member_id (Dict.del month)) (data g))
                    member_id month = None).
      { unfold fee_record in *. simpl. rewrite dict_get_adjust_same.
        destruct (Dict.get member_id (fees (data g))) as [fs|]; [|discriminate].
        simpl. apply dict_get_del_same. }
      eexists. split; [reflexivity|]. simpl. split; [exact N|].
      split; [now rewrite is_fee_paid_fee_record, N|].
      split; [|now split]. intros k mo Hk.
      apply (fee_record_adjust _ member_id month); [|exact Hk].
      intros fs Hmo. now apply dict_get_del_other. }
    unfold update_fee. run_op. rewrite no_fee_record_is_fee_paid, P. simpl.
    assert (G : exists fs, Dict.get member_id (fees (data g)) = Some fs /\
                           Dict.get month fs = Some f).
    { unfold fee_record in E.
      destruct (Dict.get member_id (fees (data g))) as [fs|]; [|discriminate].
      now exists fs. }
    destruct G as (fs & G1 & G2).
    assert (R : forall g', 
      fee_record (data g') member_id month =
        Some (mkfee amount date
                (match notes with Some x => x | None => fee_notes f end)) ->
      is_fee_paid (data g') member_id month = true)
      by (intros g' H; now rewrite is_fee_paid_fee_record, H).
    destruct notes as [x|]; simpl; eexists; (split; [reflexivity|]);
      (split; [unfold fee_record; simpl;
               rewrite ?dict_get_adjust_same, G1; simpl;
               rewrite ?dict_get_adjust_same, G2; reflexivity|]);
      (split; [apply R; unfold fee_record; simpl;
               rewrite ?dict_get_adjust_same, G1; simpl;
               rewrite ?dict_get_adjust_same, G2; reflexivity|]);
      (split; [|now split]); intros k mo Hk.
    + change (fee_record
                (set_fees (Dict.adjust member_id (Dict.adjust month
                   (fun f0 => mkfee (fee_amount f0) (fee_paid_date f0) x)))
                   (set_fees (Dict.adjust member_id (Dict.adjust month
                      (fun f0 => mkfee amount date (fee_notes f0)))) (data g)))
                k mo = fee_record (data g) k mo).
      rewrite !(fee_record_adjust _ member_id month); auto;
        intros; now apply dict_get_adjust_other.
    + change (fee_record
                (set_fees (Dict.adjust member_id (Dict.adjust month
                   (fun f0 => mkfee amount date (fee_notes f0)))) (data g))
                k mo = fee_record (data g) k mo).
      rewrite (fee_record_adjust _ member_id month); auto.
      intros; now apply dict_get_adjust_other.
Qed.

Lemma update_fee_effect_witness :
  (exists g',
     update_fee "1" "2024-01" 45 "2024-01-12" None ledger = (Return true, g') /\
     fee_record (data g') "1" "2024-01" = Some (mkfee 45 "2024-01-12" "")) /\
  (exists g',
     delete_fee "1" "2024-01" ledger = (Return true, g') /\
     is_fee_paid (data g') "1" "2024-01" = false).
Proof.
  destruct (proj2 (update_fee_effect ledger "1" "2024-01" 45 "2024-01-12" None)
              (mkfee 50 "2024-01-10 12:00:00" "") eq_refl)
    as (_ & (g2 & D1 & _ & D3 & _) & g' & H1 & H2 & _).
  split.
  - exists g'. split; [exact H1 | exact H2].
  - exists g2. split; [exact D1 | exact D3].
Defined.

(** X6.  Paying a fee for a month that was not paid and deleting it again
    leaves every fee record as it was: for every member and month the
    record, and so [is_fee_paid], is the same as before the two calls, and
    so are the members. *)
Theorem pay_then_delete_fee now g member_id month amount paid_date notes g1 :
  is_fee_paid (data g) member_id month = false ->
  pay_fee now member_id month amount paid_date notes g = (Return true, g1) ->
  exists g2,
    delete_fee member_id month g1 = (Return true, g2) /\
    (forall k mo, fee_record (data g2) k mo = fee_record (data g) k mo) /\
    (forall k mo, is_fee_paid (data g2) k mo = is_fee_paid (data g) k mo) /\
    members (data g2) = members (data g).
Proof.
  intros U H.
  destruct (Dict.contains member_id (members (data g))) eqn:Hm;
    [| unfold pay_fee in H; run_op_in H; rewrite Hm in H; discriminate H].
  rewrite (pay_fee_known _ _ _ _ _ _ _ Hm) in H. injection H as <-.
  unfold delete_fee. run_op. rewrite no_fee_record_is_fee_paid.
  rewrite is_fee_paid_fee_record. cbv zeta. cbn [data].
  rewrite fee_record_after_payment. simpl.
  eexists. split; [reflexivity|].
  assert (R : forall k mo,
    fee_record
      (set_fees (Dict.adjust member_id (Dict.del month))
         (set_fees (fun fs =>
            Dict.adjust member_id
              (Dict.set month
                 (mkfee amount
                    (if truthy paid_date then or_empty paid_date
                     else strftime_ymd_hms now) (or_empty notes)))
              (if negb (Dict.contains member_id fs)
               then Dict.set member_id Dict.empty fs else fs)) (data g))) k mo
    = fee_record (data g) k mo).
  { intros k mo. unfold fee_record at 1. simpl.
    destruct (String.eqb k member_id) eqn:E.
    - apply String.eqb_eq in E; subst k.
      rewrite dict_get_adjust_same, fees_after_payment. simpl.
      rewrite is_fee_paid_fee_record in U. unfold fee_record in *.
      destruct (String.eqb mo month) eqn:E2.
      + apply String.eqb_eq in E2; subst mo. rewrite dict_get_del_same.
        destruct (Dict.get member_id (fees (data g))) as [fs|]; [|reflexivity].
        now destruct (Dict.get month fs).
      + apply String.eqb_neq in E2.
        rewrite dict_get_del_other, dict_get_set_other by exact E2.
        now destruct (Dict.get member_id (fees (data g))).
    - apply String.eqb_neq in E.
      rewrite dict_get_adjust_other by exact E.
      rewrite dict_get_adjust_other by exact E.
      unfold fee_record.
      destruct (negb (Dict.contains member_id (fees (data g))));
        [rewrite dict_get_set_other by exact E|]; reflexivity. }
  split; [exact R|]. split; [|reflexivity].
  intros k mo. rewrite !is_fee_paid_fee_record.
  change (data _) with
    (set_fees (Dict.adjust member_id (Dict.del month))
       (set_fees (fun fs =>
          Dict.adjust member_id
            (Dict.set month
               (mkfee amount
                  (if truthy paid_date then or_empty paid_date
                   else strftime_ymd_hms now) (or_empty notes)))
            (if negb (Dict.contains member_id fs)
             then Dict.set member_id Dict.empty fs else fs)) (data g))) at 1.
  now rewrite R.
Qed.

Lemma pay_then_delete_fee_witness :
  exists g2,
    delete_fee "2" "2024-01" (snd (pay_fee noon "2" "2024-01" 40 None None ledger))
      = (Return true, g2) /\
    is_fee_paid (data g2) "2" "2024-01" = false.
Proof.
  destruct (pay_then_delete_fee noon ledger "2" "2024-01" 40 None None
              (snd (pay_fee noon "2" "2024-01" 40 None None ledger)))
    as (g2 & H1 & _ & H3 & _).
  - reflexivity.
  - vm_compute. reflexivity.
  - exists g2. split; [exact H1 | now rewrite H3].
Defined.

(** ** Attendance *)

(** X7.  For a known member [log_attendance] always adds a visit, also
    when one was logged at the same moment: the history that
    [get_attendance] returns afterwards is the time of the call followed by
    the history before, newest first.  The histories of the other members
    are untouched. *)
Theorem log_attendance_effect now g member_id :
  Dict.contains member_id (members (data g)) = true ->
  exists g',
    log_attendance now member_id g = (Return true, g') /\
    get_attendance (data g') member_id =
      strftime_ymd_hms now :: get_attendance (data g) member_id /\
    (forall k, k <> member_id ->
       get_attendance (data g') k = get_attendance (data g) k) /\
    members (data g') = members (data g) /\
    file g' = Some (data g').
Proof.
  intros Hm. unfold log_attendance. run_op. rewrite Hm. simpl.
  destruct g as [[ms fs es n gd [att|] cs] fl]; simpl in *.
  - destruct (Dict.contains member_id att) eqn:Ha; simpl;
      eexists; (split; [reflexivity|]); unfold get_attendance; simpl.
    + unfold Dict.contains in Ha.
      destruct (Dict.get member_id att) as [l|] eqn:G; [|discriminate].
      rewrite dict_get_adjust_same, G. simpl. rewrite rev_app_distr. simpl.
      repeat split. intros k Hk. now rewrite dict_get_adjust_other.
    + unfold Dict.contains in Ha.
      destruct (Dict.get member_id att) as [l|] eqn:G; [discriminate|].
      rewrite dict_get_adjust_same, dict_get_set_same. simpl.
      repeat split. intros k Hk.
      now rewrite dict_get_adjust_other, dict_get_set_other.
  - eexists. split; [reflexivity|]. unfold get_attendance. simpl.
    rewrite dict_get_adjust_same. simpl. rewrite String.eqb_refl. simpl.
    repeat split. intros k Hk.
    rewrite dict_get_adjust_other by exact Hk. simpl.
    destruct (String.eqb member_id k) eqn:E; [|reflexivity].
    apply String.eqb_eq in E. congruence.
Qed.

Lemma log_attendance_effect_witness :
  exists g',
    log_attendance noon "1" (snd (log_attendance noon "1" ledger)) = (Return true, g') /\
    get_attendance (data g') "1" =
      ["2024-01-10 12:00:00"; "2024-01-10 12:00:00"].
Proof.
  destruct (log_attendance_effect noon (snd (log_attendance noon "1" ledger)) "1"
              eq_refl) as (g' & H1 & H2 & _).
  exists g'. split; [exact H1 | rewrite H2; reflexivity].
Defined.

(** ** Lists that are returned sorted *)

Lemma ltb_false_leb a b : String.ltb a b = false -> String.leb b a = true.
Proof.
  unfold String.ltb, String.leb. rewrite (String.compare_antisym a b).
  destruct (String.compare b a); simpl; congruence.
Qed.

Lemma ltb_true_leb a b : String.ltb a b = true -> String.leb a b = true.
Proof.
  unfold String.ltb, String.leb. destruct (String.compare a b); congruence.
Qed.

Lemma insert_by_date_desc_Sorted e l :
  Sorted (fun a b => String.leb (e_date b) (e_date a) = true) l ->
  Sorted (fun a b => String.leb (e_date b) (e_date a) = true)
         (insert_by_date_desc e l).
Proof.
  induction l as [|x r IH]; intros S; simpl.
  - repeat constructor.
  - destruct (String.ltb (e_date e) (e_date x)) eqn:E.
    + inversion S as [|? ? Sr Hr]; subst. constructor; [now apply IH|].
      destruct r as [|y r']; simpl.
      * constructor. now apply ltb_true_leb.
      * destruct (String.ltb (e_date e) (e_date y)).
        -- inversion Hr; subst. now constructor.
        -- constructor. now apply ltb_true_leb.
    + constructor; [exact S|]. constructor. now apply ltb_false_leb.
Qed.

Lemma sort_by_date_desc_Sorted l :
  Sorted (fun a b => String.leb (e_date b) (e_date a) = true)
         (sort_by_date_desc l).
Proof.
  induction l as [|x r IH]; simpl; [constructor|].
  now apply insert_by_date_desc_Sorted.
Qed.

(** X8.  The list that [get_expenses] returns is in the order of the
    dates, latest first.  For a month it holds the expenses whose date
    starts with the month, and only those, each as often as it is stored;
    for no month, or an empty one, it holds all the expenses; and it is
    empty when the document has no expenses. *)
Theorem get_expenses_sorted d month :
  Sorted (fun a b => String.leb (e_date b) (e_date a) = true)
         (get_expenses d month) /\
  Permutation (get_expenses d month)
    (filter (fun e => startswith (e_date e) (or_empty month))
            (Dict.values (present (expenses d)))) /\
  (truthy month = false ->
   Permutation (get_expenses d month) (Dict.values (present (expenses d)))) /\
  (expenses d = None -> get_expenses d month = []).
Proof.
  assert (A : forall l : list expense,
            filter (fun e => startswith (e_date e) "") l = l).
  { induction l as [|x r IH]; simpl; [reflexivity|].
    now rewrite startswith_empty, IH. }
  unfold get_expenses. destruct (expenses d) as [es|]; simpl.
  - split; [apply sort_by_date_desc_Sorted|].
    split; [|split; [|discriminate]].
    + rewrite sort_by_date_desc_Permutation.
      destruct month as [[|c m']|]; simpl; rewrite ?A; reflexivity.
    + intros T. rewrite T. apply sort_by_date_desc_Permutation.
  - repeat split; constructor.
Qed.

Lemma get_expenses_sorted_witness :
  map e_id (get_expenses (data ledger) (Some "2024-01")) = ["EXP0002"; "EXP0001"] /\
  Permutation (get_expenses (data ledger) None) [rent; power].
Proof.
  split; [reflexivity|].
  apply (proj1 (proj2 (proj2 (get_expenses_sorted (data ledger) None)))).
  reflexivity.
Defined.

Lemma insert_by_month_desc_Sorted e l :
  Sorted (fun a b => String.leb (h_month b) (h_month a) = true) l ->
  Sorted (fun a b => String.leb (h_month b) (h_month a) = true)
         (insert_by_month_desc e l).
Proof.
  induction l as [|x r IH]; intros S; simpl.
  - repeat constructor.
  - destruct (String.ltb (h_month e) (h_month x)) eqn:E.
    + inversion S as [|? ? Sr Hr]; subst. constructor; [now apply IH|].
      destruct r as [|y r']; simpl.
      * constructor. now apply ltb_true_leb.
      * destruct (String.ltb (h_month e) (h_month y)).
        -- inversion Hr; subst. now constructor.
        -- constructor. now apply ltb_true_leb.
    + constructor; [exact S|]. constructor. now apply ltb_false_leb.
Qed.

Lemma insert_by_month_desc_Permutation e l :
  Permutation (insert_by_month_desc e l) (e :: l).
Proof.
  induction l as [|x r IH]; simpl; [reflexivity|].
  destruct (String.ltb (h_month e) (h_month x)); [|reflexivity].
  rewrite IH. constructor.
Qed.

Lemma sort_by_month_desc_Sorted l :
  Sorted (fun a b => String.leb (h_month b) (h_month a) = true)
         (fold_right insert_by_month_desc [] l).
Proof.
  induction l as [|x r IH]; simpl; [constructor|].
  now apply insert_by_month_desc_Sorted.
Qed.

(** X9.  The fee history of a member has one entry for each of the
    member's fee records, with the month, the amount, the date and the notes
    of the record, in the order of the months, latest first; it is empty for
    a member without fees, and [get_payment_history] returns the same list.
    When the months of the member's records are distinct, so are those of
    the history. *)
Theorem get_member_fee_history_sorted d member_id :
  Sorted (fun a b => String.leb (h_month b) (h_month a) = true)
         (get_member_fee_history d member_id) /\
  Permutation (get_member_fee_history d member_id)
    (map (fun kv => mkfee_entry (fst kv) (fee_amount (snd kv))
                      (fee_paid_date (snd kv)) (fee_notes (snd kv)))
         (present (Dict.get member_id (fees d)))) /\
  (Dict.get member_id (fees d) = None -> get_member_fee_history d member_id = []) /\
  get_payment_history d member_id = get_member_fee_history d member_id /\
  (fees_ok d -> NoDup (map h_month (get_member_fee_history d member_id))).
Proof.
  assert (P : Permutation (get_member_fee_history d member_id)
    (map (fun kv => mkfee_entry (fst kv) (fee_amount (snd kv))
                      (fee_paid_date (snd kv)) (fee_notes (snd kv)))
         (present (Dict.get member_id (fees d))))).
  { unfold get_member_fee_history, Dict.contains.
    destruct (Dict.get member_id (fees d)) as [fs|]; simpl; [|constructor].
    induction fs as [|x r IH]; simpl; [constructor|].
    rewrite insert_by_month_desc_Permutation. now constructor. }
  split; [|split; [exact P|split; [|split; [reflexivity|]]]].
  - unfold get_member_fee_history.
    destruct (negb (Dict.contains member_id (fees d))); [constructor|].
    apply sort_by_month_desc_Sorted.
  - intros E. unfold get_member_fee_history, Dict.contains. now rewrite E.
  - intros [W I].
    apply (Permutation_NoDup
             (l := Dict.keys (present (Dict.get member_id (fees d))))).
    + apply Permutation_sym.
      apply (Permutation_map h_month) in P. rewrite map_map in P. exact P.
    + destruct (Dict.get member_id (fees d)) as [fs|] eqn:E; simpl.
      * apply (I member_id). now apply dict_get_in.
      * constructor.
Qed.

Lemma get_member_fee_history_sorted_witness :
  NoDup (map h_month (get_member_fee_history (data ledger) "1")) /\
  map h_month
    (get_member_fee_history
       (data (snd (pay_fee noon "1" "2024-02" 50 None None ledger))) "1") =
  ["2024-02"; "2024-01"].
Proof.
  split; [|reflexivity].
  apply (proj2 (proj2 (proj2 (proj2
           (get_member_fee_history_sorted (data ledger) "1"))))).
  exact fees_ok_ledger.
Defined.

(** ** Classes *)

Lemma classes_numbered_fresh_key (cs : Dict.t gym_class) :
  Dict.keys cs = map (fun i => str (Z.of_nat i)) (seq 1 (Dict.len cs)) ->
  Dict.get (str (Z.of_nat (Dict.len cs) + 1)) cs = None.
Proof.
  intros H. apply dict_get_none_keys. rewrite H. intros Hin.
  apply in_map_iff in Hin. destruct Hin as (i & E & Hi).
  apply str_inj in E. apply in_seq in Hi. lia.
Qed.

Lemma dict_len_set {V : Type} k (v : V) (d : Dict.t V) :
  Dict.len (Dict.set k v d) =
  if Dict.contains k d then Dict.len d else S (Dict.len d).
Proof.
  unfold Dict.contains, Dict.len.
  induction d as [|[k' v'] r IH]; simpl; [reflexivity|].
  destruct (String.eqb k' k); simpl; [reflexivity|].
  rewrite IH. now destruct (Dict.get k r).
Qed.

Lemma dict_len_adjust {V : Type} k (f : V -> V) (d : Dict.t V) :
  Dict.len (Dict.adjust k f d) = Dict.len d.
Proof.
  unfold Dict.adjust. destruct (Dict.get k d) as [v|] eqn:E; [|reflexivity].
  rewrite dict_len_set. unfold Dict.contains. now rewrite E.
Qed.

Lemma classes_numbered_added (cs : Dict.t gym_class) c :
  Dict.keys cs = map (fun i => str (Z.of_nat i)) (seq 1 (Dict.len cs)) ->
  Dict.keys (Dict.set (str (Z.of_nat (Dict.len cs) + 1)) c cs) =
  map (fun i => str (Z.of_nat i))
      (seq 1 (Dict.len (Dict.set (str (Z.of_nat (Dict.len cs) + 1)) c cs))).
Proof.
  intros H. pose proof (classes_numbered_fresh_key cs H) as F.
  rewrite dict_len_set, dict_keys_set. unfold Dict.contains. rewrite F.
  rewrite seq_S, map_app, <- H. simpl. do 3 f_equal. lia.
Qed.

Lemma exec_classes_numbered now o g :
  classes_numbered (data g) -> classes_numbered (data (exec now o g)).
Proof.
  intros H.
  destruct o;
    try (unfold classes_numbered in *;
         rewrite classes_unchanged by exact I; exact H);
    simpl.
  - reflexivity.
  - unfold classes_numbered in *.
    destruct g as [[ms fs es n gd att [cs|]] fl];
      unfold add_class; run_op.
    + now apply classes_numbered_added.
    + reflexivity.
  - unfold classes_numbered in *. unfold book_class. run_op.
    destruct (Dict.get class_id (present (classes (data g)))) as [cls|];
      [|exact H].
    destruct (is_attendee member_id (c_attendees cls)); [exact H|].
    destruct (c_capacity cls <=? _)%Z; [exact H|]. simpl.
    now rewrite dict_keys_adjust, dict_len_adjust.
Qed.

Lemma run_all_classes_numbered ops : forall g,
  classes_numbered (data g) -> classes_numbered (data (run_all ops g)).
Proof.
  induction ops as [|[now o] ops IH]; intros g H; [exact H|].
  simpl. apply IH. now apply exec_classes_numbered.
Qed.

(** X10.  Classes are never deleted, so in every document that the
    operations build the class keys are 1, 2, ... in the order of creation,
    and [add_class], unlike [add_expense], never gives a key that is in use:
    it returns the number of classes plus one, stores the new class under it
    with no attendee, and leaves every other class as it was. *)
Theorem add_class_fresh_identifier :
  (forall ops, classes_numbered (data (run_all ops fresh))) /\
  (forall g name day time instructor capacity,
     classes_numbered (data g) ->
     let class_id := str (Z.of_nat (Dict.len (present (classes (data g)))) + 1) in
     exists g',
       add_class name day time instructor capacity g = (Return class_id, g') /\
       Dict.get class_id (present (classes (data g))) = None /\
       Dict.get class_id (present (classes (data g'))) =
         Some (mkclass class_id name day time instructor capacity []) /\
       (forall k, k <> class_id ->
          Dict.get k (present (classes (data g'))) =
          Dict.get k (present (classes (data g)))) /\
       classes_numbered (data g')).
Proof.
  split.
  - intros ops. apply run_all_classes_numbered. reflexivity.
  - intros g name day time instructor capacity H class_id.
    exists (snd (add_class name day time instructor capacity g)).
    pose proof (exec_classes_numbered
                  (mkdatetime (mkdate 1 1 1) 0 0 0 0)
                  (OpAddClass name day time instructor capacity) g H) as H'.
    simpl in H'. unfold classes_numbered in H.
    pose proof (classes_numbered_fresh_key _ H) as F. fold class_id in F.
    destruct g as [[ms fs es n gd att [cs|]] fl];
      unfold add_class in *; run_op; simpl in *;
      (split; [reflexivity|]); (split; [exact F|]);
      (split; [|split; [|exact H']]).
    + apply dict_get_set_same.
    + intros k Hk. now apply dict_get_set_other.
    + reflexivity.
    + intros k Hk.
      exact (dict_get_set_other (str 1) k
               (mkclass (str 1) name day time instructor capacity [])
               Dict.empty Hk).
Qed.

Lemma add_class_fresh_identifier_witness :
  exists g',
    add_class "Spin" "Friday" "18:00" "Eli" 12 ledger = (Return "2", g') /\
    Dict.get "1" (present (classes (data g'))) = Some yoga.
Proof.
  destruct (proj2 add_class_fresh_identifier ledger "Spin" "Friday" "18:00" "Eli"
              12%Z eq_refl) as (g' & H1 & _ & _ & H4 & _).
  exists g'. split; [exact H1|].
  rewrite (H4 "1") by discriminate. reflexivity.
Defined.

(** X11.  A booking that is accepted adds the member at the end of the
    attendee list of the class and changes nothing else in the class or in
    the other classes.  The member is not looked up: an identifier that no
    member has is booked as well. *)
Theorem book_class_accepts g member_id class_id cls :
  Dict.get class_id (present (classes (data g))) = Some cls ->
  ~ In member_id (c_attendees cls) ->
  (Z.of_nat (List.length (c_attendees cls)) < c_capacity cls)%Z ->
  exists g',
    book_class member_id class_id g = (Return true, g') /\
    Dict.get class_id (present (classes (data g'))) =
      Some (mkclass (c_id cls) (c_name cls) (c_day cls) (c_time cls)
              (c_instructor cls) (c_capacity cls)
              (c_attendees cls ++ [member_id])) /\
    (forall k, k <> class_id ->
       Dict.get k (present (classes (data g'))) =
       Dict.get k (present (classes (data g)))) /\
    members (data g') = members (data g) /\
    file g' = Some (data g').
Proof.
  intros Hc Hin Hlt. unfold book_class. run_op. rewrite Hc.
  destruct (is_attendee member_id (c_attendees cls)) eqn:E;
    [apply is_attendee_In in E; contradiction|].
  apply Z.leb_gt in Hlt. rewrite Hlt. simpl.
  eexists. split; [reflexivity|]. simpl.
  rewrite dict_get_adjust_same, Hc. simpl.
  repeat split. intros k Hk. now apply dict_get_adjust_other.
Qed.

Lemma book_class_accepts_witness :
  Dict.contains "77" (members (data studio)) = false /\
  exists g',
    book_class "77" "2"
      (snd (add_class "Spin" "Friday" "18:00" "Eli" 12 studio)) = (Return true, g') /\
    option_map c_attendees (Dict.get "2" (present (classes (data g')))) =
      Some ["77"].
Proof.
  split; [reflexivity|].
  destruct (book_class_accepts
              (snd (add_class "Spin" "Friday" "18:00" "Eli" 12 studio)) "77" "2"
              (mkclass "2" "Spin" "Friday" "18:00" "Eli" 12 []))
    as (g' & H1 & H2 & _).
  - reflexivity.
  - intros [].
  - simpl. lia.
  - exists g'. split; [exact H1 | now rewrite H2].
Defined.

(** ** Deleting an expense *)

(** X12.  [delete_expense] succeeds exactly when the identifier is a key of
    the expenses.  Afterwards the identifier is not a key, every other
    expense is stored as before, the list of [get_expenses] holds the
    expenses that are left, and the members and fees have not changed. *)
Theorem delete_expense_effect g expense_id :
  (Dict.get expense_id (present (expenses (data g))) = None ->
   delete_expense expense_id g = (Return false, g)) /\
  (forall e, Dict.get expense_id (present (expenses (data g))) = Some e ->
   exists g',
     delete_expense expense_id g = (Return true, g') /\
     Dict.get expense_id (present (expenses (data g'))) = None /\
     (forall k, k <> expense_id ->
        Dict.get k (present (expenses (data g'))) =
        Dict.get k (present (expenses (data g)))) /\
     Permutation (get_expenses (data g') None)
       (Dict.values (Dict.del expense_id (present (expenses (data g))))) /\
     members (data g') = members (data g) /\
     fees (data g') = fees (data g) /\
     file g' = Some (data g')).
Proof.
  unfold delete_expense. split.
  - intros E. run_op. unfold Dict.contains. rewrite E. simpl.
    now rewrite orb_true_r.
  - intros e E. run_op. unfold Dict.contains. rewrite E.
    destruct (expenses (data g)) as [es|]; [|discriminate E]. simpl.
    eexists. split; [reflexivity|]. simpl.
    split; [apply dict_get_del_same|].
    split; [intros k Hk; now apply dict_get_del_other|].
    split; [|now repeat split].
    unfold get_expenses. simpl. apply sort_by_date_desc_Permutation.
Qed.

Lemma delete_expense_effect_witness :
  exists g',
    delete_expense "EXP0001" ledger = (Return true, g') /\
    Dict.get "EXP0002" (present (expenses (data g'))) = Some power.
Proof.
  destruct (proj2 (delete_expense_effect ledger "EXP0001") rent eq_refl)
    as (g' & H1 & _ & H3 & _).
  exists g'. split; [exact H1|]. rewrite (H3 "EXP0002") by discriminate.
  reflexivity.
Defined.

(** ** Gym details *)

(** X13.  [get_gym_details] always returns details with a currency: a
    document without details gets the default ones, details without a
    currency get ['$'], and in both cases the document is saved.  Details
    that have a currency are returned as they are and nothing is written.
    A second call returns the same details and changes nothing. *)
Theorem get_gym_details_defaults g :
  exists gd g',
    get_gym_details g = (Return gd, g') /\
    Dict.contains "currency" gd = true /\
    gym_details (data g') = Some gd /\
    get_gym_details g' = (Return gd, g') /\
    (gym_details (data g) = None ->
     gd = default_gym_details /\ file g' = Some (data g')) /\
    (forall gd0, gym_details (data g) = Some gd0 ->
       (Dict.contains "currency" gd0 = true -> gd = gd0 /\ g' = g) /\
       (Dict.contains "currency" gd0 = false ->
        gd = Dict.set "currency" (Some "$") gd0 /\ file g' = Some (data g'))).
Proof.
  unfold get_gym_details.
  destruct g as [[ms fs es n [gd0|] att cs] fl]; run_op.
  - destruct (Dict.contains "currency" gd0) eqn:E; simpl.
    + do 2 eexists. split; [reflexivity|]. simpl. rewrite E. simpl.
      split; [reflexivity|]. split; [reflexivity|]. split; [reflexivity|].
      split; [discriminate|].
      intros gd1 [= <-]. split; intros H; [now split | congruence].
    + do 2 eexists. split; [reflexivity|]. simpl.
      rewrite dict_contains_set_same. simpl.
      split; [reflexivity|]. split; [reflexivity|]. split; [reflexivity|].
      split; [discriminate|].
      intros gd1 [= <-]. split; intros H; [congruence | now split].
  - do 2 eexists. split; [reflexivity|]. simpl.
    split; [reflexivity|]. split; [reflexivity|]. split; [reflexivity|].
    split; [now split | discriminate].
Qed.

Lemma get_gym_details_stable g gd :
  gym_details (data g) = Some gd ->
  Dict.contains "currency" gd = true ->
  get_gym_details g = (Return gd, g).
Proof.
  destruct g as [[ms fs es n gd0 att cs] fl]. simpl. intros -> C.
  unfold get_gym_details. run_op. rewrite C. reflexivity.
Qed.

(** X14.  [update_gym_details] always succeeds and saves.  It sets the
    name and the currency, and the logo only when a logo path is given:
    with [None] or an empty path the logo that is stored stays.  The details
    that [get_gym_details] returns afterwards are the updated ones. *)
Theorem update_gym_details_effect g name logo_path currency :
  exists g' gd,
    update_gym_details name logo_path currency g = (Return true, g') /\
    gym_details (data g') = Some gd /\
    Dict.get "name" gd = Some (Some name) /\
    Dict.get "currency" gd = Some (Some currency) /\
    (truthy logo_path = true -> Dict.get "logo" gd = Some logo_path) /\
    (truthy logo_path = false ->
     Dict.get "logo" gd = Dict.get "logo" (present (gym_details (data g)))) /\
    get_gym_details g' = (Return gd, g') /\
    members (data g') = members (data g) /\
    file g' = Some (data g').
Proof.
  assert (N1 : "name" <> "currency") by discriminate.
  assert (N2 : "name" <> "logo") by discriminate.
  assert (N3 : "currency" <> "logo") by discriminate.
  assert (N4 : "logo" <> "currency") by discriminate.
  assert (N5 : "logo" <> "name") by discriminate.
  unfold update_gym_details.
  destruct g as [[ms fs es n [gd0|] att cs] fl]; run_op;
    destruct (truthy logo_path) eqn:T; simpl;
    do 2 eexists; (split; [reflexivity|]); simpl;
    (split; [reflexivity|]);
    rewrite ?(dict_get_set_other "logo" "name") by exact N2;
    rewrite ?(dict_get_set_other "logo" "currency") by exact N3;
    rewrite ?(dict_get_set_other "currency" "name") by exact N1;
    rewrite ?(dict_get_set_other "currency" "logo") by exact N4;
    rewrite ?(dict_get_set_other "name" "logo") by exact N5;
    rewrite ?dict_get_set_same;
    (split; [reflexivity|]); (split; [reflexivity|]);
    (split; [intros; try reflexivity; discriminate|]);
    (split; [intros; try reflexivity; discriminate|]);
    (split; [|now split]);
    (apply get_gym_details_stable; [reflexivity|]);
    unfold Dict.contains;
    rewrite ?(dict_get_set_other "logo" "currency") by exact N3;
    rewrite ?dict_get_set_same; reflexivity.
Qed.

Lemma get_gym_details_defaults_witness :
  exists gd g',
    get_gym_details
      (mkGymManager (set_gym_details (Some [("name", Some "Iron")]) (data ledger))
                    None) = (Return gd, g') /\
    gd = [("name", Some "Iron"); ("currency", Some "$")] /\
    file g' = Some (data g').
Proof.
  destruct (get_gym_details_defaults
              (mkGymManager
                 (set_gym_details (Some [("name", Some "Iron")]) (data ledger)) None))
    as (gd & g' & H1 & _ & _ & _ & _ & H6).
  destruct (proj2 (H6 [("name", Some "Iron")] eq_refl) eq_refl) as [H7 H8].
  exists gd, g'. split; [exact H1 | split; [exact H7 | exact H8]].
Defined.

Lemma update_gym_details_effect_witness :
  exists g' gd,
    update_gym_details "Iron" (Some "") "Rs" ledger = (Return true, g') /\
    gym_details (data g') = Some gd /\
    Dict.get "logo" gd = Some None.
Proof.
  destruct (update_gym_details_effect ledger "Iron" (Some "") "Rs")
    as (g' & gd & H1 & H2 & _ & _ & _ & H6 & _).
  exists g', gd. split; [exact H1 | split; [exact H2|]].
  rewrite (H6 eq_refl). reflexivity.
Defined.

(** ** Accounts *)

Section AccountFacts.
Variable hash_password : string -> string.

(** X15.  [create_user] refuses a name that is taken and changes nothing.
    For a new name it stores the account, with the digest of the password,
    and saves; the password then verifies, another password verifies exactly
    when it has the same digest, and the other accounts verify as before.
    A name that has no account never verifies. *)
Theorem create_user_then_verify now a username password referral_code :
  (Dict.contains username (a_users a) = true ->
   create_user hash_password now a username password referral_code = (false, a)) /\
  (Dict.contains username (a_users a) = false ->
   (forall p, verify_user hash_password a username p = false) /\
   exists a',
     create_user hash_password now a username password referral_code = (true, a') /\
     option_map u_password (Dict.get username (a_users a')) =
       Some (hash_password password) /\
     verify_user hash_password a' username password = true /\
     (forall p, verify_user hash_password a' username p =
                String.eqb (hash_password password) (hash_password p)) /\
     (forall k p, k <> username ->
        Dict.get k (a_users a') = Dict.get k (a_users a) /\
        verify_user hash_password a' k p = verify_user hash_password a k p) /\
     a_file a' = Some (a_users a')).
Proof.
  unfold create_user, verify_user. split.
  - intros E. now rewrite E.
  - intros E. rewrite E. split.
    + intros p. unfold Dict.contains in E.
      now destruct (Dict.get username (a_users a)).
    + eexists. split; [reflexivity|]. simpl. rewrite dict_get_set_same. simpl.
      split; [reflexivity|]. split; [apply String.eqb_refl|].
      split; [reflexivity|]. split; [|reflexivity].
      intros k p Hk. now rewrite dict_get_set_other.
Qed.

(** X16.  A referral code, in ASCII, is valid exactly when it is not empty
    and its upper-case form is [VIP2025] or [FREE]; [FREEACCESS], which the
    docstring of [validate_referral] names, is not valid.  A new account is
    active from its creation, at any time, exactly when it was created with
    a valid code. *)
Theorem create_user_subscription now a username password referral_code :
  Dict.contains username (a_users a) = false ->
  is_ascii (or_empty referral_code) = true ->
  (validate_referral referral_code = true <->
   exists code, referral_code = Some code /\
     (upper code = "VIP2025" \/ upper code = "FREE")) /\
  validate_referral (Some "FREEACCESS") = false /\
  forall t,
    is_subscription_active
      (a_users (snd (create_user hash_password now a username password
                       referral_code))) t username
    = Return (validate_referral referral_code).
Proof.
  intros E _. split; [|split; [reflexivity|]].
  - unfold validate_referral, valid_codes. cbn [existsb].
    rewrite orb_false_r. split.
    + intros H. apply andb_true_iff in H. destruct H as [T H].
      destruct referral_code as [code|]; [|discriminate T].
      exists code. split; [reflexivity|]. cbn [or_empty] in H.
      apply orb_true_iff in H.
      destruct H as [H|H]; apply String.eqb_eq in H; auto.
    + intros (code & -> & H). cbn [or_empty].
      assert (T : truthy (Some code) = true).
      { destruct code; [|reflexivity]. destruct H; discriminate. }
      rewrite T. destruct H as [->| ->]; reflexivity.
  - intros t. unfold create_user. rewrite E. simpl.
    unfold is_subscription_active. rewrite dict_get_set_same. simpl.
    assert (V : truthy referral_code && validate_referral referral_code
                = validate_referral referral_code).
    { unfold validate_referral. now destruct (truthy referral_code). }
    rewrite V. now destruct (validate_referral referral_code).
Qed.

End AccountFacts.

Lemma create_user_then_verify_witness :
  exists a',
    create_user (fun p => ("#" ++ p)%string) noon (mkAuthManager sample_users None)
      "bob" "secret" None = (true, a') /\
    verify_user (fun p => ("#" ++ p)%string) a' "bob" "secret" = true /\
    create_user (fun p => ("#" ++ p)%string) noon a' "bob" "other" (Some "FREE")
      = (false, a').
Proof.
  destruct (proj2 (create_user_then_verify (fun p => ("#" ++ p)%string) noon
                     (mkAuthManager sample_users None) "bob" "secret" None)
              eq_refl) as (_ & a' & H1 & H2 & H3 & _).
  exists a'. split; [exact H1 | split; [exact H3|]].
  apply (proj1 (create_user_then_verify (fun p => ("#" ++ p)%string) noon a'
                  "bob" "other" (Some "FREE"))).
  unfold Dict.contains. destruct (Dict.get "bob" (a_users a')); [reflexivity|].
  discriminate H2.
Defined.

Lemma create_user_subscription_witness :
  is_subscription_active
    (a_users (snd (create_user (fun p => p) noon (mkAuthManager sample_users None)
                     "bob" "secret" (Some "vip2025")))) june_15_10am "bob"
  = Return true.
Proof.
  rewrite (proj2 (proj2 (create_user_subscription (fun p => p) noon
             (mkAuthManager sample_users None) "bob" "secret" (Some "vip2025")
             eq_refl eq_refl))).
  reflexivity.
Defined.

(** ** Subscriptions *)

Lemma strftime_ymd_truthy e : truthy (Some (strftime_ymd e)) = true.
Proof.
  unfold strftime_ymd, strftime_ym. now destruct (str (year e)).
Qed.

Lemma active_with_expiry users t username u e :
  Dict.get username users = Some u ->
  u_subscription_expiry u = Some (strftime_ymd e) ->
  date_ok e -> (1000 <= year e)%Z ->
  date_compare (dt_date t) e = Lt ->
  is_subscription_active users t username = Return true.
Proof.
  intros G X V Hy L. unfold is_subscription_active. rewrite G.
  destruct (match u_plan u with
            | Some p => String.eqb p "free_lifetime"
            | None => false
            end); [reflexivity|].
  rewrite X, (strftime_ymd_truthy e). simpl.
  rewrite (strptime_strftime e V Hy). now rewrite before_midnight.
Qed.

Lemma add_days_forward days d e :
  date_ok d -> (1 <= days)%Z -> add_days days d = Some e ->
  date_ok e /\ date_compare d e = Lt.
Proof.
  intros V Hd H. unfold add_days in H.
  destruct (0 <=? days)%Z eqn:E; [|apply Z.leb_gt in E; lia].
  destruct (plus_days_ok _ _ _ V H) as [Ve Le]. split; [exact Ve|].
  rewrite (date_compare_key _ _ V Ve). apply Z.compare_lt_iff. lia.
Qed.

Lemma add_days_year days d e :
  date_ok d -> (0 <= days)%Z -> add_days days d = Some e ->
  date_ok e /\ (year d <= year e)%Z.
Proof.
  intros V Hd H. unfold add_days in H.
  destruct (0 <=? days)%Z eqn:E; [|apply Z.leb_gt in E; lia].
  destruct (plus_days_ok _ _ _ V H) as [Ve Le]. split; [exact Ve|].
  apply (date_key_year _ _ V Ve). lia.
Qed.

Lemma dict_contains_adjust {V : Type} k k' (f : V -> V) (d : Dict.t V) :
  Dict.contains k' (Dict.adjust k f d) = Dict.contains k' d.
Proof.
  unfold Dict.contains. destruct (String.eqb k' k) eqn:E.
  - apply String.eqb_eq in E; subst. rewrite dict_get_adjust_same.
    now destruct (Dict.get k d).
  - apply String.eqb_neq in E. now rewrite dict_get_adjust_other.
Qed.

(** X17.  [renew_subscription] answers [False] for a name without account
    and changes nothing.  For an account it sets the expiry to the date
    [days] days after today, adds one completed payment of 60 by credit card
    after the payments made before, keeps plan and password, and saves.  When
    [days] is at least 1 and the clock shows a date of the year 1000 or
    later, the account is active at the time of the call and on every day
    before the expiry date.  A date past the year 9999 makes the call raise
    [OverflowError] with nothing changed. *)
Theorem renew_subscription_activates now a username days :
  (Dict.get username (a_users a) = None ->
   renew_subscription now a username days = (Return false, a)) /\
  (forall u, Dict.get username (a_users a) = Some u ->
   (add_days days (dt_date now) = None ->
    renew_subscription now a username days = (Raise OverflowError, a)) /\
   (forall e, add_days days (dt_date now) = Some e ->
    exists a' u',
      renew_subscription now a username days = (Return true, a') /\
      Dict.get username (a_users a') = Some u' /\
      u_subscription_expiry u' = Some (strftime_ymd e) /\
      payments_of u' =
        payments_of u ++
        [mkpayment (strftime_ymd_hms now) 60 "Credit Card" "Completed"] /\
      u_plan u' = u_plan u /\ u_password u' = u_password u /\
      (forall k, k <> username ->
         Dict.get k (a_users a') = Dict.get k (a_users a)) /\
      a_file a' = Some (a_users a') /\
      (date_ok (dt_date now) -> (1000 <= year (dt_date now))%Z ->
       (1 <= days)%Z ->
       is_subscription_active (a_users a') now username = Return true /\
       forall t, date_compare (dt_date t) e = Lt ->
         is_subscription_active (a_users a') t username = Return true))).
Proof.
  unfold renew_subscription. split.
  - intros E. unfold Dict.contains. now rewrite E.
  - intros u E. unfold Dict.contains. rewrite E. split.
    + intros ->. reflexivity.
    + intros e He. rewrite He. unfold record_payment. simpl.
      rewrite dict_contains_adjust. unfold Dict.contains. rewrite E. simpl.
      do 2 eexists. split; [reflexivity|]. simpl.
      rewrite !dict_get_adjust_same, E. simpl.
      split; [reflexivity|]. split; [reflexivity|]. split; [reflexivity|].
      split; [reflexivity|]. split; [reflexivity|].
      split; [intros k Hk; now rewrite !dict_get_adjust_other|].
      split; [reflexivity|].
      intros V Hy Hd. destruct (add_days_forward _ _ _ V Hd He) as [Ve L].
      assert (Hd0 : (0 <= days)%Z) by lia.
      assert (Hye : (1000 <= year e)%Z)
        by (destruct (add_days_year _ _ _ V Hd0 He); lia).
      split; [|intros t Lt];
        (apply (active_with_expiry _ _ _
                  (add_user_payment
                     (mkpayment (strftime_ymd_hms now) 60 "Credit Card"
                        "Completed")
                     (set_user_expiry (Some (strftime_ymd e)) u)) e);
         try assumption; try reflexivity;
         rewrite !dict_get_adjust_same, E; reflexivity).
Qed.

Lemma renew_subscription_activates_witness :
  is_subscription_active sample_users june_15_10am "alice" = Return false /\
  exists a',
    renew_subscription june_15_10am (mkAuthManager sample_users None) "alice" 30
      = (Return true, a') /\
    is_subscription_active (a_users a') june_15_10am "alice" = Return true /\
    option_map u_subscription_expiry (Dict.get "alice" (a_users a')) =
      Some (Some "2024-07-15").
Proof.
  split; [reflexivity|].
  assert (D : add_days 30 (dt_date june_15_10am) = Some (mkdate 2024 7 15))
    by (vm_compute; reflexivity).
  destruct (proj2 (proj2 (renew_subscription_activates june_15_10am
                            (mkAuthManager sample_users None) "alice" 30)
                     alice eq_refl) (mkdate 2024 7 15) D)
    as (a' & u' & H1 & H2 & H3 & _ & _ & _ & _ & _ & H9).
  assert (O : date_ok (dt_date june_15_10am)) by reflexivity.
  destruct (H9 O ltac:(simpl; lia) ltac:(lia)) as [H10 _].
  exists a'. split; [exact H1|]. split; [exact H10|].
  rewrite H2. simpl. rewrite H3. reflexivity.
Defined.

(** A renewal made in the year 999 stores an expiry with a year of three
    digits, and the subscription check raises on it. *)
Example renewal_before_year_1000 :
  let t := mkdatetime (mkdate 999 6 15) 10 0 0 0 in
  let a' := snd (renew_subscription t (mkAuthManager sample_users None) "alice" 30) in
  option_map u_subscription_expiry (Dict.get "alice" (a_users a'))
    = Some (Some "999-07-15") /\
  is_subscription_active (a_users a') t "alice" = Raise ValueError.
Proof. split; vm_compute; reflexivity. Qed.

(** ** Manual payments *)

Lemma in_pending_approvals a ap :
  In ap (get_pending_approvals a) <->
  exists u, In (ap_username ap, u) (a_users a) /\
            u_subscription_status u = Some "pending" /\
            ap_proof ap = u_payment_proof u /\ ap_joined ap = u_joined_at u.
Proof.
  unfold get_pending_approvals. rewrite in_flat_map. split.
  - intros ([k u] & Hin & H). simpl in H. unfold is_pending in H.
    destruct (u_subscription_status u) as [s|] eqn:E; [|contradiction].
    destruct (String.eqb s "pending") eqn:Es; [|contradiction].
    apply String.eqb_eq in Es; subst s. destruct H as [<-|[]].
    exists u. simpl. now repeat split.
  - intros (u & Hin & E & Hp & Hj). exists (ap_username ap, u).
    split; [exact Hin|]. simpl. unfold is_pending. rewrite E. simpl.
    left. destruct ap; simpl in *. now subst.
Qed.

(** X18.  [get_pending_approvals] lists, in the order of the accounts, the
    accounts whose status is [pending], each with its proof and its joining
    time.  [set_payment_pending] on an account puts it in the list with the
    proof that was given, and leaves its plan, expiry and payments alone, so
    that the account is as active or inactive as before; on a name without
    account it answers [False] and changes nothing. *)
Theorem set_payment_pending_listed a username proof_filename :
  (forall ap, In ap (get_pending_approvals a) <->
     exists u, In (ap_username ap, u) (a_users a) /\
               u_subscription_status u = Some "pending" /\
               ap_proof ap = u_payment_proof u /\ ap_joined ap = u_joined_at u) /\
  (Dict.get username (a_users a) = None ->
   set_payment_pending a username proof_filename = (false, a)) /\
  (forall u, Dict.get username (a_users a) = Some u ->
   exists a',
     set_payment_pending a username proof_filename = (true, a') /\
     In (mkapproval username proof_filename (u_joined_at u))
        (get_pending_approvals a') /\
     (forall t, is_subscription_active (a_users a') t username =
                is_subscription_active (a_users a) t username) /\
     option_map payments_of (Dict.get username (a_users a')) =
       Some (payments_of u) /\
     a_file a' = Some (a_users a')).
Proof.
  split; [intros ap; apply in_pending_approvals|].
  unfold set_payment_pending, Dict.contains. split.
  - intros E. now rewrite E.
  - intros u E. rewrite E. eexists. split; [reflexivity|].
    split; [|split; [|split; [|reflexivity]]].
    + apply in_pending_approvals. simpl.
      exists (set_user_proof proof_filename (set_user_status (Some "pending") u)).
      split; [|now repeat split].
      apply dict_get_in. now rewrite dict_get_adjust_same, E.
    + intros t. unfold is_subscription_active. simpl.
      now rewrite dict_get_adjust_same, E.
    + simpl. now rewrite dict_get_adjust_same, E.
Qed.

Lemma set_payment_pending_listed_witness :
  exists a',
    set_payment_pending (mkAuthManager sample_users None) "alice" (Some "slip.png")
      = (true, a') /\
    In (mkapproval "alice" (Some "slip.png") (Some "2024-05-16 09:00:00"))
       (get_pending_approvals a').
Proof.
  destruct (proj2 (proj2 (set_payment_pending_listed
                            (mkAuthManager sample_users None) "alice"
                            (Some "slip.png"))) alice eq_refl)
    as (a' & H1 & H2 & _).
  exists a'. split; [exact H1 | exact H2].
Defined.

(** X19.  [approve_manual_payment] on an account, pending or not, sets its
    status to [active] and its expiry to the thirtieth day from today, adds
    one completed payment of 2000 after the payments made before, and saves.
    When the clock shows a date of the year 1000 or later, the account is
    then active at the time of the call and on every day before the expiry
    date; and, the account names being distinct, it is no longer in the list
    of pending approvals.  On a name without account the call answers
    [False] and changes nothing. *)
Theorem approve_manual_payment_activates now a username :
  (Dict.get username (a_users a) = None ->
   approve_manual_payment now a username = (Return false, a)) /\
  (forall u e,
   Dict.get username (a_users a) = Some u ->
   add_days 30 (dt_date now) = Some e ->
   exists a' u',
     approve_manual_payment now a username = (Return true, a') /\
     Dict.get username (a_users a') = Some u' /\
     u_subscription_status u' = Some "active" /\
     u_subscription_expiry u' = Some (strftime_ymd e) /\
     payments_of u' =
       payments_of u ++
       [mkpayment (strftime_ymd_hms now) 2000 "Manual/JazzCash" "Completed"] /\
     u_plan u' = u_plan u /\
     (forall k, k <> username ->
        Dict.get k (a_users a') = Dict.get k (a_users a)) /\
     a_file a' = Some (a_users a') /\
     (Dict.wf (a_users a) ->
      forall ap, In ap (get_pending_approvals a') -> ap_username ap <> username) /\
     (date_ok (dt_date now) -> (1000 <= year (dt_date now))%Z ->
      is_subscription_active (a_users a') now username = Return true /\
      forall t, date_compare (dt_date t) e = Lt ->
        is_subscription_active (a_users a') t username = Return true)).
Proof.
  unfold approve_manual_payment. split.
  - intros E. unfold Dict.contains. now rewrite E.
  - intros u e E He. unfold Dict.contains. rewrite E, He.
    unfold record_payment. simpl.
    rewrite !dict_contains_adjust. unfold Dict.contains. rewrite E. simpl.
    set (u' := add_user_payment
                 (mkpayment (strftime_ymd_hms now) 2000 "Manual/JazzCash"
                    "Completed")
                 (set_user_expiry (Some (strftime_ymd e))
                    (set_user_status (Some "active") u))).
    assert (G : Dict.get username
              (Dict.adjust username
                 (add_user_payment
                    (mkpayment (strftime_ymd_hms now) 2000 "Manual/JazzCash"
                       "Completed"))
                 (Dict.adjust username (set_user_expiry (Some (strftime_ymd e)))
                    (Dict.adjust username (set_user_status (Some "active"))
                       (a_users a)))) = Some u')
      by (now rewrite !dict_get_adjust_same, E).
    exists (save_users
              (mkAuthManager
                 (Dict.adjust username
                    (add_user_payment
                       (mkpayment (strftime_ymd_hms now) 2000 "Manual/JazzCash"
                          "Completed"))
                    (Dict.adjust username
                       (set_user_expiry (Some (strftime_ymd e)))
                       (Dict.adjust username (set_user_status (Some "active"))
                          (a_users a))))
                 (a_file a))), u'.
    split; [reflexivity|]. simpl. split; [exact G|].
    split; [reflexivity|]. split; [reflexivity|]. split; [reflexivity|].
    split; [reflexivity|].
    split; [intros k Hk; now rewrite !dict_get_adjust_other|].
    split; [reflexivity|]. split.
    + intros W ap Hin Hn. apply in_pending_approvals in Hin.
      destruct Hin as (x & Hx & Hs & _). simpl in Hx. rewrite Hn in Hx.
      apply dict_in_get in Hx; [|now repeat apply dict_wf_adjust].
      rewrite G in Hx. injection Hx as <-. discriminate Hs.
    + intros V Hy. assert (Hd : (1 <= 30)%Z) by lia.
      assert (Hd0 : (0 <= 30)%Z) by lia.
      destruct (add_days_forward _ _ _ V Hd He) as [Ve L].
      assert (Hye : (1000 <= year e)%Z)
        by (destruct (add_days_year _ _ _ V Hd0 He); lia).
      split; [|intros t Lt];
        (apply (active_with_expiry _ _ _ u' e);
         [exact G | reflexivity | exact Ve | exact Hye | assumption]).
Qed.

Lemma approve_manual_payment_activates_witness :
  is_pending
    (present_user
       (Dict.get "alice"
          (a_users (snd (set_payment_pending (mkAuthManager sample_users None)
                           "alice" (Some "slip.png")))))) = true /\
  exists a',
    approve_manual_payment june_15_10am
      (snd (set_payment_pending (mkAuthManager sample_users None) "alice"
              (Some "slip.png"))) "alice" = (Return true, a') /\
    (forall ap, In ap (get_pending_approvals a') -> ap_username ap <> "alice") /\
    is_subscription_active (a_users a') june_15_10am "alice" = Return true.
Proof.
  split; [vm_compute; reflexivity|].
  assert (D : add_days 30 (dt_date june_15_10am) = Some (mkdate 2024 7 15))
    by (vm_compute; reflexivity).
  assert (G : Dict.get "alice"
                (a_users (snd (set_payment_pending
                                 (mkAuthManager sample_users None) "alice"
                                 (Some "slip.png")))) =
              Some (set_user_proof (Some "slip.png")
                      (set_user_status (Some "pending") alice)))
    by (vm_compute; reflexivity).
  destruct (proj2 (approve_manual_payment_activates june_15_10am
                     (snd (set_payment_pending (mkAuthManager sample_users None)
                             "alice" (Some "slip.png"))) "alice")
              _ _ G D)
    as (a' & u' & H1 & _ & _ & _ & _ & _ & _ & _ & H9 & H10).
  assert (O : date_ok (dt_date june_15_10am)) by reflexivity.
  destruct (H10 O ltac:(simpl; lia)) as [H11 _].
  exists a'. split; [exact H1|]. split; [|exact H11].
  apply H9. vm_compute. repeat constructor; simpl; intuition discriminate.
Defined.

(** ** Data files *)

Lemma safe_char_not_space c : safe_char c = true -> isspace c = false.
Proof.
  destruct c as [[] [] [] [] [] [] [] []]; vm_compute; congruence.
Qed.

Lemma lstrip_no_space s :
  forall_string (fun c => negb (isspace c)) s = true -> lstrip s = s.
Proof.
  destruct s as [|c r]; simpl; [reflexivity|].
  intros H. apply andb_true_iff in H. destruct H as [H _].
  now destruct (isspace c).
Qed.

Lemma rstrip_no_space s :
  forall_string (fun c => negb (isspace c)) s = true -> rstrip s = s.
Proof.
  induction s as [|c r IH]; simpl; [reflexivity|].
  intros H. apply andb_true_iff in H. destruct H as [Hc Hr].
  rewrite (IH Hr). destruct r; [|reflexivity].
  now destruct (isspace c).
Qed.

Lemma filter_string_all p s : forall_string p (filter_string p s) = true.
Proof.
  induction s as [|c r IH]; simpl; [reflexivity|].
  destruct (p c) eqn:E; simpl; [now rewrite E|exact IH].
Qed.

Lemma forall_string_impl (p q : ascii -> bool) s :
  (forall c, p c = true -> q c = true) ->
  forall_string p s = true -> forall_string q s = true.
Proof.
  intros H. induction s as [|c r IH]; simpl; [reflexivity|].
  intros E. apply andb_true_iff in E. destruct E as [E1 E2].
  now rewrite (H c E1), IH.
Qed.

Lemma filter_string_app p a b :
  filter_string p (a ++ b)%string =
  (filter_string p a ++ filter_string p b)%string.
Proof.
  induction a as [|c r IH]; simpl; [reflexivity|].
  destruct (p c); simpl; now rewrite IH.
Qed.

(** X20.  For a user name in ASCII, the data file is [gym_data/], the
    letters, digits, [@], [.] and [_] of the name in their order, and
    [.json]: the name part has no other character, so no [/], and stripping
    it changes nothing.  The characters that are dropped do not count: two
    names that differ only by such a character, a space or a [+] say, are
    given the same file, and so share one gym document. *)
Theorem get_user_data_file_collides username :
  is_ascii username = true ->
  get_user_data_file username =
    ("gym_data/" ++ filter_string safe_char username ++ ".json")%string /\
  forall_string safe_char (filter_string safe_char username) = true /\
  forall_string (fun c => negb (Ascii.eqb c "/"))
    (filter_string safe_char username) = true /\
  (forall a c b, username = (a ++ String c b)%string -> safe_char c = false ->
     get_user_data_file (a ++ b)%string = get_user_data_file username) /\
  (forall_string safe_char username = true ->
   get_user_data_file username = ("gym_data/" ++ username ++ ".json")%string).
Proof.
  intros _.
  assert (S : forall u, strip (filter_string safe_char u) = filter_string safe_char u).
  { intros u. unfold strip.
    assert (N : forall_string (fun c => negb (isspace c))
                  (filter_string safe_char u) = true).
    { apply (forall_string_impl safe_char); [|apply filter_string_all].
      intros c H. now rewrite (safe_char_not_space c H). }
    now rewrite (lstrip_no_space _ N), (rstrip_no_space _ N). }
  unfold get_user_data_file. rewrite S.
  split; [reflexivity|]. split; [apply filter_string_all|].
  split; [|split].
  - apply (forall_string_impl safe_char); [|apply filter_string_all].
    intros c. destruct c as [[] [] [] [] [] [] [] []]; vm_compute; congruence.
  - intros a c b -> Hc. rewrite S, !filter_string_app. simpl. now rewrite Hc.
  - intros H. f_equal. f_equal. clear S.
    induction username as [|c r IH]; simpl in *; [reflexivity|].
    apply andb_true_iff in H. destruct H as [H1 H2]. rewrite H1. f_equal. auto.
Qed.

Lemma get_user_data_file_collides_witness :
  get_user_data_file "ann+gym@x.com" = "gym_data/anngym@x.com.json" /\
  get_user_data_file "anngym@x.com" = get_user_data_file "ann+gym@x.com".
Proof.
  split.
  - rewrite (proj1 (get_user_data_file_collides "ann+gym@x.com" eq_refl)).
    reflexivity.
  - apply (proj1 (proj2 (proj2 (proj2
             (get_user_data_file_collides "ann+gym@x.com" eq_refl))))
             "ann" "+"%char "gym@x.com"); reflexivity.
Defined.

(** ** Uploads *)

Lemma after_last_dot_no_dot s :
  forall_string (fun c => negb (Ascii.eqb c ".")) s = true ->
  after_last_dot s = None.
Proof.
  induction s as [|c r IH]; simpl; [reflexivity|].
  intros H. apply andb_true_iff in H. destruct H as [H1 H2].
  rewrite (IH H2). now destruct (Ascii.eqb c ".").
Qed.

Lemma after_last_dot_append base ext :
  forall_string (fun c => negb (Ascii.eqb c ".")) ext = true ->
  after_last_dot (base ++ String "." ext)%string = Some ext.
Proof.
  intros H. induction base as [|c r IH]; simpl.
  - now rewrite (after_last_dot_no_dot ext H).
  - now rewrite IH.
Qed.

(** X21.  [allowed_file] looks only at what follows the last dot of the
    file name, in ASCII: a name is accepted exactly when that part, in lower
    case, is [png], [jpg], [jpeg] or [gif].  A name without a dot is
    refused, and so is a name that ends with a dot or whose last extension
    is another one, whatever comes before. *)
Theorem allowed_file_last_extension :
  (forall filename,
     forall_string (fun c => negb (Ascii.eqb c ".")) filename = true ->
     allowed_file filename = false) /\
  (forall base ext,
     is_ascii ext = true ->
     forall_string (fun c => negb (Ascii.eqb c ".")) ext = true ->
     allowed_file (base ++ String "." ext)%string =
       existsb (String.eqb (lower ext)) ALLOWED_EXTENSIONS /\
     (allowed_file (base ++ String "." ext)%string = true <->
      lower ext = "png" \/ lower ext = "jpg" \/ lower ext = "jpeg" \/
      lower ext = "gif")) /\
  (forall base, allowed_file (base ++ ".")%string = false).
Proof.
  split; [|split].
  - intros f H. unfold allowed_file. now rewrite after_last_dot_no_dot.
  - intros base ext _ H. unfold allowed_file.
    rewrite (after_last_dot_append base ext H). split; [reflexivity|].
    unfold ALLOWED_EXTENSIONS. cbn [existsb]. rewrite orb_false_r.
    rewrite !orb_true_iff, !String.eqb_eq. 
    split; intros Hx; intuition congruence.
  - intros base. unfold allowed_file.
    rewrite (after_last_dot_append base "" eq_refl). reflexivity.
Qed.

Lemma allowed_file_last_extension_witness :
  allowed_file "photo.JPG" = true /\ allowed_file "photo.png.exe" = false /\
  allowed_file "README" = false.
Proof.
  split; [|split].
  - apply (proj2 (proj1 (proj2 allowed_file_last_extension) "photo" "JPG"
                    eq_refl eq_refl)).
    right. left. reflexivity.
  - exact (proj1 (proj1 (proj2 allowed_file_last_extension) "photo.png" "exe"
                    eq_refl eq_refl)).
  - apply (proj1 allowed_file_last_extension). reflexivity.
Defined.

(** ** Expiry dates that are stored *)

Lemma expiries_ok_adjust a username (f : user -> user) fl :
  (forall u, match u_subscription_expiry (f u) with
             | None => True
             | Some s => exists e, date_ok e /\ (1000 <= year e)%Z /\
                                   s = strftime_ymd e
             end \/
             u_subscription_expiry (f u) = u_subscription_expiry u) ->
  expiries_ok a ->
  expiries_ok (mkAuthManager (Dict.adjust username f (a_users a)) fl).
Proof.
  intros Hf I k u H. simpl in H. apply dict_in_adjust in H.
  destruct H as [H|(-> & v & G & ->)]; [now apply (I k)|].
  destruct (Hf v) as [H|H]; [exact H|].
  rewrite H. apply (I username). now apply dict_get_in.
Qed.

Lemma expiries_ok_record_payment now a username amount method :
  expiries_ok a -> expiries_ok (record_payment now a username amount method).
Proof.
  intros I. unfold record_payment.
  destruct (negb (Dict.contains username (a_users a))); [exact I|].
  apply expiries_ok_adjust; [|exact I]. intros u. now right.
Qed.

Lemma expiries_ok_save a : expiries_ok a -> expiries_ok (save_users a).
Proof. intros I k u H. now apply (I k). Qed.

(** X22.  On the accounts that the operations of [AuthManager] build, with
    a clock that shows dates of the year 1000 or later and renewals by a
    number of days that is not negative, the subscription check never
    raises.  Every expiry that [create_user], [renew_subscription],
    [approve_manual_payment] and [set_payment_pending] then store or keep is
    a date of the year 1000 or later as [strftime] writes it; and on such
    accounts [is_subscription_active] returns an answer for every name and
    at every time. *)
Theorem subscription_check_never_raises :
  expiries_ok (mkAuthManager Dict.empty None) /\
  (forall hash_password now a username password referral_code,
     expiries_ok a ->
     expiries_ok (snd (create_user hash_password now a username password
                         referral_code))) /\
  (forall now a username days,
     date_ok (dt_date now) -> (1000 <= year (dt_date now))%Z ->
     (0 <= days)%Z -> expiries_ok a ->
     expiries_ok (snd (renew_subscription now a username days))) /\
  (forall now a username,
     date_ok (dt_date now) -> (1000 <= year (dt_date now))%Z ->
     expiries_ok a ->
     expiries_ok (snd (approve_manual_payment now a username))) /\
  (forall a username proof_filename,
     expiries_ok a ->
     expiries_ok (snd (set_payment_pending a username proof_filename))) /\
  (forall a t username,
     expiries_ok a ->
     exists b, is_subscription_active (a_users a) t username = Return b).
Proof.
  split; [intros k u []|]. split; [|split; [|split; [|split]]].
  - intros h now a username password rc Hi. unfold create_user.
    destruct (Dict.contains username (a_users a)); [exact Hi|]. simpl.
    intros k u H. simpl in H. apply dict_in_set in H.
    destruct H as [[_ ->]|H]; [|now apply (Hi k)]. simpl.
    destruct (truthy rc && validate_referral rc); [|exact I].
    exists (mkdate 2099 12 31). split; [reflexivity|]. split; [simpl; lia|].
    reflexivity.
  - intros now a username days V Hy Hd Hi. unfold renew_subscription.
    destruct (Dict.contains username (a_users a)); [|exact Hi].
    destruct (add_days days (dt_date now)) as [e|] eqn:E; [|exact Hi]. simpl.
    apply expiries_ok_save, expiries_ok_record_payment.
    apply expiries_ok_adjust; [|exact Hi]. intros u. left. simpl.
    destruct (add_days_year _ _ _ V Hd E) as [Ve Ye].
    exists e. split; [exact Ve|]. split; [lia | reflexivity].
  - intros now a username V Hy Hi. unfold approve_manual_payment.
    destruct (Dict.contains username (a_users a)); [|exact Hi].
    assert (I1 : expiries_ok
                   (mkAuthManager
                      (Dict.adjust username (set_user_status (Some "active"))
                         (a_users a)) (a_file a))).
    { apply expiries_ok_adjust; [|exact Hi]. intros u. now right. }
    destruct (add_days 30 (dt_date now)) as [e|] eqn:E; [|exact I1]. simpl.
    apply expiries_ok_save, expiries_ok_record_payment.
    apply (expiries_ok_adjust
             (mkAuthManager
                (Dict.adjust username (set_user_status (Some "active"))
                   (a_users a)) (a_file a))); [|exact I1].
    intros u. left. simpl.
    assert (Hd : (0 <= 30)%Z) by lia.
    destruct (add_days_year _ _ _ V Hd E) as [Ve Ye].
    exists e. split; [exact Ve|]. split; [lia | reflexivity].
  - intros a username pf Hi. unfold set_payment_pending.
    destruct (Dict.contains username (a_users a)); [|exact Hi]. simpl.
    apply expiries_ok_save. apply expiries_ok_adjust; [|exact Hi].
    intros u. now right.
  - intros a t username Hi. unfold is_subscription_active.
    destruct (Dict.get username (a_users a)) as [u|] eqn:G; [|now eexists].
    destruct (match u_plan u with
              | Some p => String.eqb p "free_lifetime"
              | None => false
              end); [now eexists|].
    destruct (truthy (u_subscription_expiry u)) eqn:T; simpl; [|now eexists].
    pose proof (Hi username u (dict_get_in _ _ _ G)) as H.
    destruct (u_subscription_expiry u) as [s|]; [|discriminate T].
    destruct H as (e & V & Hy & ->). simpl.
    rewrite (strptime_strftime e V Hy). now eexists.
Qed.

Lemma subscription_check_never_raises_witness :
  exists b,
    is_subscription_active
      (a_users (snd (renew_subscription june_15_10am
                       (snd (create_user (fun p => p) noon
                               (mkAuthManager Dict.empty None) "cy" "pw" None))
                       "cy" 30))) june_15_10am "cy" = Return b.
Proof.
  destruct subscription_check_never_raises as (H0 & Hc & Hr & _ & _ & Hq).
  apply Hq. apply Hr; [reflexivity | simpl; lia | lia |]. apply Hc. exact H0.
Defined.
